(** * CSV-to-SQL-Server uploader: schema-driven reconciliation and coercion

    A shallow embedding of [main_upload_data.py].  The program reads a CSV
    file as raw text, keeps the columns the destination table knows,
    derives the [_Parsed] date columns, coerces every column to the
    declared type of the destination column and appends the result to the
    table inside one transaction.

    Python strings are modelled by [string], one [ascii] per character:
    the texts are those over the first 256 code points.  A [dict] and the
    column list of a DataFrame are association lists that keep insertion
    order.  A column of a DataFrame is a dtype and a list of cells, the
    cells are tagged values.

    The parsers of pandas ([pd.to_numeric], [pd.to_datetime]) are library
    code: what they read from one text is a parameter of the development,
    gathered in the record [Pandas].  What pandas does with a whole column
    is written out: [pd.to_numeric] gives a column one dtype ([int64],
    [uint64] or [float64]), [pd.to_datetime] reads every text of a column
    the same way, which it chooses from the column, and an assignment
    through [.loc] keeps the dtype of an [object] column.  The dtypes are
    those of pandas 2. *)

From Stdlib Require Import String Ascii List Bool ZArith Lia Floats.
Import ListNotations.

Open Scope string_scope.
Open Scope list_scope.

(** ** Python string operations *)

Module PyStr.

(** [sub in s] *)
Fixpoint contains (sub s : string) : bool :=
  prefix sub s ||
  match s with
  | EmptyString => false
  | String _ s' => contains sub s'
  end.

(** [s.endswith(suf)] *)
Fixpoint endswith (suf s : string) : bool :=
  String.eqb s suf ||
  match s with
  | EmptyString => false
  | String _ s' => endswith suf s'
  end.

(** [s.replace(old, new)] for a non-empty [old]: the occurrences are
    found from left to right and do not overlap; [skip] counts the
    characters of a matched occurrence that are still to be dropped. *)
Fixpoint replace_from (old new : string) (skip : nat) (s : string) : string :=
  match s with
  | EmptyString => EmptyString
  | String c s' =>
      match skip with
      | S k => replace_from old new k s'
      | O =>
          if prefix old s
          then new ++ replace_from old new (String.length old - 1) s'
          else String c (replace_from old new 0 s')
      end
  end.

Definition replace (old new s : string) : string :=
  match old with
  | EmptyString => s
  | String _ _ => replace_from old new 0 s
  end.

(** [s[:-n]] for [n > 0] *)
Definition drop_last (n : nat) (s : string) : string :=
  substring 0 (String.length s - n) s.

(** The characters for which [str.isspace] holds, among the first 256
    code points: the ASCII white space and separators, the next-line
    control U+0085 and the no-break space U+00A0. *)
Definition isspace (c : ascii) : bool :=
  let n := nat_of_ascii c in
  ((9 <=? n)%nat && (n <=? 13)%nat) || ((28 <=? n)%nat && (n <=? 32)%nat)
  || (n =? 133)%nat || (n =? 160)%nat.

Fixpoint lstrip (s : string) : string :=
  match s with
  | EmptyString => EmptyString
  | String c s' => if isspace c then lstrip s' else s
  end.

Fixpoint rstrip (s : string) : string :=
  match s with
  | EmptyString => EmptyString
  | String c s' =>
      let r := rstrip s' in
      if isspace c && String.eqb r EmptyString then EmptyString else String c r
  end.

(** [s.strip()] *)
Definition strip (s : string) : string := rstrip (lstrip s).

(** [x in l] for a list of strings *)
Definition mem (x : string) (l : list string) : bool :=
  existsb (String.eqb x) l.

End PyStr.

(** ** Dictionaries and column lists

    A Python [dict] keeps its keys in insertion order; assigning to a key
    that is present keeps its position.  The columns of a DataFrame behave
    the same way under [df[name] = values]. *)

Module Dict.
Section Dict.
Context {V : Type}.

Definition t := list (string * V).

Fixpoint get (k : string) (d : t) : option V :=
  match d with
  | [] => None
  | (k', v) :: d' => if String.eqb k k' then Some v else get k d'
  end.

Fixpoint set (k : string) (v : V) (d : t) : t :=
  match d with
  | [] => [(k, v)]
  | (k', v') :: d' =>
      if String.eqb k k' then (k', v) :: d' else (k', v') :: set k v d'
  end.

Definition keys (d : t) : list string := map fst d.

Definition has_key (k : string) (d : t) : bool := PyStr.mem k (keys d).

(** [d = {}; for (k, v) in rows: d[k] = v] *)
Definition of_rows (rows : list (string * V)) : t :=
  fold_left (fun d kv => set (fst kv) (snd kv) d) rows [].
End Dict.
Arguments t : clear implicits.
End Dict.

(** ** Cells and columns

    [pd.Timestamp] values are nanoseconds since the Unix epoch, the way
    [datetime64[ns]] stores them.  [NA] stands for the missing markers of
    pandas ([NaN], [NaT], [<NA>]). *)

(** The dtypes the columns of [df_filtered] take: the texts of the file
    and whatever is assigned to them through [.loc] ([object]), a derived
    column ([datetime64[ns]]), the result of [.astype('Int64')], and the
    integer view of a [datetime64] column ([int64]). *)
Inductive dtype_name : Type := object | int64 | Int64 | datetime64.

Section Cells.
Variable float : Type.

Inductive cell : Type :=
  | Str (s : string)
  | Int (z : Z)
  | Float (f : float)
  | Time (ns : Z)
  | NA.

(** What the development takes from pandas: how it reads one text, and
    the value of a float. *)
Record Pandas : Type := {
    (** [pd.to_numeric] on a text that is an integer literal: the
        integer, of any size; [None] for every other text *)
    parse_int : string -> option Z;
    (** [pd.to_numeric] on a text, read as a float; [None] when the text
        is no number, where [errors='coerce'] gives [NaN] *)
    parse_float : string -> option float;
    (** [pd.to_datetime(_, errors='coerce')] on one text of a column of
        texts: pandas reads the texts of a column in one format, which it
        takes from the column, so the value of a text depends on the
        column it stands in; [None] where the result is [NaT] *)
    parse_datetime : list string -> string -> option Z;
    (** the integer a float is equal to, [None] when there is none (a
        fraction, an infinity, a [NaN]) *)
    float_to_int : float -> option Z;
    (** [pd.to_datetime] on a float: nanoseconds since the epoch *)
    float_to_ns : float -> option Z
  }.

Definition is_str (c : cell) : bool :=
  match c with Str _ => true | _ => false end.

Definition is_int (c : cell) : bool :=
  match c with Int _ => true | _ => false end.

Definition is_time (c : cell) : bool :=
  match c with Time _ => true | _ => false end.

Definition is_na (c : cell) : bool :=
  match c with NA => true | _ => false end.

(** A column: its dtype and its values in index order. *)
Record series : Type := {
    dtype_of : dtype_name;
    values : list cell
  }.

(** A DataFrame: the length of its index and its columns in order. *)
Record frame : Type := {
    nrows : nat;
    data : Dict.t series
  }.

(** The values of the columns, without their dtypes. *)
Definition columns (df : frame) : Dict.t (list cell) :=
  map (fun kv => (fst kv, values (snd kv))) (data df).

(** The DataFrame [pd.read_csv(dtype=str, keep_default_na=False,
    na_filter=False)] returns: every cell is a text. *)
Record csv : Type := {
    csv_rows : nat;
    csv_columns : Dict.t (list string)
  }.
End Cells.

Arguments Str {float} s.
Arguments Int {float} z.
Arguments Float {float} f.
Arguments Time {float} ns.
Arguments NA {float}.
Arguments parse_int {float} _ _.
Arguments parse_float {float} _ _.
Arguments parse_datetime {float} _ _ _.
Arguments float_to_int {float} _ _.
Arguments float_to_ns {float} _ _.
Arguments is_str {float} c.
Arguments is_int {float} c.
Arguments is_time {float} c.
Arguments is_na {float} c.
Arguments dtype_of {float} _.
Arguments values {float} _.
Arguments Build_series {float} _ _.
Arguments nrows {float} _.
Arguments data {float} _.
Arguments columns {float} df.
Arguments Build_frame {float} _ _.

(** ** The log

    [logging] messages keep their level and the values their format
    string interpolates; the exception text of [{e}] is the exception.
    The exceptions are those of class [Exception], told apart as far as
    the handlers of the program tell them apart. *)

Inductive level : Type := INFO | WARNING | ERROR.

Inductive exn : Type :=
| ValueError
| SQLAlchemyError
| FileNotFoundError
| OtherException.

Inductive message : Type :=
| MsgStart (filepath : string)
| MsgEnvMissing
| MsgConnected
| MsgConnFailed (db_user db_server db_database : option string)
| MsgCheckFollowing
| MsgCheckCredentials
| MsgCheckRemote
| MsgCheckFirewall
| MsgOriginalError (e : exn)
| MsgFetching (schema_name table_name : string)
| MsgTableNotFound (schema_name table_name : string)
| MsgFetchFailed (schema_name table_name : string) (e : exn)
| MsgHalting (db_schema table_name : string)
| MsgReading (filepath : string)
| MsgReadRows (n : nat)
| MsgDiscarding (db_schema table_name : string) (discarded_columns : list string)
| MsgDeriving (db_col source_col : string)
| MsgCoerceFailed (col dtype : string)
| MsgUploading (n : nat) (db_schema table_name : string)
| MsgUploadDone
| MsgUploadError (e : exn)
| MsgRolledBack
| MsgFileNotFound (filepath : string)
| MsgUnexpected (e : exn).

Definition entry : Type := level * message.

(** ** Dates

    [pd.Timestamp('1900-01-01 00:00:00')] in nanoseconds since the epoch,
    computed from the civil date. *)

Module Date.
Open Scope Z_scope.

Definition days_from_civil (y m d : Z) : Z :=
  let y' := if m <=? 2 then y - 1 else y in
  let era := y' / 400 in
  let yoe := y' - era * 400 in
  let mp := if 2 <? m then m - 3 else m + 9 in
  let doy := (153 * mp + 2) / 5 + d - 1 in
  let doe := yoe * 365 + yoe / 4 - yoe / 100 + doy in
  era * 146097 + doe - 719468.

Definition timestamp (y m d hh mm ss : Z) : Z :=
  (((days_from_civil y m d * 24 + hh) * 60 + mm) * 60 + ss) * 1000000000.

Definition default_date : Z := timestamp 1900 1 1 0 0 0.
End Date.

(** ** The stages of [upload_data] between reading and writing *)

Section Stages.
Variable float : Type.
Variable L : Pandas float.

Local Abbreviation cell := (cell float).
Local Abbreviation frame := (frame float).

(** *** Series operations *)

Local Abbreviation series := (series float).

(** [.fillna(v)] on one cell *)
Definition fillna (v c : cell) : cell := if is_na c then v else c.

(** A [.str] method on one cell: a value that is no text gives [NaN]. *)
Definition str_method (f : string -> string) (c : cell) : cell :=
  match c with
  | Str s => Str (f s)
  | _ => NA
  end.

(** [series.dtype == 'object'] *)
Definition dtype_is_object (c : series) : bool :=
  match dtype_of c with
  | object => true
  | _ => false
  end.

(** The [.str] accessor of an [object] column: pandas raises
    [AttributeError] unless the values it finds are texts.  A column
    without values, or with missing markers only, passes; so does a
    column that holds a text. *)
Definition str_accessor (v : list cell) : bool :=
  forallb is_na v || existsb is_str v.

(** The texts of a column that holds texts only. *)
Fixpoint texts_of (v : list cell) : option (list string) :=
  match v with
  | [] => Some []
  | Str s :: v' =>
      match texts_of v' with
      | Some l => Some (s :: l)
      | None => None
      end
  | _ :: _ => None
  end.

Definition in_int64 (z : Z) : bool :=
  ((- 2 ^ 63 <=? z) && (z <? 2 ^ 63))%Z.

Definition in_uint64 (z : Z) : bool :=
  ((0 <=? z) && (z <? 2 ^ 64))%Z.

(** The integers of a column whose every text is an integer literal. *)
Fixpoint parse_ints (l : list string) : option (list Z) :=
  match l with
  | [] => Some []
  | s :: l' =>
      match parse_int L s, parse_ints l' with
      | Some z, Some zs => Some (z :: zs)
      | _, _ => None
      end
  end.

(** One text read as a float, [NaN] when it is no number. *)
Definition float_cell (s : string) : cell :=
  match parse_float L s with
  | Some f => Float f
  | None => NA
  end.

(** [pd.to_numeric(_, errors='coerce')] on a column of texts.  The
    result has one dtype: [int64] when every text is an integer that
    fits, [uint64] when every text is an integer, none is negative and
    every one fits [uint64], and [float64] otherwise, where every text
    is read as a float. *)
Definition numeric_of_texts (l : list string) : list cell :=
  match parse_ints l with
  | Some zs =>
      if forallb in_int64 zs || forallb in_uint64 zs
      then map Int zs
      else map float_cell l
  | None => map float_cell l
  end.

(** [pd.to_numeric] on a value of a column that does not hold texts
    only: a number stays, a timestamp gives its integer view. *)
Definition to_numeric_cell (c : cell) : cell :=
  match c with
  | Str s =>
      match parse_int L s with
      | Some z => Int z
      | None => float_cell s
      end
  | Int z => Int z
  | Float f => Float f
  | Time ns => Int ns
  | NA => NA
  end.

(** [pd.to_numeric(_, errors='coerce')] on the values of a column *)
Definition to_numeric (v : list cell) : list cell :=
  match texts_of v with
  | Some l => numeric_of_texts l
  | None => map to_numeric_cell v
  end.

(** One text of a column of texts under [pd.to_datetime] *)
Definition datetime_cell (column : list string) (s : string) : cell :=
  match parse_datetime L column s with
  | Some ns => Time ns
  | None => NA
  end.

(** [pd.to_datetime] on a value of a column that does not hold texts
    only: a timestamp stays, a number counts nanoseconds. *)
Definition to_datetime_cell (c : cell) : cell :=
  match c with
  | Str s => datetime_cell [s] s
  | Int z => Time z
  | Float f =>
      match float_to_ns L f with
      | Some ns => Time ns
      | None => NA
      end
  | Time ns => Time ns
  | NA => NA
  end.

(** [pd.to_datetime(_, errors='coerce')] on the values of a column *)
Definition to_datetime (v : list cell) : list cell :=
  match texts_of v with
  | Some l => map (datetime_cell l) l
  | None => map to_datetime_cell v
  end.

(** [.astype('Int64')] on one cell, [None] when pandas raises: the cast
    is safe, an integer beyond [int64] (a value of a [uint64] column)
    and a float that is no such integer cannot be cast. *)
Definition as_Int64 (c : cell) : option cell :=
  match c with
  | Int z => if in_int64 z then Some (Int z) else None
  | Float f =>
      match float_to_int L f with
      | Some z => if in_int64 z then Some (Int z) else None
      | None => None
      end
  | NA => Some NA
  | Str _ => None
  | Time _ => None
  end.

(** [.astype('Int64')] on a column: it raises as soon as one value
    cannot be cast. *)
Fixpoint astype_Int64 (v : list cell) : option (list cell) :=
  match v with
  | [] => Some []
  | c :: v' =>
      match as_Int64 c, astype_Int64 v' with
      | Some c', Some r => Some (c' :: r)
      | _, _ => None
      end
  end.

(** [df[name] = column], also the effect of [df.loc[:, name] = column] *)
Definition set_column (name : string) (c : series) (df : frame) : frame :=
  {| nrows := nrows df; data := Dict.set name c (data df) |}.

(** *** Column matching (lines 110-118) *)

Definition discarded_columns (csv_cols db_columns : list string) : list string :=
  filter (fun col => negb (PyStr.mem col db_columns)) csv_cols.

Definition final_columns (csv_cols db_columns : list string) : list string :=
  filter (fun col => PyStr.mem col db_columns) csv_cols.

(** [df[names].copy()] *)
Definition select (names : list string) (df : csv) : csv :=
  {| csv_rows := csv_rows df;
     csv_columns :=
       flat_map (fun n => match Dict.get n (csv_columns df) with
                          | Some v => [(n, v)]
                          | None => []
                          end) names |}.

(** *** Textual blanks (lines 120-135) *)

Definition text_type_markers : list string :=
  ["char"; "nchar"; "varchar"; "nvarchar"; "text"; "ntext"; "xml";
   "uniqueidentifier"].

Definition is_text_type (dtype : string) : bool :=
  existsb (fun t => PyStr.contains t dtype) text_type_markers.

Definition blank_tokens : Dict.t string :=
  [("NULL", ""); ("null", ""); ("NaN", ""); ("nan", "")].

(** [.astype(str).str.strip().replace({...})] on one text *)
Definition normalize_text (s : string) : string :=
  let s' := PyStr.strip s in
  match Dict.get s' blank_tokens with
  | Some r => r
  | None => s'
  end.

Definition normalize_step (df : csv) (item : string * string) : csv :=
  let (col, dtype) := item in
  match Dict.get col (csv_columns df) with
  | Some v =>
      if is_text_type dtype
      then {| csv_rows := csv_rows df;
              csv_columns := Dict.set col (map normalize_text v) (csv_columns df) |}
      else df
  | None => df
  end.

Definition normalize_blanks (table_schema : Dict.t string) (df : csv) : csv :=
  fold_left normalize_step table_schema df.

(** The texts of [df_filtered] as cells. *)
Definition frame_of_csv (df : csv) : frame :=
  {| nrows := csv_rows df;
     data := map (fun kv => (fst kv, {| dtype_of := object;
                                        values := map Str (snd kv) |}))
                 (csv_columns df) |}.

(** *** Derived [_Parsed] columns (lines 137-146) *)

(** The values of a derived column: the texts without their last four
    characters are parsed as one column, and a missing result is filled
    with the default date. *)
Definition derive_column (raw : list string) : list cell :=
  map (fillna (Time Date.default_date))
      (to_datetime (map Str (map (PyStr.drop_last 4) raw))).

(** The nanoseconds of one row of a derived column: the shortened text
    as [pd.to_datetime] reads it in the column of the shortened texts,
    and the default date where it gives [NaT]. *)
Definition derived_value (column : list string) (text : string) : Z :=
  match parse_datetime L column text with
  | Some ns => ns
  | None => Date.default_date
  end.

Definition source_col_of (db_col : string) : string :=
  PyStr.replace "_Parsed" "" db_col.

Definition derive_step (df : csv) (acc : frame * list entry) (db_col : string)
  : frame * list entry :=
  if PyStr.endswith "_Parsed" db_col then
    let source_col := source_col_of db_col in
    match Dict.get source_col (csv_columns df) with
    | Some raw =>
        (set_column db_col {| dtype_of := datetime64;
                              values := derive_column raw |} (fst acc),
         snd acc ++ [(INFO, MsgDeriving db_col source_col)])
    | None => acc
    end
  else acc.

Definition derive_columns (df : csv) (db_columns : list string) (df_filtered : frame)
  : frame * list entry :=
  fold_left (derive_step df) db_columns (df_filtered, []).

(** *** Data type coercion (lines 148-169) *)

Definition is_int_type (dtype : string) : bool :=
  PyStr.contains "int" dtype || PyStr.contains "bigint" dtype.

Definition is_float_type (dtype : string) : bool :=
  existsb (fun t => PyStr.contains t dtype) ["float"; "decimal"; "numeric"; "money"].

Definition is_date_type (dtype : string) : bool :=
  PyStr.contains "date" dtype || PyStr.contains "time" dtype.

Definition zero_tokens : list string := [""; "NULL"; "null"; "NaN"; "nan"].

(** [.replace(['', 'NULL', 'null', 'NaN', 'nan'], '0')] on one cell *)
Definition replace_blank (c : cell) : cell :=
  match c with
  | Str s => if PyStr.mem s zero_tokens then Str "0" else c
  | _ => c
  end.

Definition strip_currency (c : cell) : cell :=
  str_method (PyStr.replace "," "") (str_method (PyStr.replace "$" "") c).

(** The dtype of [pd.to_numeric] on a column that is no [object]
    column: a [datetime64] column gives its [int64] view. *)
Definition numeric_dtype (d : dtype_name) : dtype_name :=
  match d with
  | datetime64 => int64
  | _ => d
  end.

(** The body of the [try] for one column.  The result is the column as
    the body leaves it and whether an exception reached the handler.
    The integer branch has stored the column of line 154 when line 155
    raises.  In the decimal branch the [.str] accessor raises on an
    [object] column that holds numbers, before anything is stored.  An
    assignment through [.loc] keeps the dtype of an [object] column and
    stores the values as they are; a column of another dtype takes the
    dtype of the values. *)
Definition coerce_column (col dtype : string) (c : series) : series * bool :=
  if is_int_type dtype then
    let v1 := map replace_blank (values c) in
    match astype_Int64 (map (fillna (Int 0)) (to_numeric v1)) with
    | Some v2 => ({| dtype_of := Int64; values := v2 |}, false)
    | None => ({| dtype_of := dtype_of c; values := v1 |}, true)
    end
  else if is_float_type dtype then
    if dtype_is_object c then
      if str_accessor (values c)
      then ({| dtype_of := object;
               values := to_numeric (map strip_currency (values c)) |}, false)
      else (c, true)
    else ({| dtype_of := numeric_dtype (dtype_of c);
             values := to_numeric (values c) |}, false)
  else if is_date_type dtype then
    if negb (PyStr.endswith "_Parsed" col)
    then ({| dtype_of := if dtype_is_object c then object else datetime64;
             values := to_datetime (values c) |}, false)
    else (c, false)
  else
    if dtype_is_object c
    then ({| dtype_of := object; values := map (fillna (Str "")) (values c) |},
          false)
    else (c, false).

Definition coerce_step (acc : frame * list entry) (item : string * string)
  : frame * list entry :=
  let (col, dtype) := item in
  match Dict.get col (data (fst acc)) with
  | Some c =>
      let (c', raised) := coerce_column col dtype c in
      (set_column col c' (fst acc),
       if raised
       then snd acc ++ [(WARNING, MsgCoerceFailed col dtype)]
       else snd acc)
  | None => acc
  end.

Definition coerce_types (table_schema : Dict.t string) (df_filtered : frame)
  : frame * list entry :=
  fold_left coerce_step table_schema (df_filtered, []).

(** *** Lines 110-169 as one function: the table handed to [to_sql]
    and the entries logged on the way. *)

Definition discard_log (db_schema table_name : string) (discarded : list string)
  : list entry :=
  match discarded with
  | [] => []
  | _ :: _ => [(WARNING, MsgDiscarding db_schema table_name discarded)]
  end.

Definition prepare (db_schema table_name : string) (table_schema : Dict.t string)
  (df : csv) : frame * list entry :=
  let csv_cols := Dict.keys (csv_columns df) in
  let db_columns := Dict.keys table_schema in
  let discarded := discarded_columns csv_cols db_columns in
  let final := final_columns csv_cols db_columns in
  let df_filtered := select final df in
  let df_filtered := normalize_blanks table_schema df_filtered in
  let (df_derived, log_derive) :=
    derive_columns df db_columns (frame_of_csv df_filtered) in
  let (df_coerced, log_coerce) := coerce_types table_schema df_derived in
  (df_coerced, discard_log db_schema table_name discarded ++ log_derive ++ log_coerce).

(** *** What the stages compute, column by column *)

(** The table the derivation starts from. *)
Definition reconciled (table_schema : Dict.t string) (df : csv) : frame :=
  frame_of_csv
    (normalize_blanks table_schema
       (select (final_columns (Dict.keys (csv_columns df)) (Dict.keys table_schema)) df)).

(** The texts a derived column is read from. *)
Definition derived_from (df : csv) (db_columns : list string) (k : string)
  : option (list string) :=
  if PyStr.mem k db_columns && PyStr.endswith "_Parsed" k
  then Dict.get (source_col_of k) (csv_columns df)
  else None.

(** The entry the derivation of one schema column logs. *)
Definition derive_entry (df : csv) (c : string) : list entry :=
  if PyStr.endswith "_Parsed" c then
    match Dict.get (source_col_of c) (csv_columns df) with
    | Some _ => [(INFO, MsgDeriving c (source_col_of c))]
    | None => []
    end
  else [].

(** A column after the coercion stage. *)
Definition coerced_entry (s : Dict.t string) (kv : string * series)
  : string * series :=
  (fst kv,
   match Dict.get (fst kv) s with
   | Some dt => fst (coerce_column (fst kv) dt (snd kv))
   | None => snd kv
   end).

(** The warning the handler logs for one schema item, read on the table
    the stage starts from. *)
Definition coerce_warning (df : frame) (item : string * string) : list entry :=
  match Dict.get (fst item) (data df) with
  | Some v =>
      if snd (coerce_column (fst item) (snd item) v)
      then [(WARNING, MsgCoerceFailed (fst item) (snd item))]
      else []
  | None => []
  end.

(** A number or a missing marker: what [pd.to_numeric] leaves. *)
Definition numeric (c : cell) : bool :=
  match c with
  | Int _ | Float _ | NA => true
  | Str _ | Time _ => false
  end.

(** A timestamp or a missing marker: what [pd.to_datetime] leaves. *)
Definition temporal (c : cell) : bool :=
  match c with
  | Time _ | NA => true
  | _ => false
  end.

(** An integer that fits [int64]: what an [Int64] column holds besides
    the missing marker. *)
Definition is_int64 (c : cell) : bool :=
  match c with
  | Int z => in_int64 z
  | _ => false
  end.

(** The type names SQL Server reports in [INFORMATION_SCHEMA.COLUMNS]. *)
Definition system_types : list string :=
  ["bigint"; "int"; "smallint"; "tinyint"; "bit"; "decimal"; "numeric";
   "money"; "smallmoney"; "float"; "real"; "date"; "time"; "datetime";
   "datetime2"; "smalldatetime"; "datetimeoffset"; "char"; "varchar";
   "text"; "nchar"; "nvarchar"; "ntext"; "binary"; "varbinary"; "image";
   "uniqueidentifier"; "xml"; "sql_variant"; "timestamp"; "hierarchyid";
   "geography"; "geometry"].

(** How many of the four tests of the program a type name passes. *)
Definition families (dtype : string) : nat :=
  Nat.b2n (is_int_type dtype) + Nat.b2n (is_float_type dtype)
  + Nat.b2n (is_date_type dtype) + Nat.b2n (is_text_type dtype).
End Stages.

Arguments fillna {float} v c.
Arguments str_method {float} f c.
Arguments dtype_is_object {float} c.
Arguments str_accessor {float} v.
Arguments texts_of {float} v.
Arguments parse_ints {float} L l.
Arguments float_cell {float} L s.
Arguments numeric_of_texts {float} L l.
Arguments to_numeric_cell {float} L c.
Arguments to_numeric {float} L v.
Arguments datetime_cell {float} L column s.
Arguments to_datetime_cell {float} L c.
Arguments to_datetime {float} L v.
Arguments as_Int64 {float} L c.
Arguments astype_Int64 {float} L v.
Arguments set_column {float} name c df.
Arguments frame_of_csv {float} df.
Arguments derive_column {float} L raw.
Arguments derived_value {float} L column text.
Arguments derive_step {float} L df acc db_col.
Arguments derive_columns {float} L df db_columns df_filtered.
Arguments replace_blank {float} c.
Arguments strip_currency {float} c.
Arguments coerce_column {float} L col dtype c.
Arguments coerce_step {float} L acc item.
Arguments coerce_types {float} L table_schema df_filtered.
Arguments prepare {float} L db_schema table_name table_schema df.
Arguments reconciled {float} table_schema df.
Arguments coerced_entry {float} L s kv.
Arguments coerce_warning {float} L df item.
Arguments numeric {float} c.
Arguments temporal {float} c.
Arguments is_int64 {float} c.

(** ** The outside world

    What a run meets outside the program: the environment, the [.env]
    file, the database server and the file system. *)

Record world : Type := {
  (** [os.environ] when the process starts *)
  environ : string -> option string;
  (** the entries of the [.env] file *)
  dotenv : string -> option string;
  (** [create_engine] and the test connection: the exception raised *)
  connect : option exn;
  (** the rows of the [INFORMATION_SCHEMA.COLUMNS] query for a table name
      and a schema name, or the exception raised *)
  query_columns : string -> string -> list (string * string) + exn;
  (** [pd.read_csv] on a path *)
  read_csv : string -> csv + exn;
  (** the exception the server raises on the k-th batch of [to_sql] *)
  insert_batch : nat -> option exn;
  (** the exception the server raises on commit *)
  commit : option exn
}.

(** [to_sql(..., chunksize=size)] sends the rows in batches. *)
Fixpoint batches_from {A : Type} (size fuel : nat) (l : list A) : list (list A) :=
  match fuel with
  | O => []
  | S fuel' =>
      match l with
      | [] => []
      | _ :: _ => firstn size l :: batches_from size fuel' (skipn size l)
      end
  end.

Definition batches {A : Type} (size : nat) (l : list A) : list (list A) :=
  batches_from size (List.length l) l.

Section Program.
Variable float : Type.
Variable L : Pandas float.
Variable w : world.

Local Abbreviation cell := (cell float).
Local Abbreviation frame := (frame float).

Definition row : Type := list cell.

(** The rows of a DataFrame, in index order. *)
Definition rows_of (df : frame) : list row :=
  map (fun i => map (fun kv => nth i (snd kv) NA) (columns df))
      (seq 0 (nrows df)).

(** What can be observed of a run. *)
Inductive event : Type :=
  | Log (e : entry)
  | ReadCsv (filepath : string)
  | Begin
  | Insert (rows : list row)
  | Commit
  | Rollback.

(** The events so far, oldest first, and the rows of the destination
    table as the connection sees them. *)
Record state : Type := {
    trace : list event;
    table : list row
  }.

Inductive result (A : Type) : Type :=
  | Return (a : A)
  | Raise (e : exn).
Arguments Return {A} a.
Arguments Raise {A} e.

Definition M (A : Type) : Type := state -> result A * state.

Definition ret {A : Type} (a : A) : M A := fun st => (Return a, st).

Definition raise {A : Type} (e : exn) : M A := fun st => (Raise e, st).

Definition bind {A B : Type} (m : M A) (k : A -> M B) : M B :=
  fun st =>
    match m st with
    | (Return a, st') => k a st'
    | (Raise e, st') => (Raise e, st')
    end.

(** [try: body except ...: handler]; a handler that does not match the
    exception raises it again. *)
Definition try_except {A : Type} (body : M A) (handler : exn -> M A) : M A :=
  fun st =>
    match body st with
    | (Return a, st') => (Return a, st')
    | (Raise e, st') => handler e st'
    end.

Definition emit (ev : event) : M unit :=
  fun st => (Return tt, {| trace := trace st ++ [ev]; table := table st |}).

Definition log (lvl : level) (msg : message) : M unit := emit (Log (lvl, msg)).

Local Notation "x <- m ;; k" := (bind m (fun x => k))
  (at level 61, m at next level, right associativity).
Local Notation "m ;; k" := (bind m (fun _ => k))
  (at level 61, right associativity).

Fixpoint log_all (entries : list entry) : M unit :=
  match entries with
  | [] => ret tt
  | e :: entries' => emit (Log e) ;; log_all entries'
  end.

(** A Python value is true in [all([...])] when it is a non-empty
    string. *)
Definition truthy (v : option string) : bool :=
  match v with
  | Some (String _ _) => true
  | _ => false
  end.

(** [os.getenv] once [load_dotenv()] has run: the [.env] file does not
    override the environment. *)
Definition getenv (k : string) : option string :=
  match environ w k with
  | Some v => Some v
  | None => dotenv w k
  end.

(** [get_db_engine] (lines 23-62); the engine itself carries nothing
    the rest of the run looks at. *)
Definition get_db_engine : M unit :=
  let db_server := getenv "DB_SERVER" in
  let db_database := getenv "DB_DATABASE" in
  let db_user := getenv "DB_USER" in
  if negb (truthy db_server && truthy db_database && truthy db_user) then
    log ERROR MsgEnvMissing ;;
    raise ValueError
  else
    try_except
      (match connect w with
       | None => log INFO MsgConnected
       | Some e => raise e
       end)
      (fun e =>
         match e with
         | SQLAlchemyError =>
             log ERROR (MsgConnFailed db_user db_server db_database) ;;
             log ERROR MsgCheckFollowing ;;
             log ERROR MsgCheckCredentials ;;
             log ERROR MsgCheckRemote ;;
             log ERROR MsgCheckFirewall ;;
             log ERROR (MsgOriginalError e) ;;
             raise e
         | _ => raise e
         end).

(** [get_table_schema] (lines 64-83): the schema, empty when the query
    has no row, or [None] when the query failed. *)
Definition get_table_schema (table_name schema_name : string)
  : M (option (Dict.t string)) :=
  log INFO (MsgFetching schema_name table_name) ;;
  try_except
    (match query_columns w table_name schema_name with
     | inl rows =>
         let schema := Dict.of_rows rows in
         match schema with
         | [] => log WARNING (MsgTableNotFound schema_name table_name)
         | _ :: _ => ret tt
         end ;;
         ret (Some schema)
     | inr e => raise e
     end)
    (fun e =>
       match e with
       | SQLAlchemyError =>
           log ERROR (MsgFetchFailed schema_name table_name e) ;;
           ret None
       | _ => raise e
       end).

Definition pd_read_csv (filepath : string) : M csv :=
  emit (ReadCsv filepath) ;;
  match read_csv w filepath with
  | inl df => ret df
  | inr e => raise e
  end.

(** [with engine.begin() as connection: body]: the block commits when
    the body returns and rolls back when it raises; after a rollback the
    table is what it was when the block was entered. *)
Definition with_begin {A : Type} (body : M A) : M A :=
  fun st =>
    let undo (st' : state) : state :=
      {| trace := trace st' ++ [Rollback]; table := table st |} in
    match (emit Begin ;; body) st with
    | (Return a, st') =>
        match commit w with
        | None => (Return a, {| trace := trace st' ++ [Commit]; table := table st' |})
        | Some e => (Raise e, undo st')
        end
    | (Raise e, st') => (Raise e, undo st')
    end.

Fixpoint insert_batches (k : nat) (bs : list (list row)) : M unit :=
  match bs with
  | [] => ret tt
  | b :: bs' =>
      match insert_batch w k with
      | None =>
          (fun st => (Return tt, {| trace := trace st ++ [Insert b];
                                    table := table st ++ b |})) ;;
          insert_batches (S k) bs'
      | Some e => raise e
      end
  end.

(** [df.to_sql(..., if_exists='append', index=False, chunksize=5000)] *)
Definition to_sql (df : frame) : M unit :=
  insert_batches 0 (batches 5000 (rows_of df)).

(** The upload (lines 171-180). *)
Definition upload (db_schema table_name : string) (df_filtered : frame) : M unit :=
  log INFO (MsgUploading (nrows df_filtered) db_schema table_name) ;;
  try_except
    (with_begin (to_sql df_filtered ;; log INFO MsgUploadDone))
    (fun e =>
       match e with
       | SQLAlchemyError =>
           log ERROR (MsgUploadError e) ;;
           log ERROR MsgRolledBack
       | _ => raise e
       end).

(** [upload_data] (lines 85-185) *)
Definition upload_data (filepath table_name : string) : M unit :=
  log INFO (MsgStart filepath) ;;
  try_except
    (let db_schema :=
       match environ w "DB_SCHEMA" with
       | Some s => s
       | None => "tcn"
       end in
     get_db_engine ;;
     table_schema <- get_table_schema table_name db_schema ;;
     match table_schema with
     | None => log ERROR (MsgHalting db_schema table_name)
     | Some [] => log ERROR (MsgHalting db_schema table_name)
     | Some ((_ :: _) as schema) =>
         log INFO (MsgReading filepath) ;;
         df <- pd_read_csv filepath ;;
         log INFO (MsgReadRows (csv_rows df)) ;;
         let (df_filtered, entries) := prepare L db_schema table_name schema df in
         log_all entries ;;
         upload db_schema table_name df_filtered
     end)
    (fun e =>
       match e with
       | FileNotFoundError => log ERROR (MsgFileNotFound filepath)
       | _ => log ERROR (MsgUnexpected e)
       end).

(** A run from an empty trace. *)
Definition run (filepath table_name : string) (table0 : list row)
  : result unit * state :=
  upload_data filepath table_name {| trace := []; table := table0 |}.

(** *** Notions used to speak about a run *)

(** [os.getenv("DB_SCHEMA", 'tcn')], read before [load_dotenv()] runs. *)
Definition db_schema_of : string :=
  match environ w "DB_SCHEMA" with
  | Some s => s
  | None => "tcn"
  end.

(** The credentials are set and the server answers. *)
Definition engine_ok : bool :=
  truthy (getenv "DB_SERVER") && truthy (getenv "DB_DATABASE")
  && truthy (getenv "DB_USER")
  && match connect w with None => true | Some _ => false end.

(** The first exception among the batches [k], ..., [k + n - 1]. *)
Fixpoint first_failure (k n : nat) : option exn :=
  match n with
  | O => None
  | S n' =>
      match insert_batch w k with
      | Some e => Some e
      | None => first_failure (S k) n'
      end
  end.

(** The exception that ends a write of [n] batches, if any: the first
    batch the server refuses, or else the commit. *)
Definition write_error (n : nat) : option exn :=
  match first_failure 0 n with
  | Some e => Some e
  | None => commit w
  end.

(** How many transactions a trace opens. *)
Definition begins (tr : list event) : nat :=
  List.length (filter (fun ev => match ev with Begin => true | _ => false end) tr).

(** An event of a write that is neither the opening nor the end of a
    transaction nor an error: an inserted batch or an [INFO] entry. *)
Definition quiet (ev : event) : bool :=
  match ev with
  | Insert _ => true
  | Log (INFO, _) => true
  | _ => false
  end.

(** The schema and the file a run reaches the column matching with, if
    it gets that far: the engine is there, the schema query returns
    columns and the file is read. *)
Definition reaches_matching (filepath table_name : string)
  : option (Dict.t string * csv) :=
  if engine_ok then
    match query_columns w table_name db_schema_of with
    | inl rows =>
        match Dict.of_rows rows with
        | [] => None
        | (_ :: _) as schema =>
            match read_csv w filepath with
            | inl df => Some (schema, df)
            | inr _ => None
            end
        end
    | inr _ => None
    end
  else None.

(** The error entries a failed write ends with: those of the handler of
    the upload for a database error, that of the handler of
    [upload_data] for any other exception. *)
Definition write_error_entries (filepath : string) (e : exn) : list event :=
  match e with
  | SQLAlchemyError =>
      [Log (ERROR, MsgUploadError e); Log (ERROR, MsgRolledBack)]
  | FileNotFoundError => [Log (ERROR, MsgFileNotFound filepath)]
  | _ => [Log (ERROR, MsgUnexpected e)]
  end.

(** The events of a run before the column matching logs anything. *)
Definition opening_events (filepath table_name : string) (df : csv) : list event :=
  [Log (INFO, MsgStart filepath);
   Log (INFO, MsgConnected);
   Log (INFO, MsgFetching db_schema_of table_name);
   Log (INFO, MsgReading filepath);
   ReadCsv filepath;
   Log (INFO, MsgReadRows (csv_rows df))].
End Program.

Arguments rows_of {float} df.
Arguments Log {float} e.
Arguments ReadCsv {float} filepath.
Arguments Begin {float}.
Arguments Insert {float} rows.
Arguments Commit {float}.
Arguments Rollback {float}.
Arguments trace {float} s.
Arguments table {float} s.
Arguments Build_state {float} trace table.
Arguments Return {A} a.
Arguments Raise {A} e.
Arguments ret {float A} a _.
Arguments raise {float A} e _.
Arguments bind {float A B} m k _.
Arguments try_except {float A} body handler _.
Arguments emit {float} ev _.
Arguments log {float} lvl msg _.
Arguments log_all {float} entries _.
Arguments get_db_engine {float} w _.
Arguments get_table_schema {float} w table_name schema_name _.
Arguments pd_read_csv {float} w filepath _.
Arguments with_begin {float} w {A} body _.
Arguments insert_batches {float} w k bs _.
Arguments to_sql {float} w df _.
Arguments upload {float} w db_schema table_name df_filtered _.
Arguments upload_data {float} L w filepath table_name _.
Arguments run {float} L w filepath table_name table0.
Arguments begins {float} tr.
Arguments quiet {float} ev.
Arguments write_error_entries {float} filepath e.
Arguments opening_events {float} w filepath table_name df.

(** ** A sample instance of the library parameters

    Plain decimal literals and ISO dates, with the binary64 floats of
    the kernel for [float64]: enough to run the pipeline on concrete
    files.  The dates of a column are read in the format of its first
    text that is not blank. *)

Module Sample.

Definition digit (c : ascii) : option Z :=
  let n := nat_of_ascii c in
  if ((48 <=? n)%nat && (n <=? 57)%nat)%bool
  then Some (Z.of_nat (n - 48))
  else None.

(** The leading digits of a text: their value, how many they are, and
    the rest of the text. *)
Fixpoint read_digits (s : string) (acc : Z) (count : nat) : Z * nat * string :=
  match s with
  | EmptyString => (acc, count, s)
  | String c s' =>
      match digit c with
      | Some d => read_digits s' (acc * 10 + d)%Z (S count)
      | None => (acc, count, s)
      end
  end.

(** An unsigned literal: its digits as one integer and the number of
    digits behind the point, [None] for a literal without point. *)
Definition unsigned_literal (s : string) : option (Z * option nat) :=
  let '(ip, ni, rest) := read_digits s 0%Z 0 in
  match rest with
  | EmptyString => if (ni =? 0)%nat then None else Some (ip, None)
  | String "." frac =>
      let '(fp, nf, rest') := read_digits frac 0%Z 0 in
      match rest' with
      | EmptyString =>
          if (ni + nf =? 0)%nat then None
          else Some ((ip * 10 ^ Z.of_nat nf + fp)%Z, Some nf)
      | String _ _ => None
      end
  | String _ _ => None
  end.

(** A literal with its sign. *)
Definition literal (s : string) : option (bool * Z * option nat) :=
  match s with
  | String "-" s' => option_map (fun l => (true, fst l, snd l)) (unsigned_literal s')
  | _ => option_map (fun l => (false, fst l, snd l)) (unsigned_literal s)
  end.

Definition signed (negative : bool) (z : Z) : Z :=
  if negative then (- z)%Z else z.

Definition integer (s : string) : option Z :=
  match literal s with
  | Some (negative, m, None) => Some (signed negative m)
  | _ => None
  end.

(** The binary64 float nearest to an integer. *)
Definition float_of_Z (z : Z) : float :=
  SF2Prim (binary_normalize prec emax z 0 false).

Definition decimal (s : string) : option float :=
  match literal s with
  | Some (negative, m, None) => Some (float_of_Z (signed negative m))
  | Some (negative, m, Some k) =>
      Some (PrimFloat.div (float_of_Z (signed negative m))
                          (float_of_Z (10 ^ Z.of_nat k)))
  | None => None
  end.

(** The integer a binary64 float is equal to. *)
Definition integral (f : float) : option Z :=
  match Prim2SF f with
  | S754_zero _ => Some 0%Z
  | S754_finite negative m e =>
      let z := if negative then Z.neg m else Z.pos m in
      if (0 <=? e)%Z then Some (z * 2 ^ e)%Z
      else if (Z.pos m mod 2 ^ (- e) =? 0)%Z then Some (z / 2 ^ (- e))%Z
      else None
  | S754_infinity _ => None
  | S754_nan => None
  end.

Definition number_at (i n : nat) (s : string) : option Z :=
  let '(v, k, _) := read_digits (substring i n s) 0%Z 0 in
  if (k =? n)%nat then Some v else None.

Definition char_at (i : nat) (c : ascii) (s : string) : bool :=
  match String.get i s with
  | Some c' => Ascii.eqb c c'
  | None => false
  end.

Definition iso_date (s : string) : option Z :=
  match number_at 0 4 s, number_at 5 2 s, number_at 8 2 s with
  | Some y, Some m, Some d =>
      if (char_at 4 "-" s && char_at 7 "-" s
          && (1 <=? m)%Z && (m <=? 12)%Z && (1 <=? d)%Z && (d <=? 31)%Z)%bool
      then Some (Date.days_from_civil y m d)
      else None
  | _, _, _ => None
  end.

Definition iso_time (s : string) : option Z :=
  match number_at 11 2 s, number_at 14 2 s, number_at 17 2 s with
  | Some hh, Some mm, Some ss =>
      if (char_at 10 " " s && char_at 13 ":" s && char_at 16 ":" s
          && (hh <? 24)%Z && (mm <? 60)%Z && (ss <? 60)%Z)%bool
      then Some ((hh * 60 + mm) * 60 + ss)%Z
      else None
  | _, _, _ => None
  end.

(** A text in one of the two formats: a date, or a date and a time. *)
Definition iso_datetime (s : string) : option Z :=
  if (String.length s =? 10)%nat then
    option_map (fun d => (d * 86400 * 1000000000)%Z) (iso_date s)
  else if (String.length s =? 19)%nat then
    match iso_date s, iso_time s with
    | Some d, Some t => Some ((d * 86400 + t) * 1000000000)%Z
    | _, _ => None
    end
  else None.

(** The format of a column: the length of its first text that is not
    blank, when that text is in one of the two formats. *)
Definition column_format (column : list string) : option nat :=
  match find (fun s => negb (String.eqb s "")) column with
  | Some first =>
      match iso_datetime first with
      | Some _ => Some (String.length first)
      | None => None
      end
  | None => None
  end.

(** A text of a column: read in the format of the column, or on its own
    when the column has no format. *)
Definition datetime_in (column : list string) (s : string) : option Z :=
  match column_format column with
  | Some n => if (String.length s =? n)%nat then iso_datetime s else None
  | None => iso_datetime s
  end.

Definition pandas : Pandas float :=
  {| parse_int := integer;
     parse_float := decimal;
     parse_datetime := datetime_in;
     float_to_int := integral;
     float_to_ns := integral |}.

(** A server that accepts everything. *)
Definition world_of (rows : list (string * string)) (df : csv) : world :=
  {| environ := fun _ => None;
     dotenv := fun k =>
       if PyStr.mem k ["DB_SERVER"; "DB_DATABASE"; "DB_USER"; "DB_PASSWORD"]
       then Some "x" else None;
     connect := None;
     query_columns := fun _ _ => inl rows;
     read_csv := fun _ => inl df;
     insert_batch := fun _ => None;
     commit := None |}.

(** A destination table, a file for it, and servers. *)
Definition schema_rows : list (string * string) :=
  [("ID", "int"); ("Amount", "money"); ("EventDateTZ", "varchar");
   ("EventDateTZ_Parsed", "datetime")].

Definition file : csv :=
  {| csv_rows := 3;
     csv_columns :=
       [("ID", ["7"; ""; "x"]);
        ("Amount", ["$1,234.50"; "n/a"; "12"]);
        ("EventDateTZ", ["2024-01-01 UTC"; ""; "soon"]);
        ("Junk", ["a"; "b"; "c"])] |}.

(** The texts of [file] that the schema knows, as the coercion stage
    receives them. *)
Definition texts : frame float := frame_of_csv
  {| csv_rows := 3;
     csv_columns :=
       [("ID", ["7"; ""; "x"]);
        ("Amount", ["$1,234.50"; "n/a"; "12"]);
        ("EventDateTZ", ["2024-01-01 UTC"; ""; "soon"])] |}.

Definition server : world := world_of schema_rows file.

Definition refusing_server : world :=
  {| environ := environ server;
     dotenv := dotenv server;
     connect := None;
     query_columns := query_columns server;
     read_csv := read_csv server;
     insert_batch := fun _ => Some SQLAlchemyError;
     commit := None |}.

Definition unreachable_server : world :=
  {| environ := environ server;
     dotenv := dotenv server;
     connect := Some SQLAlchemyError;
     query_columns := query_columns server;
     read_csv := read_csv server;
     insert_batch := insert_batch server;
     commit := None |}.

Definition server_without_file : world :=
  {| environ := environ server;
     dotenv := dotenv server;
     connect := None;
     query_columns := query_columns server;
     read_csv := fun _ => inr FileNotFoundError;
     insert_batch := insert_batch server;
     commit := None |}.

Definition server_without_table : world := world_of [] file.

(** An integer column with a fraction in the file. *)
Definition fractions : frame float := frame_of_csv
  {| csv_rows := 2; csv_columns := [("ID", ["3.5"; ""])] |}.

(** An integer column with a value beyond [int64]. *)
Definition beyond_int64 : frame float := frame_of_csv
  {| csv_rows := 2; csv_columns := [("ID", ["9223372036854775808"; "1"])] |}.

(** A file whose base column changes its format after the first row. *)
Definition two_formats : csv :=
  {| csv_rows := 2;
     csv_columns := [("X", ["2001-02-03 10:00:00 UTC"; "2001-02-03 UTC"])] |}.

(** A file whose only column is the base of a derived column. *)
Definition dates_only : csv :=
  {| csv_rows := 1; csv_columns := [("X", ["2024-01-01 UTC"])] |}.

(** A file whose column name itself ends in [_Parsed]. *)
Definition parsed_twice : csv :=
  {| csv_rows := 1; csv_columns := [("A_Parsed", ["2024-01-01 UTC"])] |}.

End Sample.

(** ** A derived column, row by row *)

(** A derived column read row by row: each row of [X_Parsed] is the
    date that the text of that row without its last four characters is
    on its own, or the default date, for the schema columns and the
    declared types that [ok] admits. *)
Definition parsed_row_by_row (ok : string -> string -> Prop) : Prop :=
  forall (s : Dict.t string) (df : csv) (X dt : string) (raw : list string),
    NoDup (Dict.keys s) ->
    Dict.get (X ++ "_Parsed")%string s = Some dt ->
    Dict.get X (csv_columns df) = Some raw ->
    ok X dt ->
    Dict.get (X ++ "_Parsed")%string
             (columns (fst (prepare Sample.pandas "tcn" "recordDump" s df)))
    = Some (map (fun text =>
                   let shortened := PyStr.drop_last 4 text in
                   match parse_datetime Sample.pandas [shortened] shortened with
                   | Some ns => Time ns
                   | None => Time Date.default_date
                   end) raw).

(** ** Notions used by the further properties *)

(** Every column of the file has one text for each row. *)
Definition csv_wf (df : csv) : Prop :=
  Forall (fun kv => List.length (snd kv) = csv_rows df) (csv_columns df).

(** The same world with one more entry in its [.env] file. *)
Definition with_dotenv (w : world) (key value : string) : world :=
  {| environ := environ w;
     dotenv := fun k => if String.eqb k key then Some value else dotenv w k;
     connect := connect w;
     query_columns := query_columns w;
     read_csv := read_csv w;
     insert_batch := insert_batch w;
     commit := commit w |}.

(** The credentials [get_db_engine] asks for are set. *)
Definition credentials_set (w : world) : bool :=
  truthy (getenv w "DB_SERVER") && truthy (getenv w "DB_DATABASE")
  && truthy (getenv w "DB_USER").

(** Files, schemas and servers for the further properties. *)

Module Cases.

Definition schema : Dict.t string :=
  [("Name", "nvarchar"); ("Born", "date"); ("Seen_Parsed", "datetime");
   ("Score", "real")].

(** A name between a no-break space and ASCII spaces. *)
Definition padded_name : string :=
  String (ascii_of_nat 160) " Ann ".

Definition file : csv :=
  {| csv_rows := 2;
     csv_columns :=
       [("Name", [padded_name; "NULL"]);
        ("Born", ["2001-02-03"; ""]);
        ("Seen_Parsed", ["2024-01-01"; "x"]);
        ("Score", ["$1"; " 2 "])] |}.

(** A date column whose second text is a date that is not in the format
    of the first. *)
Definition births : csv :=
  {| csv_rows := 2;
     csv_columns := [("Born", ["2001-02-03 10:00:00"; "2001-02-03"])] |}.

(** The sample table with a fraction in its integer column. *)
Definition texts_with_fraction : frame float := frame_of_csv
  {| csv_rows := 3;
     csv_columns :=
       [("ID", ["7"; "3.5"; "x"]);
        ("Amount", ["$1,234.50"; "n/a"; "12"]);
        ("EventDateTZ", ["2024-01-01 UTC"; ""; "soon"])] |}.

Definition without_credentials : world :=
  {| environ := fun _ => None;
     dotenv := fun k => if String.eqb k "DB_SERVER" then Some "" else Some "x";
     connect := None;
     query_columns := query_columns Sample.server;
     read_csv := read_csv Sample.server;
     insert_batch := fun _ => None;
     commit := None |}.

Definition failing_query : world :=
  {| environ := environ Sample.server;
     dotenv := dotenv Sample.server;
     connect := None;
     query_columns := fun _ _ => inr SQLAlchemyError;
     read_csv := read_csv Sample.server;
     insert_batch := fun _ => None;
     commit := None |}.

Definition unreadable_file : world :=
  {| environ := environ Sample.server;
     dotenv := dotenv Sample.server;
     connect := None;
     query_columns := query_columns Sample.server;
     read_csv := fun _ => inr OtherException;
     insert_batch := fun _ => None;
     commit := None |}.

Definition refusing_commit : world :=
  {| environ := environ Sample.server;
     dotenv := dotenv Sample.server;
     connect := None;
     query_columns := query_columns Sample.server;
     read_csv := read_csv Sample.server;
     insert_batch := fun _ => None;
     commit := Some SQLAlchemyError |}.

End Cases.

(** * Properties *)

(** ** Strings *)

Lemma mem_In (x : string) (l : list string) :
  PyStr.mem x l = true <-> In x l.
Proof.
  unfold PyStr.mem. rewrite existsb_exists. split.
  - intros [y [Hy Heq]]. apply String.eqb_eq in Heq. now subst.
  - intros H. exists x. split; [assumption | apply String.eqb_refl].
Qed.

Lemma mem_false_iff (x : string) (l : list string) :
  PyStr.mem x l = false <-> ~ In x l.
Proof.
  rewrite <- mem_In. destruct (PyStr.mem x l); split; intros; congruence.
Qed.

Lemma prefix_app (p s : string) : prefix p (p ++ s)%string = true.
Proof.
  induction p as [|c p IH]; simpl.
  - now destruct s.
  - destruct (ascii_dec c c); [assumption | congruence].
Qed.

(** [prefix p] looks at the first [length p] characters only. *)
Lemma prefix_app_l (p x y : string) :
  String.length p <= String.length x -> prefix p (x ++ y)%string = prefix p x.
Proof.
  revert x. induction p as [|c p IH]; intros x Hlen.
  - now destruct x; destruct y.
  - destruct x as [|d x]; simpl in Hlen; [lia|].
    simpl. destruct (ascii_dec c d); [apply IH; lia | reflexivity].
Qed.

Lemma endswith_refl (s : string) : PyStr.endswith s s = true.
Proof.
  destruct s; cbn [PyStr.endswith]; now rewrite String.eqb_refl.
Qed.

Lemma endswith_app (suf s : string) : PyStr.endswith suf (s ++ suf)%string = true.
Proof.
  induction s as [|c s IH].
  - apply endswith_refl.
  - cbn [append PyStr.endswith]. rewrite IH. apply orb_true_r.
Qed.

Lemma string_app_assoc (a b c : string) : ((a ++ b) ++ c = a ++ (b ++ c))%string.
Proof.
  induction a as [|x a IH]; simpl; [reflexivity | now rewrite IH].
Qed.

Lemma string_app_length (a b : string) :
  String.length (a ++ b)%string = String.length a + String.length b.
Proof.
  induction a as [|x a IH]; simpl; [reflexivity | now rewrite IH].
Qed.

(** The characters of a matched occurrence are dropped. *)
Lemma replace_from_skip (old new u s : string) :
  PyStr.replace_from old new (String.length u) (u ++ s)%string
  = PyStr.replace_from old new 0 s.
Proof.
  induction u as [|c u IH]; simpl; [reflexivity | exact IH].
Qed.

(** The first occurrence of [_Parsed] is removed wherever it stands, and
    the removal goes on behind it. *)
Lemma replace_Parsed_first (u v : string) :
  PyStr.contains "_Parsed" (u ++ "_Parse")%string = false ->
  PyStr.replace "_Parsed" "" (u ++ "_Parsed" ++ v)%string
  = (u ++ PyStr.replace "_Parsed" "" v)%string.
Proof.
  unfold PyStr.replace. induction u as [|a u IH]; intros Hfree.
  - assert (Hp : prefix "_Parsed" (String "_" ("Parsed" ++ v)%string) = true)
      by exact (prefix_app "_Parsed" v).
    change ("" ++ "_Parsed" ++ v)%string with (String "_" ("Parsed" ++ v)%string).
    cbn [PyStr.replace_from]. rewrite Hp.
    change (String.length "_Parsed" - 1) with (String.length "Parsed").
    now rewrite replace_from_skip.
  - cbn [append PyStr.contains] in Hfree.
    apply orb_false_iff in Hfree. destruct Hfree as [Hp Hc].
    change (String a u ++ "_Parsed" ++ v)%string
      with (String a (u ++ "_Parsed" ++ v)%string).
    change (String a u ++ PyStr.replace_from "_Parsed" "" 0 v)%string
      with (String a (u ++ PyStr.replace_from "_Parsed" "" 0 v)%string).
    cbn [PyStr.replace_from].
    assert (Hpre : prefix "_Parsed" (String a (u ++ "_Parsed" ++ v)%string) = false).
    { change (String a (u ++ "_Parsed" ++ v)%string)
        with (String a (u ++ ("_Parse" ++ "d" ++ v))%string).
      rewrite <- string_app_assoc.
      change (String a ((u ++ "_Parse") ++ "d" ++ v)%string)
        with (String a (u ++ "_Parse") ++ ("d" ++ v))%string.
      rewrite prefix_app_l; [exact Hp|].
      cbn [String.length]. rewrite string_app_length. simpl. lia. }
    rewrite Hpre. now rewrite IH.
Qed.

(** A name that holds no [_Parsed] is the base of its own derived
    column. *)
Lemma source_col_of_suffix (X : string) :
  PyStr.contains "_Parsed" (X ++ "_Parse")%string = false ->
  source_col_of (X ++ "_Parsed")%string = X.
Proof.
  intros Hfree. unfold source_col_of.
  pose proof (replace_Parsed_first X "" Hfree) as H.
  change ("_Parsed" ++ "")%string with "_Parsed" in H. rewrite H. clear H.
  change (PyStr.replace "_Parsed" "" "") with "".
  induction X as [|c X IH]; [reflexivity|].
  cbn [append]. f_equal. apply IH.
  cbn [append PyStr.contains] in Hfree.
  apply orb_false_iff in Hfree. tauto.
Qed.

(** ** Dictionaries *)

Section DictFacts.
Context {V : Type}.
Implicit Types (d : Dict.t V) (k x : string) (v : V).

Lemma get_set_same k v d : Dict.get k (Dict.set k v d) = Some v.
Proof.
  induction d as [|[k' v'] d IH]; simpl.
  - now rewrite String.eqb_refl.
  - destruct (String.eqb k k') eqn:E; simpl; rewrite E; [reflexivity | exact IH].
Qed.

Lemma get_set_other k k' v d :
  k <> k' -> Dict.get k (Dict.set k' v d) = Dict.get k d.
Proof.
  intros Hne. apply String.eqb_neq in Hne.
  induction d as [|[k2 v2] d IH]; simpl.
  - now rewrite Hne.
  - destruct (String.eqb k' k2) eqn:E; simpl.
    + apply String.eqb_eq in E. subst k2. now rewrite Hne.
    + now rewrite IH.
Qed.

Lemma get_set k k' v d :
  Dict.get k (Dict.set k' v d)
  = if String.eqb k k' then Some v else Dict.get k d.
Proof.
  destruct (String.eqb k k') eqn:E.
  - apply String.eqb_eq in E. subst. apply get_set_same.
  - apply String.eqb_neq in E. now apply get_set_other.
Qed.

Lemma keys_set k v d x :
  In x (Dict.keys (Dict.set k v d)) <-> In x (Dict.keys d) \/ x = k.
Proof.
  induction d as [|[k' v'] d IH]; simpl.
  - intuition congruence.
  - destruct (String.eqb k k') eqn:E; simpl.
    + apply String.eqb_eq in E. subst. intuition congruence.
    + rewrite IH. intuition.
Qed.

Lemma get_None k d : Dict.get k d = None <-> ~ In k (Dict.keys d).
Proof.
  induction d as [|[k' v'] d IH]; simpl.
  - intuition.
  - destruct (String.eqb k k') eqn:E.
    + apply String.eqb_eq in E. subst. intuition congruence.
    + apply String.eqb_neq in E. rewrite IH. intuition congruence.
Qed.

Lemma get_Some_In k d v : Dict.get k d = Some v -> In k (Dict.keys d).
Proof.
  intros H. destruct (in_dec string_dec k (Dict.keys d)) as [Hin|Hout].
  - assumption.
  - apply get_None in Hout. congruence.
Qed.

Lemma In_get_Some k d : In k (Dict.keys d) -> exists v, Dict.get k d = Some v.
Proof.
  intros Hin. destruct (Dict.get k d) as [v|] eqn:E.
  - now exists v.
  - apply get_None in E. contradiction.
Qed.

Lemma has_key_get k d : Dict.has_key k d = true <-> exists v, Dict.get k d = Some v.
Proof.
  unfold Dict.has_key. rewrite mem_In. split.
  - apply In_get_Some.
  - intros [v Hv]. eapply get_Some_In; eauto.
Qed.

Lemma keys_set_present k v d :
  In k (Dict.keys d) -> Dict.keys (Dict.set k v d) = Dict.keys d.
Proof.
  induction d as [|[k' v'] d IH]; simpl; intros Hin.
  - contradiction.
  - destruct (String.eqb k k') eqn:E; simpl.
    + reflexivity.
    + apply String.eqb_neq in E. f_equal. apply IH.
      destruct Hin; [congruence | assumption].
Qed.

Lemma keys_set_absent k v d :
  ~ In k (Dict.keys d) -> Dict.keys (Dict.set k v d) = (Dict.keys d ++ [k])%list.
Proof.
  induction d as [|[k' v'] d IH]; simpl; intros Hout.
  - reflexivity.
  - destruct (String.eqb k k') eqn:E; simpl.
    + apply String.eqb_eq in E. subst. tauto.
    + f_equal. apply IH. tauto.
Qed.

Lemma NoDup_keys_set k v d :
  NoDup (Dict.keys d) -> NoDup (Dict.keys (Dict.set k v d)).
Proof.
  intros Hnd. destruct (in_dec string_dec k (Dict.keys d)) as [Hin|Hout].
  - now rewrite keys_set_present.
  - rewrite keys_set_absent by assumption.
    apply NoDup_app; [assumption | repeat constructor; intros [] | ].
    intros y Hy [<-|[]]. contradiction.
Qed.

(** Assigning to a key that is present rewrites its entry in place. *)
Lemma set_present_map k v d :
  NoDup (Dict.keys d) -> In k (Dict.keys d) ->
  Dict.set k v d
  = map (fun kv => (fst kv, if String.eqb (fst kv) k then v else snd kv)) d.
Proof.
  induction d as [|[k' v'] d IH]; simpl; intros Hnd Hin.
  - contradiction.
  - inversion Hnd as [|? ? Hnotin Hnd']; subst.
    rewrite (String.eqb_sym k' k).
    destruct (String.eqb k k') eqn:E.
    + apply String.eqb_eq in E. subst k'. f_equal.
      clear IH Hin Hnd. induction d as [|[k2 v2] d IHd]; simpl; [reflexivity|].
      simpl in Hnotin. destruct (String.eqb k2 k) eqn:E2.
      * apply String.eqb_eq in E2. subst. tauto.
      * f_equal. apply IHd; [tauto | now inversion Hnd'].
    + apply String.eqb_neq in E. f_equal. apply IH; [assumption|].
      destruct Hin; [congruence | assumption].
Qed.

Lemma of_rows_NoDup (rows : list (string * V)) :
  NoDup (Dict.keys (Dict.of_rows rows)).
Proof.
  unfold Dict.of_rows.
  assert (H : forall d, NoDup (Dict.keys d) ->
            NoDup (Dict.keys (fold_left (fun d kv => Dict.set (fst kv) (snd kv) d) rows d))).
  { induction rows as [|kv rows IH]; simpl; intros d Hd; [assumption|].
    apply IH. now apply NoDup_keys_set. }
  apply H. constructor.
Qed.

Lemma of_rows_nil (rows : list (string * V)) :
  Dict.of_rows rows = [] <-> rows = [].
Proof.
  split; [|now intros ->].
  unfold Dict.of_rows. destruct rows as [|kv rows]; [reflexivity|]. simpl.
  assert (H : forall d : Dict.t V, d <> [] ->
            fold_left (fun d kv => Dict.set (fst kv) (snd kv) d) rows d <> []).
  { induction rows as [|kv' rows IH]; simpl; intros d Hd; [assumption|].
    apply IH. destruct d as [|[k0 v0] d]; [congruence|].
    simpl. destruct (String.eqb (fst kv') k0); discriminate. }
  intros Habs. exfalso. eapply H; [|exact Habs]. discriminate.
Qed.
End DictFacts.

Lemma get_map_values {A B : Type} (f : string -> A -> B) (k : string) (d : Dict.t A) :
  Dict.get k (map (fun kv => (fst kv, f (fst kv) (snd kv))) d)
  = option_map (f k) (Dict.get k d).
Proof.
  induction d as [|[k' v'] d IH]; simpl; [reflexivity|].
  destruct (String.eqb k k') eqn:E; [|exact IH].
  apply String.eqb_eq in E. now subst.
Qed.

Lemma keys_map_values {A B : Type} (f : string -> A -> B) (d : Dict.t A) :
  Dict.keys (map (fun kv => (fst kv, f (fst kv) (snd kv))) d) = Dict.keys d.
Proof.
  unfold Dict.keys. rewrite map_map. reflexivity.
Qed.

(** ** The stages, column by column *)

Section StageFacts.
Variable float : Type.
Variable L : Pandas float.

Local Abbreviation cell := (cell float).
Local Abbreviation frame := (frame float).
Local Abbreviation series := (series float).

(** *** Columns and their values *)

Lemma columns_get (df : frame) (k : string) :
  Dict.get k (columns df) = option_map values (Dict.get k (data df)).
Proof.
  unfold columns. apply (get_map_values (fun _ (c : series) => values c)).
Qed.

Lemma columns_keys (df : frame) :
  Dict.keys (columns df) = Dict.keys (data df).
Proof.
  unfold columns. apply (keys_map_values (fun _ (c : series) => values c)).
Qed.

(** *** Coercion *)

Lemma coerce_step_get (acc : frame * list entry) (c dt k : string) :
  Dict.get k (data (fst (coerce_step L acc (c, dt))))
  = if String.eqb k c
    then option_map (fun v => fst (coerce_column L c dt v))
                    (Dict.get c (data (fst acc)))
    else Dict.get k (data (fst acc)).
Proof.
  unfold coerce_step.
  destruct (Dict.get c (data (fst acc))) as [v|] eqn:E.
  - cbn [option_map].
    destruct (coerce_column L c dt v) as [v' raised]. simpl.
    apply get_set.
  - simpl. destruct (String.eqb k c) eqn:Ek; [|reflexivity].
    apply String.eqb_eq in Ek. now subst.
Qed.

Lemma coerce_fold_get (s : Dict.t string) (acc : frame * list entry) (k : string) :
  NoDup (Dict.keys s) ->
  Dict.get k (data (fst (fold_left (coerce_step L) s acc)))
  = match Dict.get k s with
    | Some dt => option_map (fun v => fst (coerce_column L k dt v))
                            (Dict.get k (data (fst acc)))
    | None => Dict.get k (data (fst acc))
    end.
Proof.
  revert acc. induction s as [|[c dt] s IH]; intros acc Hnd;
    cbn [fold_left Dict.get].
  - reflexivity.
  - inversion Hnd as [|? ? Hnotin Hnd']; subst.
    rewrite IH by assumption. rewrite coerce_step_get.
    destruct (String.eqb k c) eqn:E.
    + apply String.eqb_eq in E. subst c.
      apply get_None in Hnotin. rewrite Hnotin. reflexivity.
    + reflexivity.
Qed.

(** What the coercion stage leaves in a column. *)
Lemma coerce_types_get (s : Dict.t string) (df : frame) (k : string) :
  NoDup (Dict.keys s) ->
  Dict.get k (data (fst (coerce_types L s df)))
  = match Dict.get k s with
    | Some dt => option_map (fun v => fst (coerce_column L k dt v))
                            (Dict.get k (data df))
    | None => Dict.get k (data df)
    end.
Proof.
  intros Hnd. unfold coerce_types. now rewrite coerce_fold_get.
Qed.

Lemma coerce_step_columns (acc : frame * list entry) (c dt : string) :
  NoDup (Dict.keys (data (fst acc))) ->
  data (fst (coerce_step L acc (c, dt)))
  = map (fun kv => (fst kv, if String.eqb (fst kv) c
                            then fst (coerce_column L c dt (snd kv))
                            else snd kv))
        (data (fst acc))
  /\ nrows (fst (coerce_step L acc (c, dt))) = nrows (fst acc).
Proof.
  intros Hnd. unfold coerce_step.
  destruct (Dict.get c (data (fst acc))) as [v|] eqn:E.
  - destruct (coerce_column L c dt v) as [v' raised] eqn:Ec. simpl.
    split; [|reflexivity].
    rewrite set_present_map by (eauto using get_Some_In).
    apply map_ext_in. intros [k x] Hin. simpl.
    destruct (String.eqb k c) eqn:Ek; [|reflexivity].
    apply String.eqb_eq in Ek. subst k.
    assert (Hx : Dict.get c (data (fst acc)) = Some x).
    { clear - Hnd Hin. induction (data (fst acc)) as [|[k2 v2] d IH]; simpl in *.
      - contradiction.
      - inversion Hnd as [|? ? Hnotin Hnd']; subst.
        destruct Hin as [Heq|Hin].
        + inversion Heq; subst. now rewrite String.eqb_refl.
        + destruct (String.eqb c k2) eqn:E2.
          * apply String.eqb_eq in E2. subst k2. exfalso. apply Hnotin.
            change c with (fst (c, x)). now apply in_map.
          * now apply IH. }
    rewrite E in Hx. inversion Hx; subst. now rewrite Ec.
  - split; [|reflexivity]. simpl.
    rewrite <- (map_id (data (fst acc))) at 1.
    apply map_ext_in. intros [k x] Hin. simpl.
    destruct (String.eqb k c) eqn:Ek; [|reflexivity].
    apply String.eqb_eq in Ek. subst k. apply get_None in E.
    exfalso. apply E. change c with (fst (c, x)). now apply in_map.
Qed.

Lemma coerce_fold_columns (s : Dict.t string) (acc : frame * list entry) :
  NoDup (Dict.keys s) ->
  NoDup (Dict.keys (data (fst acc))) ->
  data (fst (fold_left (coerce_step L) s acc)) = map (coerced_entry L s) (data (fst acc))
  /\ nrows (fst (fold_left (coerce_step L) s acc)) = nrows (fst acc).
Proof.
  revert acc. induction s as [|[c dt] s IH]; intros acc Hs Hacc;
    cbn [fold_left].
  - split; [|reflexivity]. rewrite <- (map_id (data (fst acc))) at 1.
    apply map_ext. now intros [k x].
  - inversion Hs as [|? ? Hnotin Hs']; subst.
    destruct (coerce_step_columns acc c dt Hacc) as [Hcols Hrows].
    destruct (IH (coerce_step L acc (c, dt)) Hs') as [IHc IHr].
    { rewrite Hcols. unfold Dict.keys. rewrite map_map. exact Hacc. }
    split; [|congruence].
    rewrite IHc, Hcols, map_map. apply map_ext. intros [k x].
    unfold coerced_entry. simpl.
    rewrite (String.eqb_sym k c).
    destruct (String.eqb c k) eqn:E.
    + apply String.eqb_eq in E. subst k.
      apply get_None in Hnotin. now rewrite Hnotin.
    + reflexivity.
Qed.

(** The coercion stage rewrites the columns in place, each under its
    declared type. *)
Lemma coerce_types_columns (s : Dict.t string) (df : frame) :
  NoDup (Dict.keys s) ->
  NoDup (Dict.keys (data df)) ->
  fst (coerce_types L s df)
  = {| nrows := nrows df; data := map (coerced_entry L s) (data df) |}.
Proof.
  intros Hs Hdf. unfold coerce_types.
  destruct (coerce_fold_columns s (df, []) Hs Hdf) as [Hc Hr].
  destruct (fst (fold_left (coerce_step L) s (df, []))) as [n cols].
  simpl in *. now subst.
Qed.

Lemma coerce_types_keys (s : Dict.t string) (df : frame) :
  Dict.keys (data (fst (coerce_types L s df))) = Dict.keys (data df).
Proof.
  unfold coerce_types. generalize (@nil entry). revert df.
  induction s as [|[c dt] s IH]; intros df lg; cbn [fold_left]; [reflexivity|].
  unfold coerce_step at 2. cbn [fst snd].
  destruct (Dict.get c (data df)) as [v|] eqn:E.
  - destruct (coerce_column L c dt v) as [v' raised].
    rewrite IH. simpl. apply keys_set_present. eauto using get_Some_In.
  - apply IH.
Qed.
Lemma coerce_fold_log (s : Dict.t string) (acc : frame * list entry) :
  NoDup (Dict.keys s) ->
  snd (fold_left (coerce_step L) s acc)
  = (snd acc ++ flat_map (coerce_warning L (fst acc)) s)%list.
Proof.
  revert acc. induction s as [|[c dt] s IH]; intros acc Hnd;
    cbn [fold_left flat_map].
  - now rewrite app_nil_r.
  - inversion Hnd as [|? ? Hnotin Hnd']; subst.
    rewrite IH by assumption.
    assert (Hrest : flat_map (coerce_warning L (fst (coerce_step L acc (c, dt)))) s
                    = flat_map (coerce_warning L (fst acc)) s).
    { clear IH Hnd Hnd'. induction s as [|[c' dt'] s IHs]; [reflexivity|].
      cbn [flat_map]. rewrite IHs.
      - f_equal. unfold coerce_warning. cbn [fst snd].
        rewrite coerce_step_get.
        destruct (String.eqb c' c) eqn:E; [|reflexivity].
        apply String.eqb_eq in E. subst c'. exfalso. apply Hnotin. now left.
      - intros Hin. apply Hnotin. now right. }
    rewrite Hrest. unfold coerce_step at 1, coerce_warning at 2. cbn [fst snd].
    destruct (Dict.get c (data (fst acc))) as [v|].
    + destruct (coerce_column L c dt v) as [v' [|]]; cbn [fst snd].
      * now rewrite <- app_assoc.
      * reflexivity.
    + reflexivity.
Qed.

Lemma coerce_types_log (s : Dict.t string) (df : frame) :
  NoDup (Dict.keys s) ->
  snd (coerce_types L s df) = flat_map (coerce_warning L df) s.
Proof.
  intros Hnd. unfold coerce_types. now rewrite coerce_fold_log.
Qed.

(** *** Derivation *)

Lemma derive_step_get (df : csv) (acc : frame * list entry) (c k : string) :
  Dict.get k (data (fst (derive_step L df acc c)))
  = match derived_from df [c] k with
    | Some raw => Some {| dtype_of := datetime64; values := derive_column L raw |}
    | None => Dict.get k (data (fst acc))
    end.
Proof.
  unfold derive_step, derived_from, PyStr.mem. cbn [existsb]. rewrite orb_false_r.
  destruct (String.eqb k c) eqn:E.
  - apply String.eqb_eq in E. subst c. cbn [andb].
    destruct (PyStr.endswith "_Parsed" k); [|reflexivity].
    destruct (Dict.get (source_col_of k) (csv_columns df)) as [raw|]; [|reflexivity].
    cbn [fst]. unfold set_column. cbn [data]. apply get_set_same.
  - cbn [andb]. destruct (PyStr.endswith "_Parsed" c); [|reflexivity].
    destruct (Dict.get (source_col_of c) (csv_columns df)) as [raw|]; [|reflexivity].
    cbn [fst]. unfold set_column. cbn [data].
    apply String.eqb_neq in E. now apply get_set_other.
Qed.

Lemma derive_fold_get (df : csv) (cols : list string) (acc : frame * list entry)
  (k : string) :
  Dict.get k (data (fst (fold_left (derive_step L df) cols acc)))
  = match derived_from df cols k with
    | Some raw => Some {| dtype_of := datetime64; values := derive_column L raw |}
    | None => Dict.get k (data (fst acc))
    end.
Proof.
  revert acc. induction cols as [|c cols IH]; intros acc; cbn [fold_left].
  - reflexivity.
  - rewrite IH, derive_step_get. unfold derived_from, PyStr.mem. cbn [existsb].
    rewrite orb_false_r.
    destruct (existsb (String.eqb k) cols) eqn:Ein.
    + rewrite orb_true_r. cbn [andb].
      destruct (PyStr.endswith "_Parsed" k).
      * destruct (Dict.get (source_col_of k) (csv_columns df)); [reflexivity|].
        destruct (String.eqb k c); reflexivity.
      * rewrite andb_false_r. reflexivity.
    + rewrite orb_false_r. reflexivity.
Qed.

Lemma derive_columns_get (df : csv) (cols : list string) (f : frame) (k : string) :
  Dict.get k (data (fst (derive_columns L df cols f)))
  = match derived_from df cols k with
    | Some raw => Some {| dtype_of := datetime64; values := derive_column L raw |}
    | None => Dict.get k (data f)
    end.
Proof.
  unfold derive_columns. now rewrite derive_fold_get.
Qed.

Lemma derive_fold_log (df : csv) (cols : list string) (acc : frame * list entry) :
  snd (fold_left (derive_step L df) cols acc)
  = (snd acc ++ flat_map (derive_entry df) cols)%list.
Proof.
  revert acc. induction cols as [|c cols IH]; intros acc; cbn [fold_left flat_map].
  - now rewrite app_nil_r.
  - rewrite IH. unfold derive_step at 1, derive_entry at 2.
    destruct (PyStr.endswith "_Parsed" c); [|reflexivity].
    destruct (Dict.get (source_col_of c) (csv_columns df)); [|reflexivity].
    cbn [snd]. now rewrite <- app_assoc.
Qed.

Lemma derive_columns_log (df : csv) (cols : list string) (f : frame) :
  snd (derive_columns L df cols f) = flat_map (derive_entry df) cols.
Proof.
  unfold derive_columns. now rewrite derive_fold_log.
Qed.

Lemma derive_columns_NoDup (df : csv) (cols : list string) (f : frame) :
  NoDup (Dict.keys (data f)) ->
  NoDup (Dict.keys (data (fst (derive_columns L df cols f)))).
Proof.
  unfold derive_columns. generalize (@nil entry). revert f.
  induction cols as [|c cols IH]; intros f lg Hnd; cbn [fold_left]; [assumption|].
  unfold derive_step at 2. cbn [fst snd].
  destruct (PyStr.endswith "_Parsed" c); [|now apply IH].
  destruct (Dict.get (source_col_of c) (csv_columns df)); [|now apply IH].
  apply IH. unfold set_column. cbn [data]. now apply NoDup_keys_set.
Qed.

(** *** Selection and normalization *)

Lemma select_keys (names : list string) (df : csv) (x : string) :
  In x (Dict.keys (csv_columns (select names df)))
  <-> In x names /\ In x (Dict.keys (csv_columns df)).
Proof.
  unfold select. cbn [csv_columns]. induction names as [|n names IH]; cbn [flat_map].
  - simpl. tauto.
  - unfold Dict.keys in *. rewrite map_app, in_app_iff, IH.
    destruct (Dict.get n (csv_columns df)) as [v|] eqn:E; simpl.
    + apply get_Some_In in E. unfold Dict.keys in E.
      split.
      * intros [[<-|[]]|[H1 H2]]; auto.
      * intros [[<-|H1] H2]; auto.
    + apply get_None in E. unfold Dict.keys in E.
      split.
      * intros [[]|[H1 H2]]; auto.
      * intros [[<-|H1] H2]; [contradiction | auto].
Qed.

Lemma normalize_blanks_keys (s : Dict.t string) (df : csv) :
  Dict.keys (csv_columns (normalize_blanks s df)) = Dict.keys (csv_columns df).
Proof.
  unfold normalize_blanks. revert df.
  induction s as [|[c dt] s IH]; intros df; cbn [fold_left]; [reflexivity|].
  rewrite IH. unfold normalize_step.
  destruct (Dict.get c (csv_columns df)) as [v|] eqn:E; [|reflexivity].
  destruct (is_text_type dt); [|reflexivity].
  cbn [csv_columns]. apply keys_set_present. eauto using get_Some_In.
Qed.

Lemma frame_of_csv_keys (df : csv) :
  Dict.keys (data (@frame_of_csv float df)) = Dict.keys (csv_columns df).
Proof.
  unfold frame_of_csv, Dict.keys. cbn [data]. now rewrite map_map.
Qed.

(** *** The stages together *)

Lemma select_keys_filter (names : list string) (df : csv) :
  Dict.keys (csv_columns (select names df))
  = filter (fun n => Dict.has_key n (csv_columns df)) names.
Proof.
  unfold select. cbn [csv_columns].
  induction names as [|n names IH]; cbn [flat_map filter]; [reflexivity|].
  unfold Dict.keys in *. rewrite map_app, IH.
  destruct (Dict.get n (csv_columns df)) as [v|] eqn:E.
  - assert (Hm : Dict.has_key n (csv_columns df) = true)
      by (apply has_key_get; eauto).
    now rewrite Hm.
  - assert (Hm : Dict.has_key n (csv_columns df) = false).
    { destruct (Dict.has_key n (csv_columns df)) eqn:Em; [|reflexivity].
      apply has_key_get in Em. destruct Em as [v Hv]. congruence. }
    now rewrite Hm.
Qed.

(** The table the coercion stage receives has distinct column names
    when the file has. *)
Lemma derived_table_NoDup (s : Dict.t string) (df : csv) :
  NoDup (Dict.keys (csv_columns df)) ->
  NoDup (Dict.keys (data (fst (derive_columns L df (Dict.keys s)
                                    (reconciled s df))))).
Proof.
  intros Hnd. apply derive_columns_NoDup. unfold reconciled.
  rewrite frame_of_csv_keys, normalize_blanks_keys, select_keys_filter.
  unfold final_columns. now repeat apply NoDup_filter.
Qed.

Lemma prepare_fst (db_schema table_name : string) (s : Dict.t string) (df : csv) :
  fst (prepare L db_schema table_name s df)
  = fst (coerce_types L s
           (fst (derive_columns L df (Dict.keys s) (reconciled s df)))).
Proof.
  unfold prepare, reconciled.
  destruct (derive_columns L df (Dict.keys s) _) as [d ld]. cbn [fst snd].
  destruct (coerce_types L s d) as [c lc]. reflexivity.
Qed.

Lemma prepare_snd (db_schema table_name : string) (s : Dict.t string) (df : csv) :
  snd (prepare L db_schema table_name s df)
  = (discard_log db_schema table_name
       (discarded_columns (Dict.keys (csv_columns df)) (Dict.keys s))
     ++ snd (derive_columns L df (Dict.keys s) (reconciled s df))
     ++ snd (coerce_types L s
               (fst (derive_columns L df (Dict.keys s) (reconciled s df)))))%list.
Proof.
  unfold prepare, reconciled.
  destruct (derive_columns L df (Dict.keys s) _) as [d ld]. cbn [fst snd].
  destruct (coerce_types L s d) as [c lc]. reflexivity.
Qed.

Lemma reconciled_keys (s : Dict.t string) (df : csv) (x : string) :
  In x (Dict.keys (data (@reconciled float s df)))
  <-> In x (Dict.keys (csv_columns df)) /\ In x (Dict.keys s).
Proof.
  unfold reconciled. rewrite frame_of_csv_keys, normalize_blanks_keys, select_keys.
  unfold final_columns. rewrite filter_In, mem_In. tauto.
Qed.

(** A column of the table handed to [to_sql] is a column of the file
    that the schema knows, or a derived column. *)
Lemma prepare_keys (db_schema table_name : string) (s : Dict.t string) (df : csv)
  (x : string) :
  In x (Dict.keys (data (fst (prepare L db_schema table_name s df))))
  <-> (In x (Dict.keys (csv_columns df)) /\ In x (Dict.keys s))
      \/ derived_from df (Dict.keys s) x <> None.
Proof.
  rewrite prepare_fst, coerce_types_keys. split.
  - intros Hin. apply In_get_Some in Hin. destruct Hin as [v Hv].
    rewrite derive_columns_get in Hv.
    destruct (derived_from df (Dict.keys s) x) as [raw|] eqn:E.
    + right. discriminate.
    + left. apply reconciled_keys. eauto using get_Some_In.
  - intros [Hin|Hd].
    + apply reconciled_keys in Hin. apply In_get_Some in Hin. destruct Hin as [v Hv].
      destruct (Dict.get x (data (fst (derive_columns L df (Dict.keys s) (reconciled s df)))))
        as [v'|] eqn:E; [eauto using get_Some_In|].
      rewrite derive_columns_get, Hv in E.
      destruct (derived_from df (Dict.keys s) x); discriminate.
    + destruct (derived_from df (Dict.keys s) x) as [raw|] eqn:E; [|congruence].
      apply (get_Some_In x _ {| dtype_of := datetime64; values := derive_column L raw |}).
      now rewrite derive_columns_get, E.
Qed.
End StageFacts.

(** ** Coercion of one column *)

Section ColumnFacts.
Variable float : Type.
Variable L : Pandas float.

Local Abbreviation cell := (cell float).
Local Abbreviation frame := (frame float).
Local Abbreviation series := (series float).

Lemma replace_blank_idem (c : cell) :
  replace_blank (replace_blank c) = replace_blank c.
Proof.
  destruct c as [s| | | |]; try reflexivity.
  cbn [replace_blank].
  destruct (PyStr.mem s zero_tokens) eqn:E; [reflexivity|].
  cbn [replace_blank]. now rewrite E.
Qed.

(** *** Columns of texts *)

Lemma texts_of_map_Str (l : list string) :
  texts_of (map (@Str float) l) = Some l.
Proof.
  induction l as [|s l IH]; cbn [map texts_of]; [reflexivity|].
  now rewrite IH.
Qed.

Lemma texts_of_Some (v : list cell) (l : list string) :
  texts_of v = Some l -> v = map Str l.
Proof.
  revert l. induction v as [|c v IH]; cbn [texts_of]; intros l H.
  - inversion H. reflexivity.
  - destruct c as [s| | | |]; try discriminate.
    destruct (texts_of v) as [l'|]; [|discriminate].
    inversion H; subst. cbn [map]. now rewrite (IH l' eq_refl).
Qed.

Lemma texts_of_no_text (v : list cell) :
  Forall (fun c => is_str c = false) v -> v = [] \/ texts_of v = None.
Proof.
  intros H. destruct v as [|c v]; [now left|right].
  inversion H; subst. destruct c; simpl in *; congruence.
Qed.

Lemma parse_ints_length (l : list string) (zs : list Z) :
  parse_ints L l = Some zs -> List.length zs = List.length l.
Proof.
  revert zs. induction l as [|s l IH]; cbn [parse_ints]; intros zs H.
  - inversion H. reflexivity.
  - destruct (parse_int L s); [|discriminate].
    destruct (parse_ints L l) as [zs'|]; [|discriminate].
    inversion H; subst. simpl. now rewrite (IH zs' eq_refl).
Qed.

Lemma parse_ints_nth (l : list string) (zs : list Z) (i : nat) (s : string) :
  parse_ints L l = Some zs -> nth_error l i = Some s ->
  exists z, parse_int L s = Some z /\ nth_error zs i = Some z.
Proof.
  revert zs i. induction l as [|s0 l IH]; cbn [parse_ints]; intros zs i H Hi.
  - destruct i; discriminate.
  - destruct (parse_int L s0) as [z0|] eqn:E0; [|discriminate].
    destruct (parse_ints L l) as [zs'|]; [|discriminate].
    inversion H; subst. destruct i as [|i]; simpl in Hi.
    + inversion Hi; subst. exists z0. now split.
    + apply (IH zs' i eq_refl Hi).
Qed.

(** A column with a text that is no integer literal is read as floats. *)
Lemma parse_ints_None (l : list string) (s : string) :
  In s l -> parse_int L s = None -> parse_ints L l = None.
Proof.
  induction l as [|s0 l IH]; cbn [parse_ints]; intros Hin Hs; [contradiction|].
  destruct Hin as [-> | Hin].
  - now rewrite Hs.
  - rewrite (IH Hin Hs). now destruct (parse_int L s0).
Qed.

Lemma numeric_of_texts_floats (l : list string) (s : string) :
  In s l -> parse_int L s = None ->
  numeric_of_texts L l = map (float_cell L) l.
Proof.
  intros Hin Hs. unfold numeric_of_texts. now rewrite (parse_ints_None l s Hin Hs).
Qed.

(** *** [pd.to_numeric] *)

Lemma float_cell_numeric (s : string) : numeric (float_cell L s) = true.
Proof. unfold float_cell. now destruct (parse_float L s). Qed.

Lemma numeric_of_texts_numeric (l : list string) :
  Forall (fun c => numeric c = true) (numeric_of_texts L l).
Proof.
  unfold numeric_of_texts.
  assert (Hf : Forall (fun c => numeric c = true) (map (float_cell L) l)).
  { apply Forall_forall. intros c Hc. apply in_map_iff in Hc.
    destruct Hc as [s [<- _]]. apply float_cell_numeric. }
  destruct (parse_ints L l) as [zs|]; [|exact Hf].
  destruct (forallb in_int64 zs || forallb in_uint64 zs); [|exact Hf].
  apply Forall_forall. intros c Hc. apply in_map_iff in Hc.
  now destruct Hc as [z [<- _]].
Qed.

Lemma numeric_of_texts_length (l : list string) :
  List.length (numeric_of_texts L l) = List.length l.
Proof.
  unfold numeric_of_texts.
  destruct (parse_ints L l) as [zs|] eqn:E; [|now rewrite length_map].
  destruct (forallb in_int64 zs || forallb in_uint64 zs); rewrite length_map;
    [now apply parse_ints_length | reflexivity].
Qed.

Lemma to_numeric_cell_numeric (c : cell) : numeric (to_numeric_cell L c) = true.
Proof.
  destruct c as [s| | | |]; try reflexivity.
  simpl. destruct (parse_int L s); [reflexivity | apply float_cell_numeric].
Qed.

Lemma to_numeric_cell_fixed (c : cell) :
  numeric c = true -> to_numeric_cell L c = c.
Proof. destruct c; simpl; intros H; congruence. Qed.

Lemma to_numeric_texts (l : list string) :
  to_numeric L (map Str l) = numeric_of_texts L l.
Proof. unfold to_numeric. now rewrite texts_of_map_Str. Qed.

Lemma to_numeric_numeric (v : list cell) :
  Forall (fun c => numeric c = true) (to_numeric L v).
Proof.
  unfold to_numeric. destruct (texts_of v) as [l|].
  - apply numeric_of_texts_numeric.
  - apply Forall_forall. intros c Hc. apply in_map_iff in Hc.
    destruct Hc as [c0 [<- _]]. apply to_numeric_cell_numeric.
Qed.

Lemma numeric_no_text (v : list cell) :
  Forall (fun c => numeric c = true) v -> Forall (fun c => is_str c = false) v.
Proof.
  apply Forall_impl. intros c H. now destruct c.
Qed.

Lemma to_numeric_fixed (v : list cell) :
  Forall (fun c => numeric c = true) v -> to_numeric L v = v.
Proof.
  intros Hnum. unfold to_numeric.
  destruct (texts_of_no_text v (numeric_no_text v Hnum)) as [-> | ->];
    [reflexivity|].
  rewrite <- (map_id v) at 2. apply map_ext_in. intros c Hc.
  apply to_numeric_cell_fixed. now apply (proj1 (Forall_forall _ _) Hnum).
Qed.

Lemma to_numeric_length (v : list cell) :
  List.length (to_numeric L v) = List.length v.
Proof.
  unfold to_numeric. destruct (texts_of v) as [l|] eqn:E.
  - rewrite numeric_of_texts_length. apply texts_of_Some in E. subst v.
    now rewrite length_map.
  - now rewrite length_map.
Qed.

(** *** [pd.to_datetime] *)

Lemma datetime_cell_temporal (column : list string) (s : string) :
  temporal (datetime_cell L column s) = true.
Proof. unfold datetime_cell. now destruct (parse_datetime L column s). Qed.

Lemma to_datetime_texts (l : list string) :
  to_datetime L (map Str l) = map (datetime_cell L l) l.
Proof. unfold to_datetime. now rewrite texts_of_map_Str. Qed.

Lemma to_datetime_temporal (v : list cell) :
  Forall (fun c => temporal c = true) (to_datetime L v).
Proof.
  unfold to_datetime. apply Forall_forall. intros c Hc.
  destruct (texts_of v) as [l|]; apply in_map_iff in Hc.
  - destruct Hc as [s [<- _]]. apply datetime_cell_temporal.
  - destruct Hc as [c0 [<- _]]. destruct c0 as [s| |f| |]; try reflexivity; simpl.
    + apply datetime_cell_temporal.
    + now destruct (float_to_ns L f).
Qed.

Lemma to_datetime_fixed (v : list cell) :
  Forall (fun c => temporal c = true) v -> to_datetime L v = v.
Proof.
  intros Htmp. unfold to_datetime.
  assert (Hno : Forall (fun c => is_str c = false) v).
  { revert Htmp. apply Forall_impl. intros c H. now destruct c. }
  destruct (texts_of_no_text v Hno) as [-> | ->]; [reflexivity|].
  rewrite <- (map_id v) at 2. apply map_ext_in. intros c Hc.
  pose proof (proj1 (Forall_forall _ _) Htmp c Hc) as H.
  destruct c; simpl in *; congruence.
Qed.

Lemma to_datetime_length (v : list cell) :
  List.length (to_datetime L v) = List.length v.
Proof.
  unfold to_datetime. destruct (texts_of v) as [l|] eqn:E.
  - rewrite length_map. apply texts_of_Some in E. subst v.
    now rewrite length_map.
  - now rewrite length_map.
Qed.

(** *** [.astype('Int64')] *)

Lemma astype_length (v v2 : list cell) :
  astype_Int64 L v = Some v2 -> List.length v2 = List.length v.
Proof.
  revert v2. induction v as [|c v IH]; cbn [astype_Int64]; intros v2 H.
  - inversion H. reflexivity.
  - destruct (as_Int64 L c); [|discriminate].
    destruct (astype_Int64 L v) as [r|]; [|discriminate].
    inversion H; subst. simpl. now rewrite (IH r eq_refl).
Qed.

Lemma as_Int64_filled (c c' : cell) :
  as_Int64 L (fillna (Int 0) c) = Some c' -> is_int64 c' = true.
Proof.
  destruct c as [s|z|f|t|]; simpl; try discriminate.
  - destruct (in_int64 z) eqn:E; [|discriminate]. now intros [= <-].
  - destruct (float_to_int L f) as [z|]; [|discriminate].
    destruct (in_int64 z) eqn:E; [|discriminate]. now intros [= <-].
  - now intros [= <-].
Qed.

(** A successful cast of a filled column leaves integers of [int64]
    only. *)
Lemma astype_filled_ints (v v2 : list cell) :
  astype_Int64 L (map (fillna (Int 0)) v) = Some v2 ->
  Forall (fun c => is_int64 c = true) v2.
Proof.
  revert v2. induction v as [|c v IH]; cbn [map astype_Int64]; intros v2 H.
  - inversion H. constructor.
  - destruct (as_Int64 L (fillna (Int 0) c)) as [c'|] eqn:Ec; [|discriminate].
    destruct (astype_Int64 L (map (fillna (Int 0)) v)) as [r|]; [|discriminate].
    inversion H; subst. constructor; [|now apply IH].
    now apply (as_Int64_filled c).
Qed.

Lemma astype_nth (v v2 : list cell) (i : nat) (c : cell) :
  astype_Int64 L v = Some v2 -> nth_error v i = Some c ->
  exists c', as_Int64 L c = Some c' /\ nth_error v2 i = Some c'.
Proof.
  revert v2 i. induction v as [|c0 v IH]; cbn [astype_Int64]; intros v2 i H Hi.
  - destruct i; discriminate.
  - destruct (as_Int64 L c0) as [c0'|] eqn:E0; [|discriminate].
    destruct (astype_Int64 L v) as [r|]; [|discriminate].
    inversion H; subst. destruct i as [|i]; simpl in Hi.
    + inversion Hi; subst. exists c0'. now split.
    + apply (IH r i eq_refl Hi).
Qed.

(** The cast raises exactly on a value that cannot be cast. *)
Lemma astype_fails (v : list cell) :
  astype_Int64 L v = None -> exists c, In c v /\ as_Int64 L c = None.
Proof.
  induction v as [|c v IH]; cbn [astype_Int64]; intros H; [discriminate|].
  destruct (as_Int64 L c) as [c'|] eqn:Ec.
  - destruct (astype_Int64 L v) as [r|]; [discriminate|].
    destruct (IH eq_refl) as [c0 [Hin Hc0]]. exists c0. split; [now right | exact Hc0].
  - exists c. split; [now left | exact Ec].
Qed.

Lemma int64_numeric (v : list cell) :
  Forall (fun c => is_int64 c = true) v -> Forall (fun c => numeric c = true) v.
Proof. apply Forall_impl. intros c H. now destruct c. Qed.

Lemma ints_recast (v : list cell) :
  Forall (fun c => is_int64 c = true) v ->
  map replace_blank v = v
  /\ astype_Int64 L (map (fillna (Int 0)) (to_numeric L v)) = Some v.
Proof.
  intros Hv. rewrite (to_numeric_fixed v (int64_numeric v Hv)).
  induction Hv as [|c v Hc Hv [IH1 IH2]]; simpl; [now split|].
  destruct c as [|z| | |]; simpl in Hc; try discriminate.
  split.
  - cbn [replace_blank]. now rewrite IH1.
  - change (fillna (Int 0) (@Int float z)) with (@Int float z).
    cbn [as_Int64]. now rewrite Hc, IH2.
Qed.

(** *** The [.str] accessor *)

Lemma numeric_accessor (v : list cell) :
  Forall (fun c => numeric c = true) v ->
  str_accessor v = true -> map strip_currency v = v.
Proof.
  intros Hnum Hacc. unfold str_accessor in Hacc.
  assert (Hno : existsb is_str v = false).
  { clear Hacc. induction Hnum as [|c v Hc Hv IH]; [reflexivity|].
    simpl. rewrite IH. now destruct c. }
  rewrite Hno, orb_false_r in Hacc.
  rewrite <- (map_id v) at 2. apply map_ext_in. intros c Hc.
  pose proof (proj1 (forallb_forall _ _) Hacc c Hc) as Hna.
  now destruct c.
Qed.

Lemma texts_accessor (l : list string) :
  str_accessor (map (@Str float) l) = true.
Proof.
  unfold str_accessor. destruct l as [|s l]; [reflexivity|].
  cbn [map existsb is_str]. cbn [orb]. apply orb_true_r.
Qed.

Lemma texts_fillna (l : list string) (d : cell) :
  map (fillna d) (map Str l) = map Str l.
Proof. rewrite map_map. now apply map_ext. Qed.

Lemma fillna_idem (d : cell) (v : list cell) :
  map (fillna d) (map (fillna d) v) = map (fillna d) v.
Proof.
  rewrite map_map. apply map_ext. intros c.
  destruct c; try reflexivity. unfold fillna. cbn [is_na].
  now destruct (is_na d).
Qed.

(** *** One column, twice *)

Lemma coerce_column_idem (col dt : string) (c : series) :
  fst (coerce_column L col dt (fst (coerce_column L col dt c)))
  = fst (coerce_column L col dt c).
Proof.
  unfold coerce_column.
  destruct (is_int_type dt).
  { destruct (astype_Int64 L (map (fillna (Int 0))
                (to_numeric L (map replace_blank (values c))))) as [v2|] eqn:E;
      cbn [fst values dtype_of].
    - apply astype_filled_ints in E.
      destruct (ints_recast v2 E) as [H1 H2]. now rewrite H1, H2.
    - assert (Hidem : map replace_blank (map replace_blank (values c))
                      = map replace_blank (values c)).
      { rewrite map_map. apply map_ext. apply replace_blank_idem. }
      now rewrite Hidem, E. }
  destruct (is_float_type dt).
  { destruct (dtype_is_object c) eqn:Eo.
    - destruct (str_accessor (values c)) eqn:Ea; cbn [fst].
      + change (dtype_is_object
                  {| dtype_of := object;
                     values := to_numeric L (map strip_currency (values c)) |})
          with true.
        cbn iota. cbn [values].
        pose proof (to_numeric_numeric (map strip_currency (values c))) as Hnum.
        destruct (str_accessor (to_numeric L (map strip_currency (values c))))
          eqn:Ea2; cbn [fst]; [|reflexivity].
        rewrite (numeric_accessor _ Hnum Ea2).
        now rewrite (to_numeric_fixed _ Hnum).
      + now rewrite Eo, Ea.
    - cbn [fst].
      assert (Hd : dtype_is_object
                     {| dtype_of := numeric_dtype (dtype_of c);
                        values := to_numeric L (values c) |} = false).
      { unfold dtype_is_object in *. cbn [dtype_of].
        destruct (dtype_of c); try discriminate; reflexivity. }
      rewrite Hd. cbn [fst values dtype_of].
      rewrite (to_numeric_fixed _ (to_numeric_numeric (values c))).
      f_equal. unfold dtype_is_object in Eo.
      destruct (dtype_of c); try discriminate; reflexivity. }
  destruct (is_date_type dt).
  { destruct (negb (PyStr.endswith "_Parsed" col)); cbn [fst]; [|reflexivity].
    cbn [values].
    rewrite (to_datetime_fixed _ (to_datetime_temporal (values c))).
    f_equal. unfold dtype_is_object. cbn [dtype_of].
    destruct (dtype_of c); reflexivity. }
  destruct (dtype_is_object c) eqn:Eo; cbn [fst].
  - change (dtype_is_object
              {| dtype_of := object;
                 values := map (fillna (Str "")) (values c) |}) with true.
    cbn iota. cbn [fst values]. now rewrite fillna_idem.
  - now rewrite Eo.
Qed.
End ColumnFacts.

(** On the type names of SQL Server the tests of the program exclude
    each other: the order of the branches decides nothing there. *)
Lemma system_types_one_family :
  Forall (fun dtype => families dtype <= 1) system_types.
Proof.
  apply Forall_forall. intros dtype Hin.
  assert (H : forallb (fun dt => (families dt <=? 1)%nat) system_types = true)
    by (vm_compute; reflexivity).
  apply Nat.leb_le. exact (proj1 (forallb_forall _ _) H dtype Hin).
Qed.

(** ** The coercion stage *)

Section CoercionClaims.
Variable float : Type.
Variable L : Pandas float.

Local Abbreviation cell := (cell float).
Local Abbreviation frame := (frame float).
Local Abbreviation series := (series float).

Lemma coerced_entry_idem (s : Dict.t string) (kv : string * series) :
  coerced_entry L s (coerced_entry L s kv) = coerced_entry L s kv.
Proof.
  destruct kv as [k v]. unfold coerced_entry. cbn [fst snd].
  destruct (Dict.get k s) as [dt|]; [|reflexivity].
  now rewrite coerce_column_idem.
Qed.

(** The warning of one column is logged exactly when the body of its
    [try] raises. *)
Lemma coerce_warning_logged (s : Dict.t string) (df : frame) (col dt : string)
  (c : series) :
  NoDup (Dict.keys s) ->
  Dict.get col s = Some dt ->
  Dict.get col (data df) = Some c ->
  In (WARNING, MsgCoerceFailed col dt) (snd (coerce_types L s df))
  <-> snd (coerce_column L col dt c) = true.
Proof.
  intros Hs Hdt Hc. rewrite (coerce_types_log float L s df Hs). split.
  - intros He. apply in_flat_map in He.
    destruct He as [[k d] [Hin He]]. unfold coerce_warning in He. cbn [fst snd] in He.
    destruct (Dict.get k (data df)) as [c0|] eqn:E0; [|contradiction].
    destruct (snd (coerce_column L k d c0)) eqn:Er; [|contradiction].
    destruct He as [He|[]]. inversion He; subst k d.
    rewrite Hc in E0. inversion E0; subst. exact Er.
  - intros Hr. apply in_flat_map. exists (col, dt). split.
    + clear - Hdt. induction s as [|[k d] s' IH]; simpl in *; [discriminate|].
      destruct (String.eqb col k) eqn:E.
      * apply String.eqb_eq in E. inversion Hdt; subst. now left.
      * right. now apply IH.
    + unfold coerce_warning. cbn [fst snd]. rewrite Hc, Hr. now left.
Qed.

(** What [pd.to_numeric] leaves in the row of a text. *)
Lemma to_numeric_nth (v : list cell) (i : nat) (text : string) :
  nth_error v i = Some (Str text) ->
  nth_error (to_numeric L v) i = Some (float_cell L text)
  \/ exists z, parse_int L text = Some z
               /\ nth_error (to_numeric L v) i = Some (Int z).
Proof.
  intros Hi. unfold to_numeric. destruct (texts_of v) as [l|] eqn:E.
  - apply texts_of_Some in E. subst v.
    rewrite nth_error_map in Hi.
    destruct (nth_error l i) as [t|] eqn:Et; [|discriminate].
    inversion Hi; subst t. unfold numeric_of_texts.
    assert (Hf : nth_error (map (float_cell L) l) i = Some (float_cell L text))
      by (now rewrite nth_error_map, Et).
    destruct (parse_ints L l) as [zs|] eqn:Ez; [|now left].
    destruct (forallb in_int64 zs || forallb in_uint64 zs); [|now left].
    right. destruct (parse_ints_nth float L l zs i text Ez Et) as [z [Hz Hn]].
    exists z. split; [exact Hz|]. now rewrite nth_error_map, Hn.
  - rewrite nth_error_map, Hi. cbn [option_map to_numeric_cell].
    destruct (parse_int L text) as [z|] eqn:Ez; [right|now left].
    exists z. now split.
Qed.

(** C9.  The coercion stage is idempotent and deterministic: applied to
    its own output it returns that output unchanged, and on equal inputs
    it returns equal outputs.  The table is any DataFrame with distinct
    column names, the schema any dictionary. *)
Theorem coerce_types_idempotent (s : Dict.t string) (df : frame) :
  NoDup (Dict.keys s) ->
  NoDup (Dict.keys (columns df)) ->
  fst (coerce_types L s (fst (coerce_types L s df))) = fst (coerce_types L s df)
  /\ (forall df' : frame, df' = df -> coerce_types L s df' = coerce_types L s df).
Proof.
  intros Hs Hdf. split; [|now intros df' ->].
  rewrite columns_keys in Hdf.
  rewrite (coerce_types_columns float L s df Hs Hdf).
  rewrite coerce_types_columns; cbn [data nrows].
  - f_equal. rewrite map_map. apply map_ext. apply coerced_entry_idem.
  - assumption.
  - unfold Dict.keys. rewrite map_map. exact Hdf.
Qed.

(** C2, as the code has it.  In a column whose declared type contains
    [int], the placeholders are first replaced by the text ["0"]; the
    column is then parsed as a whole, filled with 0 and cast to [Int64].
    When the cast succeeds the column is an [Int64] column: every value
    is an integer of [int64], none is a missing marker, the placeholders
    and the texts that are no number are 0, and nothing is logged.  The
    cast raises when some value of the parsed column is a float that is
    equal to no integer of [int64], or an integer beyond [int64]; the
    handler then logs a warning and the column keeps its dtype and its
    values, with the placeholders replaced by ["0"]. *)
Theorem int_column_coercion (s : Dict.t string) (df : frame) (col dt : string)
  (c : series) (zero : float) :
  NoDup (Dict.keys s) ->
  Dict.get col s = Some dt ->
  is_int_type dt = true ->
  Dict.get col (data df) = Some c ->
  parse_int L "0" = Some 0%Z ->
  parse_float L "0" = Some zero ->
  float_to_int L zero = Some 0%Z ->
  let parsed := to_numeric L (map replace_blank (values c)) in
  match astype_Int64 L (map (fillna (Int 0)) parsed) with
  | Some ints =>
      Dict.get col (data (fst (coerce_types L s df)))
      = Some {| dtype_of := Int64; values := ints |}
      /\ Forall (fun x => is_int64 x = true) ints
      /\ List.length ints = List.length (values c)
      /\ (forall i text, nth_error (values c) i = Some (Str text) ->
            PyStr.mem text zero_tokens = true
            \/ (parse_int L text = None /\ parse_float L text = None) ->
            nth_error ints i = Some (Int 0))
      /\ ~ In (WARNING, MsgCoerceFailed col dt) (snd (coerce_types L s df))
  | None =>
      Dict.get col (data (fst (coerce_types L s df)))
      = Some {| dtype_of := dtype_of c; values := map replace_blank (values c) |}
      /\ In (WARNING, MsgCoerceFailed col dt) (snd (coerce_types L s df))
      /\ exists x, In x parsed
                   /\ as_Int64 L x = None
                   /\ ((exists z, x = Int z /\ in_int64 z = false)
                       \/ exists f, x = Float f)
  end.
Proof.
  intros Hs Hdt Hint Hc Hzero Hfzero Hcast parsed.
  pose proof (coerce_types_get float L s df col Hs) as Hget.
  rewrite Hdt, Hc in Hget. cbn [option_map] in Hget.
  pose proof (coerce_warning_logged s df col dt c Hs Hdt Hc) as Hwarn.
  unfold coerce_column in Hget, Hwarn. rewrite Hint in Hget, Hwarn.
  fold parsed in Hget, Hwarn.
  destruct (astype_Int64 L (map (fillna (Int 0)) parsed)) as [ints|] eqn:E;
    cbn [fst snd] in Hget, Hwarn.
  - split; [exact Hget|]. split; [now apply (astype_filled_ints float L parsed)|].
    split.
    { rewrite (astype_length float L _ _ E), length_map. unfold parsed.
      now rewrite to_numeric_length, length_map. }
    split; [|intros Habs; apply Hwarn in Habs; discriminate].
    intros i text Hnth Hcase.
    assert (Hrow : exists t, nth_error (map replace_blank (values c)) i = Some (Str t)
                   /\ ((t = "0")
                       \/ (parse_int L t = None /\ parse_float L t = None))).
    { rewrite nth_error_map, Hnth. cbn [option_map replace_blank].
      destruct (PyStr.mem text zero_tokens) eqn:Em.
      - exists "0". split; [reflexivity | now left].
      - exists text. split; [reflexivity|]. right.
        destruct Hcase as [Habs|Hno]; [discriminate | exact Hno]. }
    destruct Hrow as [t [Ht Hcase']].
    assert (Hfilled : exists x, nth_error (map (fillna (Int 0)) parsed) i = Some x
                      /\ as_Int64 L x = Some (Int 0)).
    { destruct (to_numeric_nth _ i t Ht) as [Hn|[z [Hz Hn]]]; fold parsed in Hn;
        rewrite nth_error_map, Hn; cbn [option_map].
      - unfold float_cell. destruct Hcase' as [->|[_ Hno]].
        + rewrite Hfzero. exists (Float zero). split; [reflexivity|].
          cbn [as_Int64]. now rewrite Hcast.
        + rewrite Hno. exists (Int 0). split; reflexivity.
      - destruct Hcase' as [->|[Hno _]]; [|congruence].
        rewrite Hzero in Hz. inversion Hz; subst z.
        exists (Int 0). split; reflexivity. }
    destruct Hfilled as [x [Hx Hx0]].
    destruct (astype_nth float L _ _ i x E Hx) as [x' [Hx' Hn']].
    rewrite Hn'. congruence.
  - split; [exact Hget|]. split; [now apply Hwarn|].
    apply astype_fails in E. destruct E as [y [Hy Hnone]].
    apply in_map_iff in Hy. destruct Hy as [x [<- Hx]].
    pose proof (proj1 (Forall_forall _ _) (to_numeric_numeric float L _) x Hx) as Hnum.
    exists x. split; [exact Hx|].
    destruct x as [t|z|f|t|]; simpl in Hnum, Hnone; try discriminate.
    + split; [exact Hnone|]. left. exists z. split; [reflexivity|].
      now destruct (in_int64 z).
    + split; [exact Hnone|]. right. now exists f.
Qed.
End CoercionClaims.

(** ** Decimal columns

    [float64] is the binary64 format, the floats of the kernel. *)

Section DecimalClaim.
Variable L : Pandas float.

Local Abbreviation frame := (frame float).

(** C3.  In a column of texts whose declared type contains [float],
    [decimal], [numeric] or [money] (and not [int], which comes first),
    every [$] and every [,] is removed and the column of the remaining
    texts is parsed as numbers: ["$1,234.50"] is stripped to ["1234.50"]
    and becomes the float 1234.5, a text that is no number once stripped
    becomes the missing marker, which is no zero, and a column with a
    text that is no integer literal holds floats and missing markers
    only.  Nothing is logged. *)
Theorem float_column_coercion (s : Dict.t string) (df : frame) (col dt : string)
  (texts : list string) :
  NoDup (Dict.keys s) ->
  Dict.get col s = Some dt ->
  is_float_type dt = true ->
  is_int_type dt = false ->
  Dict.get col (data df) = Some {| dtype_of := object; values := map Str texts |} ->
  parse_int L "1234.50" = None ->
  parse_float L "1234.50" = Some 1234.5%float ->
  let stripped text := PyStr.replace "," "" (PyStr.replace "$" "" text) in
  let coerced := numeric_of_texts L (map stripped texts) in
  Dict.get col (data (fst (coerce_types L s df)))
  = Some {| dtype_of := object; values := coerced |}
  /\ stripped "$1,234.50" = "1234.50"
  /\ (forall i, nth_error texts i = Some "$1,234.50" ->
        nth_error coerced i = Some (Float 1234.5%float))
  /\ (forall i text, nth_error texts i = Some text ->
        parse_int L (stripped text) = None ->
        parse_float L (stripped text) = None ->
        nth_error coerced i = Some NA)
  /\ (NA <> @Int float 0 /\ forall f : float, NA <> Float f)
  /\ (forall text, In text texts -> parse_int L (stripped text) = None ->
        coerced = map (fun t => float_cell L (stripped t)) texts)
  /\ ~ In (WARNING, MsgCoerceFailed col dt) (snd (coerce_types L s df)).
Proof.
  intros Hs Hdt Hfloat Hint Hc Hnoint Hx stripped coerced.
  assert (Hstrip : map strip_currency (map (@Str float) texts)
                   = map Str (map stripped texts)).
  { rewrite !map_map. reflexivity. }
  assert (Hcol : coerce_column L col dt
                   {| dtype_of := object; values := map Str texts |}
                 = ({| dtype_of := object; values := coerced |}, false)).
  { unfold coerce_column. rewrite Hint, Hfloat.
    change (dtype_is_object {| dtype_of := object; values := map (@Str float) texts |})
      with true. cbn iota. cbn [values].
    now rewrite texts_accessor, Hstrip, to_numeric_texts. }
  assert (Hfloats : forall text, In text texts ->
            parse_int L (stripped text) = None ->
            coerced = map (fun t => float_cell L (stripped t)) texts).
  { intros text Hin Hno. unfold coerced.
    rewrite (numeric_of_texts_floats float L _ (stripped text)).
    - now rewrite map_map.
    - now apply in_map.
    - exact Hno. }
  split; [|split; [|split; [|split; [|split; [|split]]]]].
  - rewrite coerce_types_get by assumption. rewrite Hdt, Hc. cbn [option_map].
    now rewrite Hcol.
  - reflexivity.
  - intros i Hi. rewrite (Hfloats "$1,234.50" (nth_error_In _ _ Hi) Hnoint).
    rewrite nth_error_map, Hi. cbn [option_map]. unfold float_cell.
    change (stripped "$1,234.50") with "1234.50". now rewrite Hx.
  - intros i text Hi Hno Hnone.
    rewrite (Hfloats text (nth_error_In _ _ Hi) Hno).
    rewrite nth_error_map, Hi. cbn [option_map]. unfold float_cell.
    now rewrite Hnone.
  - split; [discriminate | intros f; discriminate].
  - exact Hfloats.
  - intros Habs.
    apply (coerce_warning_logged float L s df col dt _ Hs Hdt Hc) in Habs.
    rewrite Hcol in Habs. discriminate.
Qed.
End DecimalClaim.

(** ** Reconciliation and derivation *)

Section ReconcileClaims.
Variable float : Type.
Variable L : Pandas float.

Local Abbreviation cell := (cell float).
Local Abbreviation frame := (frame float).
Local Abbreviation series := (series float).

Lemma derived_from_mem (df : csv) (cols : list string) (k : string) :
  derived_from df cols k <> None -> In k cols.
Proof.
  unfold derived_from. destruct (PyStr.mem k cols) eqn:E.
  - intros _. now apply mem_In.
  - simpl. congruence.
Qed.

(** A derived column holds timestamps only. *)
Lemma derive_column_values (raw : list string) :
  derive_column L raw
  = map (fun text => Time (derived_value L (map (PyStr.drop_last 4) raw)
                                         (PyStr.drop_last 4 text))) raw.
Proof.
  unfold derive_column. rewrite to_datetime_texts, !map_map.
  apply map_ext. intros text. unfold datetime_cell, derived_value.
  now destruct (parse_datetime L _ _).
Qed.

(** The coercion stage leaves a [datetime64] column whose name ends in
    [_Parsed] alone unless its declared type is numeric. *)
Lemma coerce_column_times (col dt : string) (c : series) :
  PyStr.endswith "_Parsed" col = true ->
  is_int_type dt = false ->
  is_float_type dt = false ->
  dtype_of c = datetime64 ->
  coerce_column L col dt c = (c, false).
Proof.
  intros Hend Hint Hfloat Hd. unfold coerce_column.
  rewrite Hint, Hfloat, Hend. cbn [negb].
  destruct (is_date_type dt); [reflexivity|].
  unfold dtype_is_object. now rewrite Hd.
Qed.

(** C1, as the code has it.  Let [X_Parsed] be a schema column whose
    declared type is neither integer-like nor decimal-like, with [X] a
    column of the source file that the removal of [_Parsed] from
    [X_Parsed] gives back.  Then [X_Parsed] is a [datetime64] column of
    the table handed to the upload, and each of its rows is the date
    that [pd.to_datetime], called on the column of the raw texts of [X]
    without their last four characters, gives the text of that row; it
    is the timestamp 1900-01-01 00:00:00 where [pd.to_datetime] gives
    no date, as it does for a blank, and never a missing marker. *)
Theorem parsed_column_value (db_schema table_name : string) (s : Dict.t string)
  (df : csv) (X dt : string) (raw : list string) :
  NoDup (Dict.keys s) ->
  Dict.get (X ++ "_Parsed")%string s = Some dt ->
  source_col_of (X ++ "_Parsed")%string = X ->
  is_int_type dt = false ->
  is_float_type dt = false ->
  Dict.get X (csv_columns df) = Some raw ->
  (forall column, parse_datetime L column "" = None) ->
  let shortened := map (PyStr.drop_last 4) raw in
  let value text :=
    match parse_datetime L shortened (PyStr.drop_last 4 text) with
    | Some ns => ns
    | None => Date.default_date
    end in
  Dict.get (X ++ "_Parsed")%string
           (data (fst (prepare L db_schema table_name s df)))
  = Some {| dtype_of := datetime64;
            values := map (fun text => Time (value text)) raw |}
  /\ value "" = Date.default_date
  /\ (forall text,
        parse_datetime L shortened (PyStr.drop_last 4 text) = None ->
        value text = Date.default_date)
  /\ Date.default_date = Date.timestamp 1900 1 1 0 0 0
  /\ Date.default_date = (-2208988800 * 1000000000)%Z.
Proof.
  intros Hs Hdt Hsrc Hint Hfloat Hraw Hblank shortened value.
  split; [|split; [|split; [|split]]].
  - rewrite prepare_fst, coerce_types_get by assumption. rewrite Hdt.
    rewrite derive_columns_get. unfold derived_from.
    assert (Hmem : PyStr.mem (X ++ "_Parsed")%string (Dict.keys s) = true)
      by (apply mem_In; eauto using get_Some_In).
    rewrite Hmem, endswith_app, Hsrc, Hraw. cbn [andb option_map]. f_equal.
    rewrite coerce_column_times; try assumption; try reflexivity.
    + cbn [fst]. f_equal. apply derive_column_values.
    + apply endswith_app.
  - unfold value. change (PyStr.drop_last 4 "") with "". now rewrite Hblank.
  - intros text Hnone. unfold value. now rewrite Hnone.
  - reflexivity.
  - reflexivity.
Qed.

(** A column of the file that the schema does not name is not a column
    of the table handed to the upload, and the warning of the column
    matching names it. *)
Lemma discarded_column_absent (db_schema table_name : string) (s : Dict.t string)
  (df : csv) (col : string) :
  In col (Dict.keys (csv_columns df)) ->
  ~ In col (Dict.keys s) ->
  ~ In col (Dict.keys (columns (fst (prepare L db_schema table_name s df))))
  /\ exists discarded,
       In col discarded
       /\ discarded = discarded_columns (Dict.keys (csv_columns df)) (Dict.keys s)
       /\ In (WARNING, MsgDiscarding db_schema table_name discarded)
             (snd (prepare L db_schema table_name s df)).
Proof.
  intros Hcsv Hout. split.
  - rewrite columns_keys, prepare_keys. intros [[_ Hin]|Hd]; [contradiction|].
    apply derived_from_mem in Hd. contradiction.
  - exists (discarded_columns (Dict.keys (csv_columns df)) (Dict.keys s)).
    assert (Hin : In col (discarded_columns (Dict.keys (csv_columns df)) (Dict.keys s))).
    { unfold discarded_columns. apply filter_In. split; [assumption|].
      apply negb_true_iff. now apply mem_false_iff. }
    split; [assumption|]. split; [reflexivity|].
    rewrite prepare_snd. apply in_or_app. left.
    destruct (discarded_columns (Dict.keys (csv_columns df)) (Dict.keys s)) as [|d ds].
    + contradiction.
    + now left.
Qed.

(** C5, as the code has it.  A schema column ending in [_Parsed] is
    derived exactly when its base name, the column name without any
    [_Parsed], is a column of the source file, whether or not the schema
    knows that column.  When it is, the derivation is logged and the
    column holds the derived values; when it is not, nothing is logged
    for it and the table has a column of that name only if the file
    has one. *)
Theorem derivation_condition (db_schema table_name : string) (s : Dict.t string)
  (df : csv) (db_col : string) :
  NoDup (Dict.keys s) ->
  In db_col (Dict.keys s) ->
  PyStr.endswith "_Parsed" db_col = true ->
  let out := prepare L db_schema table_name s df in
  match Dict.get (source_col_of db_col) (csv_columns df) with
  | Some raw =>
      In (INFO, MsgDeriving db_col (source_col_of db_col)) (snd out)
      /\ Dict.get db_col
           (columns (fst (derive_columns L df (Dict.keys s) (reconciled s df))))
         = Some (derive_column L raw)
      /\ In db_col (Dict.keys (columns (fst out)))
  | None =>
      (forall lvl src, ~ In (lvl, MsgDeriving db_col src) (snd out))
      /\ (In db_col (Dict.keys (columns (fst out)))
          <-> In db_col (Dict.keys (csv_columns df)))
  end.
Proof.
  intros Hs Hin Hend out.
  assert (Hmem : PyStr.mem db_col (Dict.keys s) = true) by now apply mem_In.
  assert (Hd : derived_from df (Dict.keys s) db_col
               = Dict.get (source_col_of db_col) (csv_columns df)).
  { unfold derived_from. now rewrite Hmem, Hend. }
  destruct (Dict.get (source_col_of db_col) (csv_columns df)) as [raw|] eqn:E.
  - split; [|split].
    + unfold out. rewrite prepare_snd, derive_columns_log.
      apply in_or_app. right. apply in_or_app. left.
      apply in_flat_map. exists db_col. split; [assumption|].
      unfold derive_entry. rewrite Hend, E. now left.
    + now rewrite columns_get, derive_columns_get, Hd.
    + unfold out. rewrite columns_keys. apply prepare_keys. right.
      rewrite Hd. discriminate.
  - split.
    + intros lvl src Habs. unfold out in Habs.
      rewrite prepare_snd, derive_columns_log, coerce_types_log in Habs by assumption.
      apply in_app_or in Habs. destruct Habs as [Habs|Habs].
      { unfold discard_log in Habs.
        destruct (discarded_columns _ _); [contradiction|].
        destruct Habs as [Habs|[]]. discriminate. }
      apply in_app_or in Habs. destruct Habs as [Habs|Habs].
      { apply in_flat_map in Habs. destruct Habs as [c [_ Hc]].
        unfold derive_entry in Hc.
        destruct (PyStr.endswith "_Parsed" c); [|contradiction].
        destruct (Dict.get (source_col_of c) (csv_columns df)) eqn:Ec; [|contradiction].
        destruct Hc as [Hc|[]]. inversion Hc; subst. congruence. }
      apply in_flat_map in Habs. destruct Habs as [[c d] [_ Hc]].
      unfold coerce_warning in Hc.
      destruct (Dict.get (fst (c, d)) _); [|contradiction].
      destruct (snd (coerce_column L _ _ _)); [|contradiction].
      destruct Hc as [Hc|[]]. discriminate.
    + unfold out. rewrite columns_keys, prepare_keys, Hd. tauto.
Qed.

(** C10.  The base name of a derived column is the column name with
    every [_Parsed] removed, also one that is not at the end: the first
    occurrence goes and the removal continues behind it, so that
    [X_Parsed_Y_Parsed] is derived from [X_Y]. *)
Theorem derived_base_removes_every_occurrence (df : csv) (acc : frame * list entry)
  (u v : string) :
  PyStr.contains "_Parsed" (u ++ "_Parse")%string = false ->
  PyStr.endswith "_Parsed" (u ++ "_Parsed" ++ v)%string = true ->
  let db_col := (u ++ "_Parsed" ++ v)%string in
  let base := (u ++ source_col_of v)%string in
  source_col_of db_col = base
  /\ derive_step L df acc db_col
     = match Dict.get base (csv_columns df) with
       | Some raw =>
           (set_column db_col {| dtype_of := datetime64;
                                 values := derive_column L raw |} (fst acc),
            (snd acc ++ [(INFO, MsgDeriving db_col base)])%list)
       | None => acc
       end
  /\ source_col_of "X_Parsed_Y_Parsed" = "X_Y".
Proof.
  intros Hfree Hend. cbv zeta.
  assert (Hbase : source_col_of (u ++ "_Parsed" ++ v)%string
                  = (u ++ source_col_of v)%string).
  { unfold source_col_of. now apply replace_Parsed_first. }
  split; [assumption|]. split; [|reflexivity].
  unfold derive_step. rewrite Hend, Hbase. reflexivity.
Qed.
End ReconcileClaims.

(** ** Runs *)

Ltac tidy_trace :=
  repeat first [progress cbn [trace table app fst snd] | rewrite <- app_assoc].

Section RunFacts.
Variable float : Type.
Variable L : Pandas float.
Variable w : world.

Local Abbreviation state := (state float).
Local Abbreviation frame := (frame float).
Local Abbreviation row := (row float).

Lemma log_all_run (entries : list entry) (st : state) :
  log_all entries st
  = (Return tt, {| trace := trace st ++ map Log entries; table := table st |}).
Proof.
  revert st. induction entries as [|e entries IH]; intros st; cbn [log_all map].
  - unfold ret. rewrite app_nil_r. now destruct st.
  - unfold bind, emit. rewrite IH. cbn [trace table].
    now rewrite <- app_assoc.
Qed.

Lemma batches_from_concat {A : Type} (size fuel : nat) (l : list A) :
  0 < size -> List.length l <= fuel -> concat (batches_from size fuel l) = l.
Proof.
  intros Hsize. revert l. induction fuel as [|fuel IH]; intros l Hlen.
  - destruct l; [reflexivity | simpl in Hlen; lia].
  - destruct l as [|a l]; [reflexivity|].
    cbn [batches_from concat]. rewrite IH.
    + apply firstn_skipn.
    + rewrite length_skipn.
      change (List.length (a :: l)) with (S (List.length l)) in *. lia.
Qed.

Lemma batches_concat {A : Type} (size : nat) (l : list A) :
  0 < size -> concat (batches size l) = l.
Proof.
  intros Hsize. now apply batches_from_concat.
Qed.

Lemma insert_batches_ok (k : nat) (bs : list (list row)) (st : state) :
  first_failure w k (List.length bs) = None ->
  insert_batches w k bs st
  = (Return tt, {| trace := trace st ++ map Insert bs;
                   table := table st ++ concat bs |}).
Proof.
  revert k st. induction bs as [|b bs IH]; intros k st Hok;
    cbn [insert_batches map concat].
  - unfold ret. rewrite !app_nil_r. now destruct st.
  - cbn [List.length first_failure] in Hok.
    destruct (insert_batch w k); [discriminate|].
    unfold bind. rewrite IH by assumption. cbn [trace table].
    now rewrite <- !app_assoc.
Qed.

Lemma insert_batches_fail (k : nat) (bs : list (list row)) (st : state) (e : exn) :
  first_failure w k (List.length bs) = Some e ->
  exists done,
    insert_batches w k bs st
    = (Raise e, {| trace := trace st ++ map Insert done;
                   table := table st ++ concat done |}).
Proof.
  revert k st. induction bs as [|b bs IH]; intros k st Hfail;
    cbn [insert_batches List.length first_failure] in *.
  - discriminate.
  - destruct (insert_batch w k) as [e'|].
    + inversion Hfail; subst. exists []. unfold raise. cbn [map concat].
      rewrite !app_nil_r. now destruct st.
    + unfold bind.
      destruct (IH (S k) {| trace := trace st ++ [Insert b];
                            table := table st ++ b |} Hfail) as [done Hd].
      rewrite Hd. exists (b :: done). cbn [trace table map concat].
      now rewrite <- !app_assoc.
Qed.

(** What the upload does to a state: a write without error commits all
    the rows of the table; a write with an error leaves the destination
    table as it was, after a rollback. *)
Lemma upload_run (db_schema table_name : string) (df : frame) (st : state) :
  let bs := batches 5000 (rows_of df) in
  let opening := [Log (INFO, MsgUploading (nrows df) db_schema table_name); Begin] in
  match write_error w (List.length bs) with
  | None =>
      upload w db_schema table_name df st
      = (Return tt,
         {| trace := trace st ++ opening ++ map Insert bs
                     ++ [Log (INFO, MsgUploadDone); Commit];
            table := table st ++ rows_of df |})
  | Some e =>
      exists mid,
        forallb quiet mid = true
        /\ upload w db_schema table_name df st
           = (match e with SQLAlchemyError => Return tt | _ => Raise e end,
              {| trace := trace st ++ opening ++ mid ++ Rollback
                          :: match e with
                             | SQLAlchemyError =>
                                 [Log (ERROR, MsgUploadError e);
                                  Log (ERROR, MsgRolledBack)]
                             | _ => []
                             end;
                 table := table st |})
  end.
Proof.
  intros bs opening. unfold write_error.
  destruct (first_failure w 0 (List.length bs)) as [e|] eqn:Ef.
  - destruct (insert_batches_fail 0 bs
                {| trace := (trace st ++ [Log (INFO, MsgUploading (nrows df) db_schema table_name)])
                            ++ [Begin];
                   table := table st |} e Ef) as [done Hd].
    exists (map Insert done). split.
    { apply forallb_forall. intros ev Hev. apply in_map_iff in Hev.
      now destruct Hev as [b [<- _]]. }
    unfold upload, bind, try_except, with_begin, bind, log, emit, to_sql.
    cbn [trace table]. fold bs. rewrite Hd. cbn [trace table].
    unfold opening. destruct e; tidy_trace; reflexivity.
  - pose proof (insert_batches_ok 0 bs
                {| trace := (trace st ++ [Log (INFO, MsgUploading (nrows df) db_schema table_name)])
                            ++ [Begin];
                   table := table st |} Ef) as Hok.
    assert (Hrows : concat bs = rows_of df) by (apply batches_concat; lia).
    destruct (commit w) as [e|] eqn:Ec.
    + exists (map Insert bs ++ [Log (INFO, MsgUploadDone)])%list. split.
      { rewrite forallb_app. apply andb_true_iff. split; [|reflexivity].
        apply forallb_forall. intros ev Hev. apply in_map_iff in Hev.
        now destruct Hev as [b [<- _]]. }
      unfold upload, bind, try_except, with_begin, bind, log, emit, to_sql.
      cbn [trace table]. fold bs. rewrite Hok. cbn [trace table]. rewrite Ec.
      unfold opening. destruct e; tidy_trace; reflexivity.
    + unfold upload, bind, try_except, with_begin, bind, log, emit, to_sql.
      cbn [trace table]. fold bs. rewrite Hok. cbn [trace table]. rewrite Ec.
      unfold opening. tidy_trace. now rewrite Hrows.
Qed.
(** [get_db_engine] raises to its caller: a missing credential as a
    [ValueError], a failed connection as the exception of the driver. *)
Lemma get_db_engine_raises (st : state) :
  engine_ok w = false ->
  exists e st', get_db_engine w st = (Raise e, st') /\ table st' = table st.
Proof.
  unfold engine_ok, get_db_engine, bind, try_except, log, emit, raise.
  destruct (truthy (getenv w "DB_SERVER") && truthy (getenv w "DB_DATABASE")
            && truthy (getenv w "DB_USER")); cbn [andb negb].
  - destruct (connect w) as [e|]; [|discriminate]. intros _.
    destruct e; cbn [trace table]; do 2 eexists; split; reflexivity.
  - intros _. do 2 eexists. split; reflexivity.
Qed.

(** The events of a run up to the column matching. *)
Lemma run_reaches_upload (filepath table_name : string) (table0 : list row)
  (s : Dict.t string) (df : csv) :
  reaches_matching w filepath table_name = Some (s, df) ->
  let p := prepare L (db_schema_of w) table_name s df in
  let st1 :=
    {| trace :=
         [Log (INFO, MsgStart filepath);
          Log (INFO, MsgConnected);
          Log (INFO, MsgFetching (db_schema_of w) table_name);
          Log (INFO, MsgReading filepath);
          ReadCsv filepath;
          Log (INFO, MsgReadRows (csv_rows df))]
         ++ map Log (snd p);
       table := table0 |} in
  run L w filepath table_name table0
  = match upload w (db_schema_of w) table_name (fst p) st1 with
    | (Return a, st') => (Return a, st')
    | (Raise e, st') =>
        (Return tt,
         {| trace := trace st'
                     ++ [Log (ERROR, match e with
                                     | FileNotFoundError => MsgFileNotFound filepath
                                     | _ => MsgUnexpected e
                                     end)];
            table := table st' |})
    end.
Proof.
  intros Hreach p st1. unfold reaches_matching, engine_ok in Hreach.
  destruct (truthy (getenv w "DB_SERVER") && truthy (getenv w "DB_DATABASE")
            && truthy (getenv w "DB_USER")) eqn:Henv; [|discriminate].
  destruct (connect w) eqn:Hconn; [discriminate|]. cbn [andb] in Hreach.
  destruct (query_columns w table_name (db_schema_of w)) as [rows|] eqn:Hq;
    [|discriminate].
  destruct (Dict.of_rows rows) as [|kv s'] eqn:Hrows; [discriminate|].
  destruct (read_csv w filepath) as [df'|] eqn:Hread; [|discriminate].
  inversion Hreach; subst s df'. clear Hreach.
  unfold run, upload_data, bind, try_except, get_db_engine, get_table_schema,
    pd_read_csv, bind, try_except, log, emit, ret.
  rewrite Henv, Hconn. cbn [negb trace table].
  fold (db_schema_of w). rewrite Hq, Hrows. cbn [trace table]. rewrite Hread.
  cbn [trace table].
  fold p. destruct p as [out entries] eqn:Hp. cbn [fst snd] in *.
  unfold bind. rewrite log_all_run. cbn [trace table].
  subst st1. tidy_trace.
  destruct (upload w (db_schema_of w) table_name out _) as [[a|e] st'].
  - reflexivity.
  - destruct e; reflexivity.
Qed.
(** A run that does not reach the column matching returns normally, has
    logged an error, and has opened no transaction. *)
Lemma run_stops (filepath table_name : string) (table0 : list row) :
  reaches_matching w filepath table_name = None ->
  exists tr,
    run L w filepath table_name table0 = (Return tt, {| trace := tr; table := table0 |})
    /\ begins tr = 0
    /\ exists m, In (Log (ERROR, m)) tr.
Proof.
  intros Hstop. unfold reaches_matching, engine_ok in Hstop.
  unfold run, upload_data, bind, try_except, get_db_engine, get_table_schema,
    pd_read_csv, bind, try_except, log, emit, ret, raise.
  fold (db_schema_of w).
  destruct (truthy (getenv w "DB_SERVER") && truthy (getenv w "DB_DATABASE")
            && truthy (getenv w "DB_USER")) eqn:Henv; cbn [negb trace table app].
  2:{ eexists. split; [reflexivity|]. split; [reflexivity|].
      eexists. cbn [In]. right. left. reflexivity. }
  destruct (connect w) as [e|] eqn:Hconn; cbn [trace table app].
  { destruct e; cbn [trace table app];
      (eexists; split; [reflexivity|]; split; [reflexivity|];
       eexists; cbn [In]; right; left; reflexivity). }
  cbn [andb] in Hstop.
  destruct (query_columns w table_name (db_schema_of w)) as [rows|e] eqn:Hq;
    cbn [trace table app].
  2:{ destruct e; cbn [trace table app];
      (eexists; split; [reflexivity|]; split; [reflexivity|];
       eexists; cbn [In]; do 3 right; left; reflexivity). }
  destruct (Dict.of_rows rows) as [|kv s'] eqn:Hrows; cbn [trace table app].
  { eexists. split; [reflexivity|]. split; [reflexivity|].
    eexists. cbn [In]. do 4 right. left. reflexivity. }
  destruct (read_csv w filepath) as [df|e] eqn:Hread; [discriminate|].
  cbn [trace table app].
  destruct e; cbn [trace table app];
    (eexists; split; [reflexivity|]; split; [reflexivity|];
     eexists; cbn [In]; do 5 right; left; reflexivity).
Qed.
Lemma reaches_intro (filepath table_name : string) (rows : list (string * string))
  (df : csv) :
  engine_ok w = true ->
  query_columns w table_name (db_schema_of w) = inl rows ->
  Dict.of_rows rows <> [] ->
  read_csv w filepath = inl df ->
  reaches_matching w filepath table_name = Some (Dict.of_rows rows, df).
Proof.
  intros Hok Hq Hne Hread. unfold reaches_matching. rewrite Hok, Hq, Hread.
  destruct (Dict.of_rows rows); [congruence | reflexivity].
Qed.

(** The whole of a run that reaches the column matching. *)
Lemma run_outcome (filepath table_name : string) (table0 : list row)
  (s : Dict.t string) (df : csv) :
  reaches_matching w filepath table_name = Some (s, df) ->
  let p := prepare L (db_schema_of w) table_name s df in
  let bs := batches 5000 (rows_of (fst p)) in
  let before :=
    (opening_events w filepath table_name df ++ map Log (snd p)
     ++ [Log (INFO, MsgUploading (nrows (fst p)) (db_schema_of w) table_name); Begin])%list in
  match write_error w (List.length bs) with
  | None =>
      run L w filepath table_name table0
      = (Return tt,
         {| trace := before ++ map Insert bs ++ [Log (INFO, MsgUploadDone); Commit];
            table := table0 ++ rows_of (fst p) |})
  | Some e =>
      exists mid,
        forallb quiet mid = true
        /\ run L w filepath table_name table0
           = (Return tt,
              {| trace := before ++ mid ++ Rollback :: write_error_entries filepath e;
                 table := table0 |})
  end.
Proof.
  intros Hreach p bs before.
  rewrite (run_reaches_upload filepath table_name table0 s df Hreach).
  fold p.
  set (st1 := {| trace := _; table := table0 |}).
  pose proof (upload_run (db_schema_of w) table_name (fst p) st1) as Hup.
  cbv zeta in Hup. fold bs in Hup.
  destruct (write_error w (List.length bs)) as [e|].
  - destruct Hup as [mid [Hq Hup]]. exists mid. split; [assumption|].
    rewrite Hup. subst st1 before. unfold opening_events.
    destruct e; tidy_trace; reflexivity.
  - rewrite Hup. subst st1 before. unfold opening_events.
    tidy_trace. reflexivity.
Qed.

Lemma begins_app (a b : list (event float)) :
  begins (a ++ b) = begins a + begins b.
Proof.
  unfold begins. now rewrite filter_app, length_app.
Qed.

Lemma begins_quiet (mid : list (event float)) :
  forallb quiet mid = true -> begins mid = 0.
Proof.
  unfold begins. induction mid as [|ev mid IH]; cbn [forallb filter]; intros H.
  - reflexivity.
  - apply andb_true_iff in H. destruct H as [Hq Hm].
    destruct ev as [[lvl m]| | | | |]; simpl in Hq; try discriminate;
      now apply IH.
Qed.

Lemma begins_logs (entries : list entry) : begins (map (@Log float) entries) = 0.
Proof.
  unfold begins. induction entries as [|e entries IH]; [reflexivity | exact IH].
Qed.

Lemma begins_inserts (bs : list (list row)) : begins (map (@Insert float) bs) = 0.
Proof.
  unfold begins. induction bs as [|b bs IH]; [reflexivity | exact IH].
Qed.

Lemma quiet_In (mid : list (event float)) (ev : event float) :
  forallb quiet mid = true -> In ev mid -> quiet ev = true.
Proof.
  intros H Hin. now apply (proj1 (forallb_forall _ _) H).
Qed.

(** The column matching, the derivation and the coercion log no error. *)
Lemma prepare_no_error (db_schema table_name : string) (s : Dict.t string)
  (df : csv) (m : message) :
  NoDup (Dict.keys s) ->
  ~ In (ERROR, m) (snd (prepare L db_schema table_name s df)).
Proof.
  intros Hs Habs.
  rewrite prepare_snd, derive_columns_log, coerce_types_log in Habs by assumption.
  apply in_app_or in Habs. destruct Habs as [Habs|Habs].
  { unfold discard_log in Habs. destruct (discarded_columns _ _); [contradiction|].
    destruct Habs as [Habs|[]]. discriminate. }
  apply in_app_or in Habs. destruct Habs as [Habs|Habs].
  { apply in_flat_map in Habs. destruct Habs as [c [_ Hc]].
    unfold derive_entry in Hc.
    destruct (PyStr.endswith "_Parsed" c); [|contradiction].
    destruct (Dict.get (source_col_of c) (csv_columns df)); [|contradiction].
    destruct Hc as [Hc|[]]. discriminate. }
  apply in_flat_map in Habs. destruct Habs as [[c d] [_ Hc]].
  unfold coerce_warning in Hc.
  destruct (Dict.get (fst (c, d)) _); [|contradiction].
  destruct (snd (coerce_column L _ _ _)); [|contradiction].
  destruct Hc as [Hc|[]]. discriminate.
Qed.

Lemma reaches_schema_NoDup (filepath table_name : string) (s : Dict.t string)
  (df : csv) :
  reaches_matching w filepath table_name = Some (s, df) ->
  NoDup (Dict.keys s) /\ s <> [].
Proof.
  unfold reaches_matching. destruct (engine_ok w); [|discriminate].
  destruct (query_columns w table_name (db_schema_of w)) as [rows|]; [|discriminate].
  pose proof (of_rows_NoDup rows) as Hnd.
  destruct (Dict.of_rows rows) as [|kv s'] eqn:E; [discriminate|].
  destruct (read_csv w filepath); [|discriminate].
  intros H. inversion H; subst. split; [assumption | discriminate].
Qed.
End RunFacts.

Ltac in_cases H :=
  repeat match type of H with
    | In _ (_ ++ _) => apply in_app_or in H; destruct H as [H|H]
    | In _ (map _ _) =>
        apply in_map_iff in H; destruct H as [? [H _]]; try discriminate H
    | In _ (_ :: _) => destruct H as [H|H]; try discriminate H
    | In _ [] => destruct H
    end.

Section RunClaims.
Variable float : Type.
Variable L : Pandas float.
Variable w : world.

Local Abbreviation state := (state float).
Local Abbreviation frame := (frame float).
Local Abbreviation row := (row float).

(** A run that reaches the upload opens one transaction and returns. *)
Lemma run_begins_once (filepath table_name : string) (table0 : list row)
  (rows : list (string * string)) (df : csv) :
  engine_ok w = true ->
  query_columns w table_name (db_schema_of w) = inl rows ->
  Dict.of_rows rows <> [] ->
  read_csv w filepath = inl df ->
  begins (trace (snd (run L w filepath table_name table0))) = 1
  /\ fst (run L w filepath table_name table0) = Return tt.
Proof.
  intros Hok Hq Hne Hread.
  pose proof (reaches_intro w filepath table_name rows df Hok Hq Hne Hread)
    as Hreach.
  pose proof (run_outcome float L w filepath table_name table0 _ _ Hreach) as Hrun.
  cbv zeta in Hrun.
  destruct (write_error w _) as [e|].
  - destruct Hrun as [mid [Hquiet Hrun]]. rewrite Hrun. cbn [fst snd trace].
    split; [|reflexivity].
    rewrite !begins_app, begins_logs, (begins_quiet float mid Hquiet).
    destruct e; reflexivity.
  - rewrite Hrun. cbn [fst snd trace]. split; [|reflexivity].
    rewrite !begins_app, begins_logs, begins_inserts. reflexivity.
Qed.

(** C6.  The write is atomic.  In a run that reaches the upload, the
    transaction is opened once; when no batch and not the commit is
    refused, all the rows of the coerced table are appended to the
    destination table; when the server refuses a batch or the commit,
    the transaction is rolled back, the destination table is what it
    was before the run, an error is logged and the run returns without
    a second attempt. *)
Theorem upload_all_or_nothing (filepath table_name : string) (table0 : list row)
  (rows : list (string * string)) (df : csv) :
  engine_ok w = true ->
  query_columns w table_name (db_schema_of w) = inl rows ->
  Dict.of_rows rows <> [] ->
  read_csv w filepath = inl df ->
  let out := fst (prepare L (db_schema_of w) table_name (Dict.of_rows rows) df) in
  let r := run L w filepath table_name table0 in
  let tr := trace (snd r) in
  begins tr = 1
  /\ fst r = Return tt
  /\ match write_error w (List.length (batches 5000 (rows_of out))) with
     | None =>
         table (snd r) = (table0 ++ rows_of out)%list
         /\ In Commit tr
         /\ ~ In Rollback tr
     | Some e =>
         table (snd r) = table0
         /\ In Rollback tr
         /\ ~ In Commit tr
         /\ exists m, In (Log (ERROR, m)) tr
     end.
Proof.
  intros Hok Hq Hne Hread out r tr.
  pose proof (reaches_intro w filepath table_name rows df Hok Hq Hne Hread)
    as Hreach.
  pose proof (run_outcome float L w filepath table_name table0 _ _ Hreach) as Hrun.
  cbv zeta in Hrun. fold out in Hrun.
  destruct (write_error w (List.length (batches 5000 (rows_of out)))) as [e|].
  - destruct Hrun as [mid [Hquiet Hrun]]. subst tr r. rewrite Hrun.
    cbn [fst snd trace table].
    split; [|split; [reflexivity|]].
    { rewrite !begins_app, begins_logs, (begins_quiet float mid Hquiet).
      destruct e; reflexivity. }
    split; [reflexivity|]. split; [|split].
    + apply in_or_app. right. apply in_or_app. right. now left.
    + intros H. unfold opening_events in H. in_cases H.
      * apply (quiet_In float mid _ Hquiet) in H. discriminate.
      * destruct e; unfold write_error_entries in H; in_cases H.
    + destruct e; eexists; apply in_or_app; right; apply in_or_app; right;
        right; left; reflexivity.
  - subst tr r. rewrite Hrun. cbn [fst snd trace table].
    split; [|split; [reflexivity|]].
    { rewrite !begins_app, begins_logs, begins_inserts. reflexivity. }
    split; [reflexivity|]. split.
    + apply in_or_app. right. apply in_or_app. right. right. now left.
    + intros H. unfold opening_events in H. in_cases H.
Qed.

(** C7.  No exception other than a connectivity error or a missing-file
    error leaves [upload_data]: an exception that left it would be one
    of these two.  Every other error is caught inside [upload_data] and
    logged, and the run returns; the handlers catch a connectivity error
    and a missing file in the same way, so that every run returns
    normally.  A run that does not commit its upload has logged an
    error. *)
Theorem no_exception_escapes (filepath table_name : string) (table0 : list row) :
  let r := run L w filepath table_name table0 in
  (forall e, fst r = Raise e -> e = SQLAlchemyError \/ e = FileNotFoundError)
  /\ fst r = Return tt
  /\ (In Commit (trace (snd r)) \/ exists m, In (Log (ERROR, m)) (trace (snd r))).
Proof.
  intros r. subst r.
  assert (Hrun : fst (run L w filepath table_name table0) = Return tt
                 /\ (In Commit (trace (snd (run L w filepath table_name table0)))
                     \/ exists m, In (Log (ERROR, m))
                                     (trace (snd (run L w filepath table_name table0)))));
    [|split; [intros e He; rewrite (proj1 Hrun) in He; discriminate | exact Hrun]].
  destruct (reaches_matching w filepath table_name) as [[s df]|] eqn:Hreach.
  - pose proof (run_outcome float L w filepath table_name table0 _ _ Hreach) as Hrun.
    cbv zeta in Hrun.
    destruct (write_error w _) as [e|].
    + destruct Hrun as [mid [_ Hrun]]. rewrite Hrun. cbn [fst snd trace].
      split; [reflexivity|]. right.
      destruct e; eexists; apply in_or_app; right; apply in_or_app; right;
        right; left; reflexivity.
    + rewrite Hrun. cbn [fst snd trace]. split; [reflexivity|]. left.
      apply in_or_app. right. apply in_or_app. right. right. now left.
  - destruct (run_stops float L w filepath table_name table0 Hreach)
      as [tr [Hrun [_ Herr]]].
    rewrite Hrun. cbn [fst snd trace]. split; [reflexivity|]. now right.
Qed.

(** C8.  When the schema query returns no column for the requested
    table, [get_table_schema] logs a warning and returns the empty
    schema, an outcome no other query result gives; [upload_data] logs
    that it halts and returns: the file is not read, no transaction is
    opened and the destination table is untouched. *)
Theorem schema_not_found_halts (filepath table_name : string) (table0 : list row)
  (st : state) :
  engine_ok w = true ->
  query_columns w table_name (db_schema_of w) = inl [] ->
  get_table_schema w table_name (db_schema_of w) st
  = (Return (Some []),
     {| trace := trace st
                 ++ [Log (INFO, MsgFetching (db_schema_of w) table_name);
                     Log (WARNING, MsgTableNotFound (db_schema_of w) table_name)];
        table := table st |})
  /\ run L w filepath table_name table0
     = (Return tt,
        {| trace := [Log (INFO, MsgStart filepath);
                     Log (INFO, MsgConnected);
                     Log (INFO, MsgFetching (db_schema_of w) table_name);
                     Log (WARNING, MsgTableNotFound (db_schema_of w) table_name);
                     Log (ERROR, MsgHalting (db_schema_of w) table_name)];
           table := table0 |})
  /\ (forall path, ~ In (ReadCsv path) (trace (snd (run L w filepath table_name table0))))
  /\ begins (trace (snd (run L w filepath table_name table0))) = 0
  /\ (forall (w' : world) tn sn (st' st'' : state),
        get_table_schema w' tn sn st' = (Return (Some []), st'') ->
        query_columns w' tn sn = inl []).
Proof.
  intros Hok Hq.
  assert (Hrun : run L w filepath table_name table0
     = (Return tt,
        {| trace := [Log (INFO, MsgStart filepath);
                     Log (INFO, MsgConnected);
                     Log (INFO, MsgFetching (db_schema_of w) table_name);
                     Log (WARNING, MsgTableNotFound (db_schema_of w) table_name);
                     Log (ERROR, MsgHalting (db_schema_of w) table_name)];
           table := table0 |})).
  { unfold engine_ok in Hok. apply andb_true_iff in Hok. destruct Hok as [Henv Hconn].
    destruct (connect w) eqn:Ec; [discriminate|].
    unfold run, upload_data, bind, try_except, get_db_engine, get_table_schema,
      bind, try_except, log, emit, ret.
    rewrite Henv, Ec. cbn [negb trace table]. fold (db_schema_of w).
    rewrite Hq. reflexivity. }
  split; [|split; [exact Hrun | split; [|split]]].
  - unfold get_table_schema, bind, try_except, log, emit, ret. rewrite Hq.
    cbn [Dict.of_rows fold_left trace table]. tidy_trace. reflexivity.
  - rewrite Hrun. cbn [snd trace]. intros path H. in_cases H.
  - rewrite Hrun. reflexivity.
  - intros w' tn sn st' st''.
    unfold get_table_schema, bind, try_except, log, emit, ret, raise.
    destruct (query_columns w' tn sn) as [rows|e].
    + destruct (Dict.of_rows rows) as [|kv s'] eqn:E; cbn [trace table].
      * intros _. apply (proj1 (of_rows_nil rows)) in E. now subst.
      * intros H. inversion H.
    + cbn [trace table]. destruct e; intros H; inversion H.
Qed.

(** C4.  In a run that reaches the column matching, a column of the
    file that the schema does not name (the comparison is that of
    strings, case included) is not a column of the table handed to the
    upload, and a [WARNING] entry of the log names it.  The run goes on:
    it opens the transaction and returns, and when the server accepts
    the rows the log has no [ERROR] entry at all. *)
Theorem discarded_columns_dropped (filepath table_name : string) (table0 : list row)
  (rows : list (string * string)) (df : csv) (col : string) :
  engine_ok w = true ->
  query_columns w table_name (db_schema_of w) = inl rows ->
  Dict.of_rows rows <> [] ->
  read_csv w filepath = inl df ->
  In col (Dict.keys (csv_columns df)) ->
  ~ In col (Dict.keys (Dict.of_rows rows)) ->
  let out := fst (prepare L (db_schema_of w) table_name (Dict.of_rows rows) df) in
  let r := run L w filepath table_name table0 in
  let tr := trace (snd r) in
  ~ In col (Dict.keys (columns out))
  /\ (exists discarded,
        In col discarded
        /\ In (Log (WARNING, MsgDiscarding (db_schema_of w) table_name discarded)) tr)
  /\ (forall discarded,
        ~ In (Log (ERROR, MsgDiscarding (db_schema_of w) table_name discarded)) tr)
  /\ begins tr = 1
  /\ fst r = Return tt
  /\ (write_error w (List.length (batches 5000 (rows_of out))) = None ->
      forall m, ~ In (Log (ERROR, m)) tr).
Proof.
  intros Hok Hq Hne Hread Hcsv Hnot out r tr.
  pose proof (reaches_intro w filepath table_name rows df Hok Hq Hne Hread)
    as Hreach.
  destruct (run_begins_once filepath table_name table0 rows df Hok Hq Hne Hread)
    as [Hbegin Hret].
  fold r in Hbegin, Hret. fold tr in Hbegin.
  destruct (discarded_column_absent float L (db_schema_of w) table_name
              (Dict.of_rows rows) df col Hcsv Hnot) as [Habsent [discarded [Hin [_ Hlog]]]].
  pose proof (run_outcome float L w filepath table_name table0 _ _ Hreach) as Hrun.
  cbv zeta in Hrun. fold out in Hrun.
  pose proof (of_rows_NoDup rows) as Hnd.
  assert (Hpre : forall m,
            ~ In (Log (ERROR, m))
                 (opening_events w filepath table_name df
                  ++ map (@Log float) (snd (prepare L (db_schema_of w) table_name
                                              (Dict.of_rows rows) df))
                  ++ [Log (INFO, MsgUploading (nrows out) (db_schema_of w) table_name);
                      Begin])%list).
  { intros m H. unfold opening_events in H.
    apply in_app_or in H. destruct H as [H|H]; [in_cases H|].
    apply in_app_or in H. destruct H as [H|H]; [|in_cases H].
    apply in_map_iff in H. destruct H as [e [He Hin']]. inversion He; subst e.
    now apply (prepare_no_error float L _ _ _ _ _ Hnd) in Hin'. }
  split; [exact Habsent|]. split; [|split; [|split; [exact Hbegin|split; [exact Hret|]]]].
  - exists discarded. split; [assumption|].
    assert (Hsub : forall rest, In (Log (WARNING, MsgDiscarding (db_schema_of w) table_name discarded))
              ((opening_events w filepath table_name df
                ++ map (@Log float) (snd (prepare L (db_schema_of w) table_name
                                            (Dict.of_rows rows) df))
                ++ [Log (INFO, MsgUploading (nrows out) (db_schema_of w) table_name);
                    Begin]) ++ rest)%list).
    { intros rest. apply in_or_app. left. apply in_or_app. right.
      apply in_or_app. left. now apply in_map. }
    subst tr r.
    destruct (write_error w (List.length (batches 5000 (rows_of out)))) as [e|].
    + destruct Hrun as [mid [_ Hrun]]. rewrite Hrun. apply Hsub.
    + rewrite Hrun. apply Hsub.
  - intros d H. subst tr r.
    destruct (write_error w (List.length (batches 5000 (rows_of out)))) as [e|].
    + destruct Hrun as [mid [Hquiet Hrun]]. rewrite Hrun in H. cbn [snd trace] in H.
      apply in_app_or in H. destruct H as [H|H]; [now apply Hpre in H|].
      apply in_app_or in H. destruct H as [H|H].
      * apply (quiet_In float mid _ Hquiet) in H. discriminate.
      * destruct e; unfold write_error_entries in H; in_cases H.
    + rewrite Hrun in H. cbn [snd trace] in H.
      apply in_app_or in H. destruct H as [H|H]; [now apply Hpre in H|].
      in_cases H.
  - intros Hnone m H. subst tr r. rewrite Hnone in Hrun. rewrite Hrun in H.
    cbn [snd trace] in H.
    apply in_app_or in H. destruct H as [H|H]; [now apply Hpre in H|].
    in_cases H.
Qed.
End RunClaims.

(** * The pipeline on concrete files *)

Ltac distinct_names :=
  repeat (constructor; [cbn [In]; intuition discriminate |]); constructor.

Lemma sample_schema_distinct : NoDup (Dict.keys Sample.schema_rows).
Proof. cbn. distinct_names. Defined.

Lemma sample_texts_distinct : NoDup (Dict.keys (columns Sample.texts)).
Proof. cbn. distinct_names. Defined.

Lemma sample_server_ok : engine_ok Sample.server = true.
Proof. reflexivity. Defined.

(** In the sample instance a blank is no date, in whatever column it
    stands. *)
Lemma sample_blank_is_no_date (column : list string) :
  parse_datetime Sample.pandas column "" = None.
Proof.
  cbn [parse_datetime Sample.pandas]. unfold Sample.datetime_in.
  destruct (Sample.column_format column) as [n|]; [|reflexivity].
  destruct n; reflexivity.
Defined.

(** The sample table after the coercion stage is a fixed point of the
    stage. *)
Lemma coerce_types_idempotent_witness :
  fst (coerce_types Sample.pandas Sample.schema_rows
         (fst (coerce_types Sample.pandas Sample.schema_rows Sample.texts)))
  = {| nrows := 3;
       data :=
         [("ID", {| dtype_of := Int64; values := [Int 7; Int 0; Int 0] |});
          ("Amount", {| dtype_of := object;
                        values := [Float 1234.5%float; NA; Float 12%float] |});
          ("EventDateTZ",
           {| dtype_of := object;
              values := [Str "2024-01-01 UTC"; Str ""; Str "soon"] |})] |}.
Proof.
  rewrite (proj1 (coerce_types_idempotent float Sample.pandas Sample.schema_rows
                    Sample.texts sample_schema_distinct sample_texts_distinct)).
  reflexivity.
Defined.

(** The integer column of the sample table: a number, a blank and a
    text that is no number. *)
Lemma int_column_coercion_witness :
  Dict.get "ID" (data (fst (coerce_types Sample.pandas Sample.schema_rows
                              Sample.texts)))
  = Some {| dtype_of := Int64; values := [Int 7; Int 0; Int 0] |}
  /\ ~ In (WARNING, MsgCoerceFailed "ID" "int")
          (snd (coerce_types Sample.pandas Sample.schema_rows Sample.texts)).
Proof.
  pose proof (int_column_coercion float Sample.pandas Sample.schema_rows
                Sample.texts "ID" "int"
                {| dtype_of := object; values := [Str "7"; Str ""; Str "x"] |}
                0%float
                sample_schema_distinct eq_refl eq_refl eq_refl eq_refl eq_refl
                eq_refl) as H.
  cbv zeta in H.
  change (astype_Int64 Sample.pandas _)
    with (Some [@Int float 7; Int 0; Int 0]) in H.
  destruct H as [Hget [_ [_ [_ Hlog]]]]. split; assumption.
Defined.

(** C2 as it is stated fails.  A fraction in an integer column makes the
    cast raise, and the column keeps texts; so does a value beyond
    [int64], which [pd.to_numeric] reads into a [uint64] column. *)
Lemma int_column_counterexample :
  ~ (forall (s : Dict.t string) (df : frame float) (col dt : string)
            (c : series float),
       NoDup (Dict.keys s) ->
       Dict.get col s = Some dt ->
       is_int_type dt = true ->
       Dict.get col (data df) = Some c ->
       exists out,
         Dict.get col (columns (fst (coerce_types Sample.pandas s df))) = Some out
         /\ Forall (fun x => is_int x = true) out)
  /\ coerce_types Sample.pandas [("ID", "int")] Sample.fractions
     = ({| nrows := 2;
           data := [("ID", {| dtype_of := object;
                              values := [Str "3.5"; Str "0"] |})] |},
        [(WARNING, MsgCoerceFailed "ID" "int")])
  /\ coerce_types Sample.pandas [("ID", "int")] Sample.beyond_int64
     = ({| nrows := 2;
           data := [("ID", {| dtype_of := object;
                              values := [Str "9223372036854775808"; Str "1"] |})] |},
        [(WARNING, MsgCoerceFailed "ID" "int")]).
Proof.
  split; [|split; vm_compute; reflexivity].
  intros Hclaim.
  destruct (Hclaim [("ID", "int")] Sample.fractions "ID" "int"
              {| dtype_of := object; values := [Str "3.5"; Str ""] |})
    as [out [Hout Hints]]; try reflexivity.
  - cbn. distinct_names.
  - vm_compute in Hout. inversion Hout; subst out.
    inversion Hints as [|x l Hx _]. discriminate Hx.
Qed.

(** The decimal column of the sample table: the integer literal ["12"]
    stands next to texts that are none, and is stored as a float. *)
Lemma float_column_coercion_witness :
  Dict.get "Amount" (data (fst (coerce_types Sample.pandas Sample.schema_rows
                                  Sample.texts)))
  = Some {| dtype_of := object;
            values := [Float 1234.5%float; NA; Float 12%float] |}.
Proof.
  pose proof (float_column_coercion Sample.pandas Sample.schema_rows Sample.texts
                "Amount" "money" ["$1,234.50"; "n/a"; "12"]
                sample_schema_distinct eq_refl eq_refl eq_refl eq_refl eq_refl
                eq_refl) as H.
  cbv zeta in H. exact (proj1 H).
Defined.

(** The derived column of the sample file: a date, a blank and a text
    that is no date. *)
Lemma parsed_column_value_witness :
  Dict.get "EventDateTZ_Parsed"
    (data (fst (prepare Sample.pandas "tcn" "recordDump" Sample.schema_rows
                  Sample.file)))
  = Some {| dtype_of := datetime64;
            values := [Time 1704067200000000000; Time (-2208988800000000000);
                       Time (-2208988800000000000)] |}.
Proof.
  pose proof (parsed_column_value float Sample.pandas "tcn" "recordDump"
                Sample.schema_rows Sample.file "EventDateTZ" "datetime"
                ["2024-01-01 UTC"; ""; "soon"]
                sample_schema_distinct eq_refl eq_refl eq_refl eq_refl eq_refl
                sample_blank_is_no_date) as H.
  cbv zeta in H. exact (proj1 H).
Defined.

(** C1 as it is stated fails, in three ways.  The file has the column
    [A_Parsed], the schema the column [A_Parsed_Parsed], and the table
    handed to the upload has no such column, because the base the code
    looks for is [A].  Where the base is found, a derived column whose
    declared type is integer-like or decimal-like holds numbers, not
    dates.  And where the type is none of these, a text that is a date
    on its own gets the default date when it is not in the format of the
    first text of its column. *)
Lemma parsed_column_counterexample :
  ~ parsed_row_by_row (fun _ _ => True)
  /\ ~ parsed_row_by_row
         (fun X dt => source_col_of (X ++ "_Parsed")%string = X
                      /\ is_float_type dt = false)
  /\ ~ parsed_row_by_row
         (fun X dt => source_col_of (X ++ "_Parsed")%string = X
                      /\ is_int_type dt = false)
  /\ ~ parsed_row_by_row
         (fun X dt => source_col_of (X ++ "_Parsed")%string = X
                      /\ is_int_type dt = false /\ is_float_type dt = false).
Proof.
  split; [|split; [|split]]; intros Hclaim.
  - specialize (Hclaim [("A_Parsed_Parsed", "datetime")] Sample.parsed_twice
                  "A_Parsed" "datetime" ["2024-01-01 UTC"]).
    assert (Hnd : NoDup (Dict.keys [("A_Parsed_Parsed", "datetime")]))
      by (cbn; distinct_names).
    specialize (Hclaim Hnd eq_refl eq_refl I).
    vm_compute in Hclaim. discriminate Hclaim.
  - specialize (Hclaim [("X", "varchar"); ("X_Parsed", "bigint")] Sample.dates_only
                  "X" "bigint" ["2024-01-01 UTC"]).
    assert (Hnd : NoDup (Dict.keys [("X", "varchar"); ("X_Parsed", "bigint")]))
      by (cbn; distinct_names).
    specialize (Hclaim Hnd eq_refl eq_refl (conj eq_refl eq_refl)).
    vm_compute in Hclaim. discriminate Hclaim.
  - specialize (Hclaim [("X", "varchar"); ("X_Parsed", "money")] Sample.dates_only
                  "X" "money" ["2024-01-01 UTC"]).
    assert (Hnd : NoDup (Dict.keys [("X", "varchar"); ("X_Parsed", "money")]))
      by (cbn; distinct_names).
    specialize (Hclaim Hnd eq_refl eq_refl (conj eq_refl eq_refl)).
    vm_compute in Hclaim. discriminate Hclaim.
  - specialize (Hclaim [("X", "varchar"); ("X_Parsed", "datetime")]
                  Sample.two_formats
                  "X" "datetime" ["2001-02-03 10:00:00 UTC"; "2001-02-03 UTC"]).
    assert (Hnd : NoDup (Dict.keys [("X", "varchar"); ("X_Parsed", "datetime")]))
      by (cbn; distinct_names).
    specialize (Hclaim Hnd eq_refl eq_refl (conj eq_refl (conj eq_refl eq_refl))).
    vm_compute in Hclaim. discriminate Hclaim.
Qed.

(** The derived column of the sample file is derived, and logged. *)
Lemma derivation_condition_witness :
  In (INFO, MsgDeriving "EventDateTZ_Parsed" "EventDateTZ")
     (snd (prepare Sample.pandas "tcn" "recordDump" Sample.schema_rows Sample.file))
  /\ In "EventDateTZ_Parsed"
        (Dict.keys (columns (fst (prepare Sample.pandas "tcn" "recordDump"
                                    Sample.schema_rows Sample.file)))).
Proof.
  pose proof (derivation_condition float Sample.pandas "tcn" "recordDump"
                Sample.schema_rows Sample.file "EventDateTZ_Parsed"
                sample_schema_distinct) as H.
  cbv zeta in H.
  assert (Hin : In "EventDateTZ_Parsed" (Dict.keys Sample.schema_rows))
    by (cbn; tauto).
  specialize (H Hin eq_refl).
  change (Dict.get (source_col_of "EventDateTZ_Parsed") (csv_columns Sample.file))
    with (Some ["2024-01-01 UTC"; ""; "soon"]) in H.
  destruct H as [Hlog [_ Hkey]]. split; assumption.
Defined.

(** C5 as it is stated fails: the base column [X] is in the file and not
    in the schema, so it is not among the reconciled columns, and
    [X_Parsed] is derived from it all the same. *)
Lemma derivation_counterexample :
  ~ (forall (s : Dict.t string) (df : csv) (db_col : string),
       NoDup (Dict.keys s) ->
       In db_col (Dict.keys s) ->
       PyStr.endswith "_Parsed" db_col = true ->
       ~ In (source_col_of db_col)
            (final_columns (Dict.keys (csv_columns df)) (Dict.keys s)) ->
       ~ In db_col
            (Dict.keys (columns (fst (prepare Sample.pandas "tcn" "recordDump" s df))))).
Proof.
  intros Hclaim.
  apply (Hclaim [("X_Parsed", "datetime")] Sample.dates_only "X_Parsed").
  - cbn. distinct_names.
  - cbn. tauto.
  - reflexivity.
  - cbn. tauto.
  - vm_compute. tauto.
Qed.

(** The base of [X_Parsed_Y_Parsed] is [X_Y]. *)
Lemma derived_base_witness :
  source_col_of "X_Parsed_Y_Parsed" = "X_Y"
  /\ forall (df : csv) (acc : frame float * list entry) (raw : list string),
       Dict.get "X_Y" (csv_columns df) = Some raw ->
       derive_step Sample.pandas df acc "X_Parsed_Y_Parsed"
       = (set_column "X_Parsed_Y_Parsed"
            {| dtype_of := datetime64; values := derive_column Sample.pandas raw |}
            (fst acc),
          (snd acc ++ [(INFO, MsgDeriving "X_Parsed_Y_Parsed" "X_Y")])%list).
Proof.
  split; [reflexivity|]. intros df acc raw Hraw.
  pose proof (derived_base_removes_every_occurrence float Sample.pandas df acc
                "X" "_Y_Parsed" eq_refl eq_refl) as H.
  cbv zeta in H. destruct H as [_ [Hstep _]].
  change ("X" ++ "_Parsed" ++ "_Y_Parsed")%string with "X_Parsed_Y_Parsed" in Hstep.
  change ("X" ++ source_col_of "_Y_Parsed")%string with "X_Y" in Hstep.
  rewrite Hraw in Hstep. exact Hstep.
Defined.

(** The sample run: the column [Junk] is dropped with a warning and the
    three rows are committed. *)
Lemma discarded_columns_dropped_witness :
  let r := run Sample.pandas Sample.server "f.csv" "recordDump" [] in
  ~ In "Junk" (Dict.keys (columns (fst (prepare Sample.pandas "tcn" "recordDump"
                                          Sample.schema_rows Sample.file))))
  /\ In (Log (WARNING, MsgDiscarding "tcn" "recordDump" ["Junk"])) (trace (snd r))
  /\ (forall m, ~ In (Log (ERROR, m)) (trace (snd r))).
Proof.
  pose proof (discarded_columns_dropped float Sample.pandas Sample.server
                "f.csv" "recordDump" [] Sample.schema_rows Sample.file "Junk"
                sample_server_ok eq_refl) as H.
  assert (Hne : Dict.of_rows Sample.schema_rows <> []) by discriminate.
  assert (Hin : In "Junk" (Dict.keys (csv_columns Sample.file))) by (cbn; tauto).
  assert (Hout : ~ In "Junk" (Dict.keys (Dict.of_rows Sample.schema_rows)))
    by (cbn; intuition discriminate).
  specialize (H Hne eq_refl Hin Hout). cbv zeta in H.
  destruct H as [Habsent [_ [_ [_ [_ Hquiet]]]]].
  cbv zeta. split; [exact Habsent|]. split.
  - vm_compute. tauto.
  - apply Hquiet. reflexivity.
Defined.

(** The sample run on a server that accepts the rows, and on one that
    refuses them. *)
Lemma upload_all_or_nothing_witness :
  table (snd (run Sample.pandas Sample.server "f.csv" "recordDump" []))
  = rows_of (fst (prepare Sample.pandas "tcn" "recordDump" Sample.schema_rows
                    Sample.file))
  /\ table (snd (run Sample.pandas Sample.refusing_server "f.csv" "recordDump" []))
     = []
  /\ In Rollback
        (trace (snd (run Sample.pandas Sample.refusing_server "f.csv" "recordDump" []))).
Proof.
  assert (Hne : Dict.of_rows Sample.schema_rows <> []) by discriminate.
  pose proof (upload_all_or_nothing float Sample.pandas Sample.server
                "f.csv" "recordDump" [] Sample.schema_rows Sample.file
                sample_server_ok eq_refl Hne eq_refl) as Hok.
  pose proof (upload_all_or_nothing float Sample.pandas Sample.refusing_server
                "f.csv" "recordDump" [] Sample.schema_rows Sample.file
                eq_refl eq_refl Hne eq_refl) as Hrefused.
  cbv zeta in Hok, Hrefused.
  destruct Hok as [_ [_ Hok]]. destruct Hrefused as [_ [_ Hrefused]].
  change (write_error Sample.server _) with (@None exn) in Hok.
  change (write_error Sample.refusing_server _) with (Some SQLAlchemyError)
    in Hrefused.
  destruct Hok as [Htable _]. destruct Hrefused as [Hsame [Hroll _]].
  split; [exact Htable|]. split; [exact Hsame | exact Hroll].
Defined.

(** The handlers of [upload_data] catch a connectivity error and a
    missing file as well: both runs return normally, with the error in
    the log. *)
Lemma listed_errors_are_caught :
  (let r := run Sample.pandas Sample.unreachable_server "f.csv" "recordDump" [] in
   fst r = Return tt
   /\ In (Log (ERROR, MsgUnexpected SQLAlchemyError)) (trace (snd r)))
  /\ (let r := run Sample.pandas Sample.server_without_file "f.csv" "recordDump" [] in
      fst r = Return tt
      /\ In (Log (ERROR, MsgFileNotFound "f.csv")) (trace (snd r))).
Proof.
  split; cbv zeta; (split; [vm_compute; reflexivity|]).
  - vm_compute. do 7 right. now left.
  - vm_compute. do 5 right. now left.
Qed.

(** The sample run against a schema that has no such table. *)
Lemma schema_not_found_halts_witness :
  run Sample.pandas Sample.server_without_table "f.csv" "recordDump" []
  = (Return tt,
     {| trace := [Log (INFO, MsgStart "f.csv");
                  Log (INFO, MsgConnected);
                  Log (INFO, MsgFetching "tcn" "recordDump");
                  Log (WARNING, MsgTableNotFound "tcn" "recordDump");
                  Log (ERROR, MsgHalting "tcn" "recordDump")];
        table := [] |}).
Proof.
  exact (proj1 (proj2 (schema_not_found_halts float Sample.pandas
                         Sample.server_without_table "f.csv" "recordDump" []
                         {| trace := []; table := [] |} eq_refl eq_refl))).
Defined.

(** * Further properties of the program *)

(** ** Blank normalization of texts (lines 128-135) *)

Lemma rstrip_idem (s : string) : PyStr.rstrip (PyStr.rstrip s) = PyStr.rstrip s.
Proof.
  induction s as [|c s IH]; [reflexivity|].
  cbn [PyStr.rstrip].
  destruct (PyStr.isspace c && String.eqb (PyStr.rstrip s) "") eqn:E.
  - reflexivity.
  - cbn [PyStr.rstrip]. rewrite IH, E. reflexivity.
Qed.

Lemma lstrip_head (s : string) :
  match PyStr.lstrip s with
  | EmptyString => True
  | String c _ => PyStr.isspace c = false
  end.
Proof.
  induction s as [|c s IH]; [exact I|].
  cbn [PyStr.lstrip]. destruct (PyStr.isspace c) eqn:E; [exact IH | exact E].
Qed.

Lemma lstrip_strip (s : string) : PyStr.lstrip (PyStr.strip s) = PyStr.strip s.
Proof.
  unfold PyStr.strip. pose proof (lstrip_head s) as H.
  destruct (PyStr.lstrip s) as [|c u]; [reflexivity|].
  cbn [PyStr.rstrip]. rewrite H. cbn [andb PyStr.lstrip]. now rewrite H.
Qed.

Lemma strip_idem (s : string) : PyStr.strip (PyStr.strip s) = PyStr.strip s.
Proof.
  unfold PyStr.strip at 1. rewrite lstrip_strip.
  unfold PyStr.strip. apply rstrip_idem.
Qed.

Lemma blank_token_empty (s r : string) :
  Dict.get s blank_tokens = Some r -> r = "".
Proof.
  unfold blank_tokens. cbn [Dict.get].
  repeat match goal with
         | |- (if ?b then _ else _) = _ -> _ => destruct b
         end; congruence.
Qed.

(** X4.  Blank normalization is a projection: a normalized text has no
    white space at either end, is none of the tokens [NULL], [null],
    [NaN], [nan], and is left as it is by a second normalization. *)
Theorem normalize_text_normal (s : string) :
  PyStr.strip (normalize_text s) = normalize_text s
  /\ Dict.get (normalize_text s) blank_tokens = None
  /\ normalize_text (normalize_text s) = normalize_text s.
Proof.
  assert (Hcases : normalize_text s = ""
                   \/ (normalize_text s = PyStr.strip s
                       /\ Dict.get (PyStr.strip s) blank_tokens = None)).
  { unfold normalize_text.
    destruct (Dict.get (PyStr.strip s) blank_tokens) as [r|] eqn:E.
    - left. now apply blank_token_empty in E.
    - right. now split. }
  destruct Hcases as [H|[H Hnone]]; rewrite H.
  - repeat split; reflexivity.
  - split; [apply strip_idem|]. split; [exact Hnone|].
    unfold normalize_text at 1. now rewrite strip_idem, Hnone.
Qed.

(** ** The last four characters (lines 144-146) *)

Lemma substring_nothing (s : string) : substring 0 0 s = "".
Proof. now destruct s. Qed.

Section ShortTexts.
Variable float : Type.
Variable L : Pandas float.

(** X8.  A raw text of at most four characters has nothing left once
    its last four characters are cut: its row of the derived column is
    the default date, provided the empty text is no date for the
    parser. *)
Theorem short_text_default_date (raw : list string) (i : nat) (text : string) :
  (forall column, parse_datetime L column "" = None) ->
  nth_error raw i = Some text ->
  String.length text <= 4 ->
  PyStr.drop_last 4 text = ""
  /\ nth_error (derive_column L raw) i
     = Some (Time Date.default_date : cell float).
Proof.
  intros Hblank Hrow Hlen.
  assert (Hdrop : PyStr.drop_last 4 text = "").
  { unfold PyStr.drop_last.
    replace (String.length text - 4) with 0 by lia. apply substring_nothing. }
  split; [exact Hdrop|].
  unfold derive_column. rewrite to_datetime_texts, !map_map, nth_error_map, Hrow.
  cbn [option_map]. unfold datetime_cell. now rewrite Hdrop, Hblank.
Qed.
End ShortTexts.

(** ** The schema dictionary (lines 67, 76-77) *)

Lemma get_app {V : Type} (k : string) (d1 d2 : Dict.t V) :
  Dict.get k (d1 ++ d2)%list
  = match Dict.get k d1 with
    | Some v => Some v
    | None => Dict.get k d2
    end.
Proof.
  induction d1 as [|[k' v'] d1 IH]; cbn [app Dict.get]; [reflexivity|].
  destruct (String.eqb k k'); [reflexivity | exact IH].
Qed.

Lemma of_rows_fold_get {V : Type} (rows : list (string * V)) (d : Dict.t V)
  (k : string) :
  Dict.get k (fold_left (fun d kv => Dict.set (fst kv) (snd kv) d) rows d)
  = match Dict.get k (rev rows) with
    | Some v => Some v
    | None => Dict.get k d
    end.
Proof.
  revert d. induction rows as [|[k' v'] rows IH]; intros d; cbn [fold_left rev].
  - reflexivity.
  - rewrite IH, get_app. cbn [fst snd Dict.get].
    destruct (Dict.get k (rev rows)); [reflexivity|].
    rewrite get_set. destruct (String.eqb k k'); reflexivity.
Qed.

Lemma of_rows_keys_In {V : Type} (rows : list (string * V)) (k : string) :
  In k (Dict.keys (Dict.of_rows rows)) <-> In k (map fst rows).
Proof.
  unfold Dict.of_rows.
  assert (H : forall d : Dict.t V,
            In k (Dict.keys (fold_left (fun d kv => Dict.set (fst kv) (snd kv) d) rows d))
            <-> In k (Dict.keys d) \/ In k (map fst rows)).
  { induction rows as [|kv rows IH]; intros d; cbn [fold_left map].
    - simpl. tauto.
    - rewrite IH, keys_set. simpl. intuition. }
  rewrite H. simpl. tauto.
Qed.

(** X10.  The schema built from the rows of the query names each column
    once, names exactly the columns of the rows, and gives a column that
    the rows repeat the type of its last row. *)
Theorem schema_of_rows (rows : list (string * string)) (k : string) :
  NoDup (Dict.keys (Dict.of_rows rows))
  /\ (In k (Dict.keys (Dict.of_rows rows)) <-> In k (map fst rows))
  /\ Dict.get k (Dict.of_rows rows) = Dict.get k (rev rows).
Proof.
  split; [apply of_rows_NoDup|]. split; [apply of_rows_keys_In|].
  unfold Dict.of_rows. rewrite of_rows_fold_get.
  destruct (Dict.get k (rev rows)); reflexivity.
Qed.

(** ** Column matching (lines 110-117) *)

Lemma filter_split_length {A : Type} (f : A -> bool) (l : list A) :
  List.length (filter f l) + List.length (filter (fun x => negb (f x)) l)
  = List.length l.
Proof.
  induction l as [|a l IH]; [reflexivity|].
  cbn [filter]. destruct (f a); cbn [negb List.length]; lia.
Qed.

(** X1.  The column matching splits the columns of the file in two:
    a column is kept exactly when the schema names it and is discarded
    exactly when it does not, no column is both, none is lost, and both
    lists keep the order of the file. *)
Theorem column_matching_partition (csv_cols db_columns : list string) (col : string) :
  (In col (final_columns csv_cols db_columns)
   <-> In col csv_cols /\ In col db_columns)
  /\ (In col (discarded_columns csv_cols db_columns)
      <-> In col csv_cols /\ ~ In col db_columns)
  /\ ~ (In col (final_columns csv_cols db_columns)
        /\ In col (discarded_columns csv_cols db_columns))
  /\ List.length (final_columns csv_cols db_columns)
     + List.length (discarded_columns csv_cols db_columns)
     = List.length csv_cols
  /\ (forall more,
        final_columns (csv_cols ++ more) db_columns
        = (final_columns csv_cols db_columns ++ final_columns more db_columns)%list
        /\ discarded_columns (csv_cols ++ more) db_columns
           = (discarded_columns csv_cols db_columns
              ++ discarded_columns more db_columns)%list).
Proof.
  unfold final_columns, discarded_columns.
  assert (Hf : In col (filter (fun c => PyStr.mem c db_columns) csv_cols)
               <-> In col csv_cols /\ In col db_columns)
    by (rewrite filter_In, mem_In; tauto).
  assert (Hd : In col (filter (fun c => negb (PyStr.mem c db_columns)) csv_cols)
               <-> In col csv_cols /\ ~ In col db_columns)
    by (rewrite filter_In, negb_true_iff, mem_false_iff; tauto).
  split; [exact Hf|]. split; [exact Hd|]. split; [tauto|].
  split; [apply filter_split_length|].
  intros more. now rewrite !filter_app.
Qed.

(** ** Batches (line 176) *)

Lemma batches_from_bounds {A : Type} (size fuel : nat) (l : list A) :
  0 < size ->
  Forall (fun b => 1 <= List.length b <= size) (batches_from size fuel l).
Proof.
  intros Hsize. revert l. induction fuel as [|fuel IH]; intros l;
    cbn [batches_from]; [constructor|].
  destruct l as [|a l]; [constructor|].
  constructor; [|apply IH].
  rewrite length_firstn. cbn [List.length]. lia.
Qed.

(** X16.  The rows of a table go to the server in batches of at least
    one and at most 5000 rows, in the order of the table, each row once. *)
Theorem to_sql_batches {A : Type} (rows : list A) :
  concat (batches 5000 rows) = rows
  /\ Forall (fun b => 1 <= List.length b <= 5000) (batches 5000 rows)
  /\ batches 5000 (@nil A) = [].
Proof.
  split; [apply batches_concat; lia|].
  split; [apply batches_from_bounds; lia|].
  reflexivity.
Qed.

(** ** A column of the file through the stages (lines 117-169) *)

Section FileColumns.
Variable float : Type.
Variable L : Pandas float.

Local Abbreviation cell := (cell float).
Local Abbreviation frame := (frame float).

Lemma select_get (names : list string) (df : csv) (k : string) :
  Dict.get k (csv_columns (select names df))
  = if PyStr.mem k names then Dict.get k (csv_columns df) else None.
Proof.
  unfold select, PyStr.mem. cbn [csv_columns].
  induction names as [|n names IH]; cbn [flat_map existsb]; [reflexivity|].
  rewrite get_app, IH.
  destruct (String.eqb k n) eqn:E; cbn [orb].
  - apply String.eqb_eq in E. subst n.
    destruct (Dict.get k (csv_columns df)) as [v|] eqn:Ev; cbn [Dict.get].
    + now rewrite String.eqb_refl.
    + now destruct (existsb (String.eqb k) names).
  - destruct (Dict.get n (csv_columns df)) as [v|]; cbn [Dict.get];
      [now rewrite E | reflexivity].
Qed.

Lemma normalize_step_get (df : csv) (c dt k : string) :
  Dict.get k (csv_columns (normalize_step df (c, dt)))
  = if String.eqb k c && is_text_type dt
    then option_map (map normalize_text) (Dict.get k (csv_columns df))
    else Dict.get k (csv_columns df).
Proof.
  unfold normalize_step.
  destruct (String.eqb k c) eqn:E; cbn [andb].
  - apply String.eqb_eq in E. subst c.
    destruct (Dict.get k (csv_columns df)) as [v|] eqn:Ev.
    + destruct (is_text_type dt); [|exact Ev].
      cbn [csv_columns option_map]. apply get_set_same.
    + rewrite Ev. now destruct (is_text_type dt).
  - destruct (Dict.get c (csv_columns df)) as [v|]; [|reflexivity].
    destruct (is_text_type dt); [|reflexivity].
    cbn [csv_columns]. apply String.eqb_neq in E. now apply get_set_other.
Qed.

Lemma normalize_blanks_get (s : Dict.t string) (df : csv) (k : string) :
  NoDup (Dict.keys s) ->
  Dict.get k (csv_columns (normalize_blanks s df))
  = match Dict.get k s with
    | Some dt =>
        if is_text_type dt
        then option_map (map normalize_text) (Dict.get k (csv_columns df))
        else Dict.get k (csv_columns df)
    | None => Dict.get k (csv_columns df)
    end.
Proof.
  unfold normalize_blanks. revert df.
  induction s as [|[c dt] s IH]; intros df Hnd; cbn [fold_left Dict.get].
  - reflexivity.
  - inversion Hnd as [|? ? Hnotin Hnd']; subst.
    rewrite IH by assumption. rewrite !normalize_step_get.
    destruct (String.eqb k c) eqn:E; cbn [andb].
    + apply String.eqb_eq in E. subst c.
      apply get_None in Hnotin. now rewrite Hnotin.
    + reflexivity.
Qed.

(** The texts of a column as the coercion stage receives them. *)
Lemma reconciled_get (s : Dict.t string) (df : csv) (k dt : string)
  (raw : list string) :
  NoDup (Dict.keys s) ->
  Dict.get k s = Some dt ->
  Dict.get k (csv_columns df) = Some raw ->
  Dict.get k (data (@reconciled float s df))
  = Some {| dtype_of := object;
            values := map Str (if is_text_type dt
                               then map normalize_text raw else raw) |}.
Proof.
  intros Hnd Hdt Hraw. unfold reconciled, frame_of_csv. cbn [data].
  rewrite (get_map_values
             (fun _ v => {| dtype_of := object; values := map (@Str float) v |})).
  rewrite normalize_blanks_get by assumption. rewrite Hdt, select_get.
  assert (Hmem : PyStr.mem k (final_columns (Dict.keys (csv_columns df)) (Dict.keys s))
                 = true).
  { apply mem_In. unfold final_columns. apply filter_In.
    split; [eauto using get_Some_In | apply mem_In; eauto using get_Some_In]. }
  rewrite Hmem, Hraw. now destruct (is_text_type dt).
Qed.

(** A column of the file that the schema names and that is no derived
    column: its texts, normalized when the type is a text type, go
    through the branch of its declared type. *)
Lemma prepare_file_column (db_schema table_name : string) (s : Dict.t string)
  (df : csv) (k dt : string) (raw : list string) :
  NoDup (Dict.keys s) ->
  Dict.get k s = Some dt ->
  Dict.get k (csv_columns df) = Some raw ->
  derived_from df (Dict.keys s) k = None ->
  Dict.get k (data (fst (prepare L db_schema table_name s df)))
  = Some (fst (coerce_column L k dt
                 {| dtype_of := object;
                    values := map Str (if is_text_type dt
                                       then map normalize_text raw else raw) |})).
Proof.
  intros Hnd Hdt Hraw Hder.
  rewrite prepare_fst, coerce_types_get by assumption. rewrite Hdt.
  rewrite derive_columns_get, Hder.
  now rewrite (reconciled_get s df k dt raw Hnd Hdt Hraw).
Qed.

Lemma not_derived_without_suffix (df : csv) (cols : list string) (k : string) :
  PyStr.endswith "_Parsed" k = false -> derived_from df cols k = None.
Proof.
  intros H. unfold derived_from. rewrite H. now rewrite andb_false_r.
Qed.

(** X3.  A column whose declared type is a text type (and passes none of
    the integer, decimal and date tests) and whose name does not end in
    [_Parsed] is uploaded as texts: each value is the text of the file
    without the white space around it, and empty when that is [NULL],
    [null], [NaN] or [nan]. *)
Theorem text_column_normalized (db_schema table_name : string) (s : Dict.t string)
  (df : csv) (col dt : string) (raw : list string) :
  NoDup (Dict.keys s) ->
  Dict.get col s = Some dt ->
  Dict.get col (csv_columns df) = Some raw ->
  is_text_type dt = true ->
  is_int_type dt = false ->
  is_float_type dt = false ->
  is_date_type dt = false ->
  PyStr.endswith "_Parsed" col = false ->
  Dict.get col (columns (fst (prepare L db_schema table_name s df)))
  = Some (map (fun text => Str (normalize_text text)) raw).
Proof.
  intros Hnd Hdt Hraw Htext Hint Hfloat Hdate Hend.
  rewrite columns_get.
  rewrite (prepare_file_column db_schema table_name s df col dt raw);
    try assumption; [|now apply not_derived_without_suffix].
  rewrite Htext. unfold coerce_column. rewrite Hint, Hfloat, Hdate.
  cbn [dtype_is_object dtype_of fst option_map values].
  now rewrite texts_fillna, map_map.
Qed.

(** X5.  A column whose declared type is a date or time type (no
    integer, decimal or text type) and whose name does not end in
    [_Parsed] is parsed as one column from the raw texts of the file and
    stays an [object] column: each value is what [pd.to_datetime] reads
    from the text in that column.  A text that gets no date, the blank
    included, becomes the missing marker and not the default date of the
    derived columns. *)
Theorem date_column_parsed (db_schema table_name : string) (s : Dict.t string)
  (df : csv) (col dt : string) (raw : list string) :
  NoDup (Dict.keys s) ->
  Dict.get col s = Some dt ->
  Dict.get col (csv_columns df) = Some raw ->
  is_date_type dt = true ->
  is_int_type dt = false ->
  is_float_type dt = false ->
  is_text_type dt = false ->
  PyStr.endswith "_Parsed" col = false ->
  (forall column, parse_datetime L column "" = None) ->
  Dict.get col (data (fst (prepare L db_schema table_name s df)))
  = Some {| dtype_of := object;
            values := map (fun text => match parse_datetime L raw text with
                                       | Some ns => Time ns
                                       | None => NA
                                       end) raw |}
  /\ datetime_cell L raw "" = NA
  /\ (NA : cell) <> Time Date.default_date.
Proof.
  intros Hnd Hdt Hraw Hdate Hint Hfloat Htext Hend Hblank.
  split; [|split; [unfold datetime_cell; now rewrite Hblank | discriminate]].
  rewrite (prepare_file_column db_schema table_name s df col dt raw);
    try assumption; [|now apply not_derived_without_suffix].
  rewrite Htext. unfold coerce_column. rewrite Hint, Hfloat, Hdate, Hend.
  cbn [negb fst dtype_is_object dtype_of values].
  now rewrite to_datetime_texts.
Qed.

(** X6.  A column of the file whose own name ends in [_Parsed], with a
    date type in the schema and no base column in the file, is not
    parsed at all: the date branch skips every [_Parsed] column, and
    the upload receives the raw texts. *)
Theorem parsed_named_file_column_raw (db_schema table_name : string)
  (s : Dict.t string) (df : csv) (col dt : string) (raw : list string) :
  NoDup (Dict.keys s) ->
  Dict.get col s = Some dt ->
  Dict.get col (csv_columns df) = Some raw ->
  PyStr.endswith "_Parsed" col = true ->
  Dict.get (source_col_of col) (csv_columns df) = None ->
  is_date_type dt = true ->
  is_int_type dt = false ->
  is_float_type dt = false ->
  is_text_type dt = false ->
  Dict.get col (columns (fst (prepare L db_schema table_name s df)))
  = Some (map Str raw).
Proof.
  intros Hnd Hdt Hraw Hend Hbase Hdate Hint Hfloat Htext.
  rewrite columns_get.
  rewrite (prepare_file_column db_schema table_name s df col dt raw);
    try assumption.
  - rewrite Htext. unfold coerce_column. rewrite Hint, Hfloat, Hdate, Hend.
    reflexivity.
  - unfold derived_from. rewrite Hend, Hbase.
    now destruct (PyStr.mem col (Dict.keys s)).
Qed.

(** X7.  A column whose declared type passes none of the four tests
    ([real], [bit], [binary], ...) is uploaded as the raw texts of the
    file: nothing is stripped, replaced or parsed. *)
Theorem untyped_column_raw (db_schema table_name : string) (s : Dict.t string)
  (df : csv) (col dt : string) (raw : list string) :
  NoDup (Dict.keys s) ->
  Dict.get col s = Some dt ->
  Dict.get col (csv_columns df) = Some raw ->
  families dt = 0 ->
  PyStr.endswith "_Parsed" col = false ->
  Dict.get col (columns (fst (prepare L db_schema table_name s df)))
  = Some (map Str raw).
Proof.
  intros Hnd Hdt Hraw Hfam Hend.
  unfold families in Hfam.
  destruct (is_int_type dt) eqn:Hint; [simpl in Hfam; lia|].
  destruct (is_float_type dt) eqn:Hfloat; [simpl in Hfam; lia|].
  destruct (is_date_type dt) eqn:Hdate; [simpl in Hfam; lia|].
  destruct (is_text_type dt) eqn:Htext; [simpl in Hfam; lia|].
  rewrite columns_get.
  rewrite (prepare_file_column db_schema table_name s df col dt raw);
    try assumption; [|now apply not_derived_without_suffix].
  rewrite Htext. unfold coerce_column. rewrite Hint, Hfloat, Hdate.
  cbn [dtype_is_object dtype_of fst option_map values].
  now rewrite texts_fillna.
Qed.
End FileColumns.

(** ** The shape of the table handed to the upload (lines 110-169) *)

Section TableShape.
Variable float : Type.
Variable L : Pandas float.

Local Abbreviation cell := (cell float).
Local Abbreviation frame := (frame float).
Local Abbreviation series := (series float).

Lemma get_In_pair {V : Type} (k : string) (d : Dict.t V) (v : V) :
  Dict.get k d = Some v -> In (k, v) d.
Proof.
  induction d as [|[k' v'] d IH]; cbn [Dict.get]; [discriminate|].
  destruct (String.eqb k k') eqn:E.
  - apply String.eqb_eq in E. intros H. inversion H; subst. now left.
  - intros H. right. now apply IH.
Qed.

Lemma coerce_column_length (col dt : string) (c : series) :
  List.length (values (fst (coerce_column L col dt c))) = List.length (values c).
Proof.
  unfold coerce_column.
  destruct (is_int_type dt).
  { destruct (astype_Int64 L _) as [v2|] eqn:E; cbn [fst values].
    - apply astype_length in E.
      now rewrite E, length_map, to_numeric_length, length_map.
    - apply length_map. }
  destruct (is_float_type dt).
  { destruct (dtype_is_object c).
    - destruct (str_accessor (values c)); cbn [fst values]; [|reflexivity].
      now rewrite to_numeric_length, length_map.
    - cbn [fst values]. apply to_numeric_length. }
  destruct (is_date_type dt).
  { destruct (negb (PyStr.endswith "_Parsed" col)); cbn [fst values];
      [apply to_datetime_length | reflexivity]. }
  destruct (dtype_is_object c); cbn [fst values]; [apply length_map | reflexivity].
Qed.

Lemma coerce_types_nrows (s : Dict.t string) (df : frame) :
  nrows (fst (coerce_types L s df)) = nrows df.
Proof.
  unfold coerce_types. generalize (@nil entry). revert df.
  induction s as [|[c dt] s IH]; intros df lg; cbn [fold_left]; [reflexivity|].
  unfold coerce_step at 2. cbn [fst snd].
  destruct (Dict.get c (data df)) as [v|]; [|apply IH].
  destruct (coerce_column L c dt v) as [v' raised]. now rewrite IH.
Qed.

Lemma derive_columns_nrows (df : csv) (cols : list string) (f : frame) :
  nrows (fst (derive_columns L df cols f)) = nrows f.
Proof.
  unfold derive_columns. generalize (@nil entry). revert f.
  induction cols as [|c cols IH]; intros f lg; cbn [fold_left]; [reflexivity|].
  unfold derive_step at 2. cbn [fst snd].
  destruct (PyStr.endswith "_Parsed" c); [|apply IH].
  destruct (Dict.get (source_col_of c) (csv_columns df)); [|apply IH].
  now rewrite IH.
Qed.

Lemma normalize_blanks_rows (s : Dict.t string) (df : csv) :
  csv_rows (normalize_blanks s df) = csv_rows df.
Proof.
  unfold normalize_blanks. revert df.
  induction s as [|[c dt] s IH]; intros df; cbn [fold_left]; [reflexivity|].
  rewrite IH. unfold normalize_step.
  destruct (Dict.get c (csv_columns df)); [|reflexivity].
  now destruct (is_text_type dt).
Qed.

Lemma reconciled_length (s : Dict.t string) (df : csv) (k : string) (c : series) :
  csv_wf df ->
  NoDup (Dict.keys s) ->
  Dict.get k (data (reconciled s df)) = Some c ->
  List.length (values c) = csv_rows df.
Proof.
  intros Hwf Hnd. unfold reconciled, frame_of_csv. cbn [data].
  rewrite (get_map_values
             (fun _ x => {| dtype_of := object; values := map (@Str float) x |})).
  rewrite normalize_blanks_get by assumption. rewrite select_get.
  assert (Hraw : forall raw, Dict.get k (csv_columns df) = Some raw ->
                 List.length raw = csv_rows df).
  { intros raw Hget. apply get_In_pair in Hget.
    exact (proj1 (Forall_forall _ _) Hwf _ Hget). }
  destruct (PyStr.mem k _);
    [|destruct (Dict.get k s) as [dt|]; [destruct (is_text_type dt)|]; discriminate].
  destruct (Dict.get k (csv_columns df)) as [raw|];
    [|destruct (Dict.get k s) as [dt|]; [destruct (is_text_type dt)|]; discriminate].
  specialize (Hraw raw eq_refl).
  destruct (Dict.get k s) as [dt|]; [destruct (is_text_type dt)|];
    cbn [option_map]; intros H; inversion H; subst; cbn [values];
    now rewrite ?length_map.
Qed.

Lemma derive_column_length (raw : list string) :
  List.length (derive_column L raw) = List.length raw.
Proof.
  unfold derive_column. now rewrite length_map, to_datetime_length, !length_map.
Qed.

(** X2.  The table handed to the upload has the rows of the file: its
    index has the length of the file's, and every column, kept, derived
    or coerced, holds one value for each row. *)
Theorem prepared_table_rows (db_schema table_name : string) (s : Dict.t string)
  (df : csv) (k : string) (v : list cell) :
  csv_wf df ->
  NoDup (Dict.keys s) ->
  Dict.get k (columns (fst (prepare L db_schema table_name s df))) = Some v ->
  nrows (fst (prepare L db_schema table_name s df)) = csv_rows df
  /\ List.length v = csv_rows df.
Proof.
  intros Hwf Hnd Hget. split.
  - rewrite prepare_fst, coerce_types_nrows, derive_columns_nrows.
    unfold reconciled, frame_of_csv. cbn [nrows].
    now rewrite normalize_blanks_rows.
  - rewrite columns_get, prepare_fst, coerce_types_get in Hget by assumption.
    assert (Hder : forall x, Dict.get k (data (fst (derive_columns L df (Dict.keys s)
                                                     (reconciled s df)))) = Some x ->
                   List.length (values x) = csv_rows df).
    { intros x Hx. rewrite derive_columns_get in Hx.
      destruct (derived_from df (Dict.keys s) k) as [raw|] eqn:Ed.
      - inversion Hx; subst. cbn [values]. rewrite derive_column_length.
        unfold derived_from in Ed.
        destruct (PyStr.mem k (Dict.keys s) && PyStr.endswith "_Parsed" k);
          [|discriminate].
        apply get_In_pair in Ed. exact (proj1 (Forall_forall _ _) Hwf _ Ed).
      - now apply (reconciled_length s df k x). }
    destruct (Dict.get k (data (fst (derive_columns L df (Dict.keys s)
                                       (reconciled s df))))) as [x|];
      [|destruct (Dict.get k s); discriminate].
    specialize (Hder x eq_refl).
    destruct (Dict.get k s) as [dt|]; cbn [option_map] in Hget;
      inversion Hget; subst; [|assumption].
    now rewrite coerce_column_length.
Qed.

(** X17.  The table handed to the upload has distinct column names, all
    of them columns of the destination table, provided the file has
    distinct column names. *)
Theorem prepared_table_columns (db_schema table_name : string) (s : Dict.t string)
  (df : csv) :
  NoDup (Dict.keys (csv_columns df)) ->
  NoDup (Dict.keys (columns (fst (prepare L db_schema table_name s df))))
  /\ (forall col,
        In col (Dict.keys (columns (fst (prepare L db_schema table_name s df)))) ->
        In col (Dict.keys s)).
Proof.
  intros Hnd. split.
  - rewrite columns_keys, prepare_fst, coerce_types_keys.
    now apply derived_table_NoDup.
  - intros col Hin. rewrite columns_keys in Hin. apply prepare_keys in Hin.
    destruct Hin as [[_ Hin]|Hd].
    + exact Hin.
    + now apply derived_from_mem in Hd.
Qed.

(** X18.  The coercion works column by column: what it leaves in a
    column depends on the declared type and on that column only, its
    dtype and its values, so a column that fails or changes leaves the
    others as they would be without it; a column the schema does not
    name is not touched. *)
Theorem coercion_column_by_column (s : Dict.t string) (df df' : frame) (k : string) :
  NoDup (Dict.keys s) ->
  Dict.get k (data df) = Dict.get k (data df') ->
  Dict.get k (data (fst (coerce_types L s df)))
  = Dict.get k (data (fst (coerce_types L s df')))
  /\ Dict.get k (columns (fst (coerce_types L s df)))
     = Dict.get k (columns (fst (coerce_types L s df')))
  /\ (Dict.get k s = None ->
      Dict.get k (data (fst (coerce_types L s df))) = Dict.get k (data df)).
Proof.
  intros Hnd Hsame. rewrite !columns_get, !coerce_types_get by assumption.
  rewrite Hsame. split; [reflexivity|]. split; [reflexivity|]. now intros ->.
Qed.
End TableShape.

(** ** Runs that end early (lines 23-62, 64-83, 89-106, 182-185) *)

Section EarlyEnds.
Variable float : Type.
Variable L : Pandas float.
Variable w : world.

Local Abbreviation state := (state float).
Local Abbreviation row := (row float).

Lemma engine_ok_split :
  engine_ok w = true -> credentials_set w = true /\ connect w = None.
Proof.
  unfold engine_ok, credentials_set. intros H.
  apply andb_true_iff in H. destruct H as [Hc Hconn]. split; [exact Hc|].
  now destruct (connect w).
Qed.

(** X14.  When [DB_SERVER], [DB_DATABASE] or [DB_USER] is unset or empty
    the run ends at once: the missing configuration is logged as an
    error, the [ValueError] is caught by [upload_data] and logged as an
    unexpected error, and neither the server nor the file is touched.
    [DB_PASSWORD] is not asked for. *)
Theorem missing_credentials_end_run (filepath table_name : string)
  (table0 : list row) :
  credentials_set w = false ->
  run L w filepath table_name table0
  = (Return tt,
     {| trace := [Log (INFO, MsgStart filepath);
                  Log (ERROR, MsgEnvMissing);
                  Log (ERROR, MsgUnexpected ValueError)];
        table := table0 |}).
Proof.
  unfold credentials_set. intros Hcred.
  unfold run, upload_data, bind, try_except, get_db_engine, bind, log, emit, raise.
  rewrite Hcred. reflexivity.
Qed.

(** X15.  When the credentials are set and the connection fails with a
    database error, [get_db_engine] logs the connection string with the
    user, the server and the database (the password is not part of the
    entry), three hints and the original error, and raises again;
    [upload_data] logs the error as unexpected and returns.  No schema
    is fetched and no file is read. *)
Theorem connection_failure_end_run (filepath table_name : string)
  (table0 : list row) :
  credentials_set w = true ->
  connect w = Some SQLAlchemyError ->
  run L w filepath table_name table0
  = (Return tt,
     {| trace := [Log (INFO, MsgStart filepath);
                  Log (ERROR, MsgConnFailed (getenv w "DB_USER") (getenv w "DB_SERVER")
                                (getenv w "DB_DATABASE"));
                  Log (ERROR, MsgCheckFollowing);
                  Log (ERROR, MsgCheckCredentials);
                  Log (ERROR, MsgCheckRemote);
                  Log (ERROR, MsgCheckFirewall);
                  Log (ERROR, MsgOriginalError SQLAlchemyError);
                  Log (ERROR, MsgUnexpected SQLAlchemyError)];
        table := table0 |}).
Proof.
  unfold credentials_set. intros Hcred Hconn.
  unfold run, upload_data, bind, try_except, get_db_engine, bind, try_except,
    log, emit, raise.
  rewrite Hcred, Hconn. reflexivity.
Qed.

(** X9.  When the schema query fails with a database error,
    [get_table_schema] does not raise: it logs the error and returns
    [None]; [upload_data] then logs that it halts and returns, without
    reading the file or opening a transaction.  Any other exception of
    the query is raised to [upload_data], which logs it and returns. *)
Theorem schema_query_failure_halts (filepath table_name : string)
  (table0 : list row) (e : exn) :
  engine_ok w = true ->
  query_columns w table_name (db_schema_of w) = inr e ->
  run L w filepath table_name table0
  = (Return tt,
     {| trace :=
          [Log (INFO, MsgStart filepath);
           Log (INFO, MsgConnected);
           Log (INFO, MsgFetching (db_schema_of w) table_name)]
          ++ match e with
             | SQLAlchemyError =>
                 [Log (ERROR, MsgFetchFailed (db_schema_of w) table_name e);
                  Log (ERROR, MsgHalting (db_schema_of w) table_name)]
             | FileNotFoundError => [Log (ERROR, MsgFileNotFound filepath)]
             | _ => [Log (ERROR, MsgUnexpected e)]
             end;
        table := table0 |})
  /\ forall st : state,
       fst (get_table_schema w table_name (db_schema_of w) st)
       = match e with
         | SQLAlchemyError => Return None
         | _ => Raise e
         end.
Proof.
  intros Hok Hq. destruct (engine_ok_split Hok) as [Hcred Hconn].
  unfold credentials_set in Hcred. split.
  - unfold run, upload_data, bind, try_except, get_db_engine, get_table_schema,
      bind, try_except, log, emit, ret, raise.
    rewrite Hcred, Hconn. cbn [negb trace table]. fold (db_schema_of w).
    rewrite Hq. destruct e; reflexivity.
  - intros st.
    unfold get_table_schema, bind, try_except, log, emit, ret, raise.
    rewrite Hq. destruct e; reflexivity.
Qed.

(** X13.  When the file cannot be read the run ends after the attempt:
    a missing file is logged as "File not found", any other exception
    as an unexpected error; nothing is coerced and no transaction is
    opened. *)
Theorem unreadable_file_ends_run (filepath table_name : string)
  (table0 : list row) (rows : list (string * string)) (e : exn) :
  engine_ok w = true ->
  query_columns w table_name (db_schema_of w) = inl rows ->
  Dict.of_rows rows <> [] ->
  read_csv w filepath = inr e ->
  run L w filepath table_name table0
  = (Return tt,
     {| trace := [Log (INFO, MsgStart filepath);
                  Log (INFO, MsgConnected);
                  Log (INFO, MsgFetching (db_schema_of w) table_name);
                  Log (INFO, MsgReading filepath);
                  ReadCsv filepath;
                  Log (ERROR, match e with
                              | FileNotFoundError => MsgFileNotFound filepath
                              | _ => MsgUnexpected e
                              end)];
        table := table0 |}).
Proof.
  intros Hok Hq Hne Hread. destruct (engine_ok_split Hok) as [Hcred Hconn].
  unfold credentials_set in Hcred.
  unfold run, upload_data, bind, try_except, get_db_engine, get_table_schema,
    pd_read_csv, bind, try_except, log, emit, ret, raise.
  rewrite Hcred, Hconn. cbn [negb trace table]. fold (db_schema_of w).
  rewrite Hq. destruct (Dict.of_rows rows) as [|kv s'] eqn:E; [congruence|].
  cbn [trace table]. rewrite Hread. destruct e; reflexivity.
Qed.
End EarlyEnds.

(** ** The end of the upload (lines 173-180) *)

Section UploadEnd.
Variable float : Type.
Variable L : Pandas float.
Variable w : world.

Local Abbreviation state := (state float).
Local Abbreviation frame := (frame float).
Local Abbreviation row := (row float).

(** X12.  The entry "Data upload completed successfully" is logged
    inside the transaction, before the commit.  When every batch is
    accepted and the commit is refused, the log holds that entry and
    then the rollback and the error, and the destination table has
    none of the rows. *)
Theorem success_logged_before_commit (filepath table_name : string)
  (table0 : list row) (rows : list (string * string)) (df : csv) (e : exn) :
  engine_ok w = true ->
  query_columns w table_name (db_schema_of w) = inl rows ->
  Dict.of_rows rows <> [] ->
  read_csv w filepath = inl df ->
  let p := prepare L (db_schema_of w) table_name (Dict.of_rows rows) df in
  let bs := batches 5000 (rows_of (fst p)) in
  first_failure w 0 (List.length bs) = None ->
  commit w = Some e ->
  run L w filepath table_name table0
  = (Return tt,
     {| trace :=
          (opening_events w filepath table_name df ++ map Log (snd p)
           ++ [Log (INFO, MsgUploading (nrows (fst p)) (db_schema_of w) table_name);
               Begin]
           ++ map Insert bs
           ++ [Log (INFO, MsgUploadDone); Rollback]
           ++ write_error_entries filepath e)%list;
        table := table0 |}).
Proof.
  intros Hok Hq Hne Hread p bs Hbatches Hcommit.
  pose proof (reaches_intro w filepath table_name rows df Hok Hq Hne Hread)
    as Hreach.
  rewrite (run_reaches_upload float L w filepath table_name table0 _ _ Hreach).
  fold p.
  unfold upload, bind, try_except, with_begin, bind, log, emit, to_sql, raise.
  cbn [trace table]. fold bs.
  rewrite (insert_batches_ok float w 0 bs _ Hbatches). cbn [trace table].
  rewrite Hcommit. unfold opening_events, write_error_entries.
  destruct e; tidy_trace; reflexivity.
Qed.
End UploadEnd.

(** ** The schema name and the [.env] file (lines 25, 90) *)

Section DotenvSchema.
Variable float : Type.
Variable L : Pandas float.

Local Abbreviation state := (state float).
Local Abbreviation frame := (frame float).
Local Abbreviation row := (row float).

Lemma insert_batches_same_server (w w' : world) (k : nat) (bs : list (list row))
  (st : state) :
  (forall i, insert_batch w' i = insert_batch w i) ->
  insert_batches w' k bs st = insert_batches w k bs st.
Proof.
  intros Hsame. revert k st. induction bs as [|b bs IH]; intros k st;
    cbn [insert_batches]; [reflexivity|].
  rewrite Hsame. destruct (insert_batch w k); [reflexivity|].
  unfold bind. apply IH.
Qed.

Lemma upload_same_server (w w' : world) (db_schema table_name : string)
  (df : frame) (st : state) :
  (forall i, insert_batch w' i = insert_batch w i) ->
  commit w' = commit w ->
  upload w' db_schema table_name df st = upload w db_schema table_name df st.
Proof.
  intros Hsame Hcommit.
  unfold upload, bind, try_except, with_begin, bind, log, emit, to_sql.
  cbn [trace table]. rewrite (insert_batches_same_server w w') by assumption.
  now rewrite Hcommit.
Qed.

(** X11.  The schema name is read from the environment before the
    [.env] file is loaded: a [DB_SCHEMA] entry of the [.env] file
    changes nothing in a run, which uses the variable of the
    environment or else [tcn]. *)
Theorem dotenv_schema_ignored (w : world) (value filepath table_name : string)
  (table0 : list row) :
  run L (with_dotenv w "DB_SCHEMA" value) filepath table_name table0
  = run L w filepath table_name table0
  /\ db_schema_of (with_dotenv w "DB_SCHEMA" value)
     = match environ w "DB_SCHEMA" with
       | Some s => s
       | None => "tcn"
       end.
Proof.
  split; [|reflexivity].
  unfold run, upload_data, bind, try_except, get_db_engine, get_table_schema,
    pd_read_csv, bind, try_except, log, emit, ret, raise, getenv.
  cbn [with_dotenv environ dotenv connect query_columns read_csv String.eqb
       Ascii.eqb Bool.eqb andb].
  destruct (negb _); [reflexivity|].
  destruct (connect w) as [e|]; [reflexivity|]. cbn [trace table].
  destruct (query_columns w table_name _) as [rows|e]; [|reflexivity].
  destruct (Dict.of_rows rows) as [|kv s]; [reflexivity|]. cbn [trace table].
  destruct (read_csv w filepath) as [df|e]; [|reflexivity]. cbn [trace table].
  destruct (prepare L _ table_name (kv :: s) df) as [out entries].
  unfold bind.
  destruct (log_all entries _) as [[[]|e] st1]; [|reflexivity].
  now rewrite (upload_same_server w (with_dotenv w "DB_SCHEMA" value)).
Qed.
End DotenvSchema.

(** ** The further properties on concrete files *)

Lemma cases_schema_distinct : NoDup (Dict.keys Cases.schema).
Proof. cbn. distinct_names. Defined.

Lemma sample_file_distinct : NoDup (Dict.keys (csv_columns Sample.file)).
Proof. cbn. distinct_names. Defined.

Lemma sample_file_wf : csv_wf Sample.file.
Proof. unfold csv_wf. cbn. repeat constructor. Defined.

(** A text of three characters in the base column. *)
Lemma short_text_default_date_witness :
  nth_error (derive_column Sample.pandas ["2024-01-01 UTC"; "n/a"]) 1
  = Some (Time (-2208988800000000000)).
Proof.
  assert (Hlen : String.length "n/a" <= 4) by (cbn; lia).
  exact (proj2 (short_text_default_date float Sample.pandas
                  ["2024-01-01 UTC"; "n/a"] 1 "n/a"
                  sample_blank_is_no_date eq_refl Hlen)).
Defined.

(** A text column: white space, a no-break space included, and a
    placeholder. *)
Lemma text_column_normalized_witness :
  Dict.get "Name" (columns (fst (prepare Sample.pandas "tcn" "people"
                                   Cases.schema Cases.file)))
  = Some [Str "Ann"; Str ""].
Proof.
  exact (text_column_normalized float Sample.pandas "tcn" "people" Cases.schema
           Cases.file "Name" "nvarchar" [Cases.padded_name; "NULL"]
           cases_schema_distinct eq_refl eq_refl eq_refl eq_refl eq_refl eq_refl
           eq_refl).
Defined.

(** A date column: a date and a time, and a date alone, which is not in
    the format of the first text. *)
Lemma date_column_parsed_witness :
  Dict.get "Born" (data (fst (prepare Sample.pandas "tcn" "people"
                                Cases.schema Cases.births)))
  = Some {| dtype_of := object; values := [Time 981194400000000000; NA] |}.
Proof.
  exact (proj1 (date_column_parsed float Sample.pandas "tcn" "people" Cases.schema
                  Cases.births "Born" "date" ["2001-02-03 10:00:00"; "2001-02-03"]
                  cases_schema_distinct eq_refl eq_refl eq_refl eq_refl eq_refl
                  eq_refl eq_refl sample_blank_is_no_date)).
Defined.

(** A [_Parsed] column that the file brings itself. *)
Lemma parsed_named_file_column_raw_witness :
  Dict.get "Seen_Parsed" (columns (fst (prepare Sample.pandas "tcn" "people"
                                          Cases.schema Cases.file)))
  = Some [Str "2024-01-01"; Str "x"].
Proof.
  exact (parsed_named_file_column_raw float Sample.pandas "tcn" "people" Cases.schema
           Cases.file "Seen_Parsed" "datetime" ["2024-01-01"; "x"]
           cases_schema_distinct eq_refl eq_refl eq_refl eq_refl eq_refl eq_refl
           eq_refl eq_refl).
Defined.

(** A [real] column. *)
Lemma untyped_column_raw_witness :
  Dict.get "Score" (columns (fst (prepare Sample.pandas "tcn" "people"
                                    Cases.schema Cases.file)))
  = Some [Str "$1"; Str " 2 "].
Proof.
  exact (untyped_column_raw float Sample.pandas "tcn" "people" Cases.schema
           Cases.file "Score" "real" ["$1"; " 2 "]
           cases_schema_distinct eq_refl eq_refl eq_refl eq_refl).
Defined.

(** The integer column of the sample file has its three rows. *)
Lemma prepared_table_rows_witness :
  nrows (fst (prepare Sample.pandas "tcn" "recordDump" Sample.schema_rows Sample.file))
  = 3
  /\ List.length [@Int float 7; Int 0; Int 0] = 3.
Proof.
  exact (prepared_table_rows float Sample.pandas "tcn" "recordDump" Sample.schema_rows
           Sample.file "ID" [Int 7; Int 0; Int 0]
           sample_file_wf sample_schema_distinct eq_refl).
Defined.

(** The columns of the sample table. *)
Lemma prepared_table_columns_witness :
  NoDup (Dict.keys (columns (fst (prepare Sample.pandas "tcn" "recordDump"
                                    Sample.schema_rows Sample.file)))).
Proof.
  exact (proj1 (prepared_table_columns float Sample.pandas "tcn" "recordDump"
                  Sample.schema_rows Sample.file sample_file_distinct)).
Defined.

(** A fraction in the integer column does not change the decimal
    column. *)
Lemma coercion_column_by_column_witness :
  Dict.get "Amount"
    (data (fst (coerce_types Sample.pandas Sample.schema_rows
                  Cases.texts_with_fraction)))
  = Dict.get "Amount"
      (data (fst (coerce_types Sample.pandas Sample.schema_rows Sample.texts))).
Proof.
  exact (proj1 (coercion_column_by_column float Sample.pandas Sample.schema_rows
                  Cases.texts_with_fraction Sample.texts "Amount"
                  sample_schema_distinct eq_refl)).
Defined.

(** An empty [DB_SERVER]. *)
Lemma missing_credentials_end_run_witness :
  run Sample.pandas Cases.without_credentials "f.csv" "recordDump" []
  = (Return tt,
     {| trace := [Log (INFO, MsgStart "f.csv");
                  Log (ERROR, MsgEnvMissing);
                  Log (ERROR, MsgUnexpected ValueError)];
        table := [] |}).
Proof.
  exact (missing_credentials_end_run float Sample.pandas Cases.without_credentials
           "f.csv" "recordDump" [] eq_refl).
Defined.

(** A server that cannot be reached. *)
Lemma connection_failure_end_run_witness :
  trace (snd (run Sample.pandas Sample.unreachable_server "f.csv" "recordDump" []))
  = [Log (INFO, MsgStart "f.csv");
     Log (ERROR, MsgConnFailed (Some "x") (Some "x") (Some "x"));
     Log (ERROR, MsgCheckFollowing);
     Log (ERROR, MsgCheckCredentials);
     Log (ERROR, MsgCheckRemote);
     Log (ERROR, MsgCheckFirewall);
     Log (ERROR, MsgOriginalError SQLAlchemyError);
     Log (ERROR, MsgUnexpected SQLAlchemyError)].
Proof.
  rewrite (connection_failure_end_run float Sample.pandas Sample.unreachable_server
             "f.csv" "recordDump" [] eq_refl eq_refl).
  reflexivity.
Defined.

(** A schema query that fails. *)
Lemma schema_query_failure_halts_witness :
  run Sample.pandas Cases.failing_query "f.csv" "recordDump" []
  = (Return tt,
     {| trace := [Log (INFO, MsgStart "f.csv");
                  Log (INFO, MsgConnected);
                  Log (INFO, MsgFetching "tcn" "recordDump");
                  Log (ERROR, MsgFetchFailed "tcn" "recordDump" SQLAlchemyError);
                  Log (ERROR, MsgHalting "tcn" "recordDump")];
        table := [] |}).
Proof.
  exact (proj1 (schema_query_failure_halts float Sample.pandas Cases.failing_query
                  "f.csv" "recordDump" [] SQLAlchemyError eq_refl eq_refl)).
Defined.

(** A file that cannot be parsed. *)
Lemma unreadable_file_ends_run_witness :
  run Sample.pandas Cases.unreadable_file "f.csv" "recordDump" []
  = (Return tt,
     {| trace := [Log (INFO, MsgStart "f.csv");
                  Log (INFO, MsgConnected);
                  Log (INFO, MsgFetching "tcn" "recordDump");
                  Log (INFO, MsgReading "f.csv");
                  ReadCsv "f.csv";
                  Log (ERROR, MsgUnexpected OtherException)];
        table := [] |}).
Proof.
  assert (Hne : Dict.of_rows Sample.schema_rows <> []) by discriminate.
  exact (unreadable_file_ends_run float Sample.pandas Cases.unreadable_file
           "f.csv" "recordDump" [] Sample.schema_rows OtherException
           eq_refl eq_refl Hne eq_refl).
Defined.

(** A commit that is refused. *)
Lemma success_logged_before_commit_witness :
  let tr := trace (snd (run Sample.pandas Cases.refusing_commit "f.csv"
                          "recordDump" [])) in
  In (Log (INFO, MsgUploadDone)) tr
  /\ In Rollback tr
  /\ table (snd (run Sample.pandas Cases.refusing_commit "f.csv" "recordDump" []))
     = [].
Proof.
  assert (Hne : Dict.of_rows Sample.schema_rows <> []) by discriminate.
  pose proof (success_logged_before_commit float Sample.pandas Cases.refusing_commit
                "f.csv" "recordDump" [] Sample.schema_rows Sample.file
                SQLAlchemyError eq_refl eq_refl Hne eq_refl) as H.
  cbv zeta in H. specialize (H eq_refl eq_refl).
  cbv zeta. rewrite H. cbn [snd trace table].
  split; [|split; [|reflexivity]].
  - vm_compute. tauto.
  - vm_compute. tauto.
Defined.

(** ** Currency symbols and separators (line 159) *)

Lemma remove_char_from (c : ascii) (s : string) :
  PyStr.contains (String c "") (PyStr.replace (String c "") "" s) = false
  /\ forall d : ascii,
       PyStr.contains (String d "") s = false ->
       PyStr.contains (String d "") (PyStr.replace (String c "") "" s) = false.
Proof.
  unfold PyStr.replace.
  induction s as [|a s [IH1 IH2]]; [split; [reflexivity | now intros d _]|].
  cbn [PyStr.replace_from String.length Nat.sub append].
  change (prefix (String c "") (String a s))
    with (if ascii_dec c a then prefix "" s else false).
  assert (Hp : prefix "" s = true) by now destruct s.
  rewrite Hp.
  destruct (ascii_dec c a) as [->|Hne].
  - split; [exact IH1|]. intros d Hd. apply IH2.
    cbn [PyStr.contains] in Hd. apply orb_false_iff in Hd. tauto.
  - split.
    + cbn [PyStr.contains]. rewrite IH1, orb_false_r.
      change (prefix (String c "") (String a _))
        with (if ascii_dec c a then prefix "" (PyStr.replace_from (String c "") "" 0 s)
              else false).
      now destruct (ascii_dec c a).
    + intros d Hd. cbn [PyStr.contains] in Hd |- *.
      apply orb_false_iff in Hd. destruct Hd as [Hd1 Hd2].
      rewrite (IH2 d Hd2), orb_false_r.
      change (prefix (String d "") (String a s))
        with (if ascii_dec d a then prefix "" s else false) in Hd1.
      change (prefix (String d "") (String a _))
        with (if ascii_dec d a then prefix "" (PyStr.replace_from (String c "") "" 0 s)
              else false).
      destruct (ascii_dec d a); [|reflexivity].
      rewrite Hp in Hd1. discriminate.
Qed.

(** X21.  The text a decimal column hands to the numeric parser holds
    no [$] and no [,], wherever they stood in the text of the file. *)
Theorem stripped_text_has_no_currency (float : Type) (text : string) :
  let stripped := PyStr.replace "," "" (PyStr.replace "$" "" text) in
  strip_currency (Str text) = (Str stripped : cell float)
  /\ PyStr.contains "$" stripped = false
  /\ PyStr.contains "," stripped = false.
Proof.
  cbv zeta. split; [reflexivity|]. split.
  - apply (proj2 (remove_char_from "," (PyStr.replace "$" "" text))).
    apply (proj1 (remove_char_from "$" text)).
  - apply (proj1 (remove_char_from "," _)).
Qed.

(** ** What the stages log and in which order the columns come
    (lines 113-118, 138-146) *)

Section LogAndOrder.
Variable float : Type.
Variable L : Pandas float.

Local Abbreviation cell := (cell float).
Local Abbreviation frame := (frame float).

(** X19.  The discard warning is logged exactly when a column of the
    file is missing from the schema: a file whose columns are all
    columns of the table logs no discard, at any level. *)
Theorem discard_logged_iff (db_schema table_name : string) (s : Dict.t string)
  (df : csv) :
  NoDup (Dict.keys s) ->
  (exists lvl d,
     In (lvl, MsgDiscarding db_schema table_name d)
        (snd (prepare L db_schema table_name s df)))
  <-> exists col, In col (Dict.keys (csv_columns df)) /\ ~ In col (Dict.keys s).
Proof.
  intros Hnd. rewrite prepare_snd, derive_columns_log, coerce_types_log by assumption.
  split.
  - intros [lvl [d Hin]].
    apply in_app_or in Hin. destruct Hin as [Hin|Hin].
    + unfold discard_log in Hin.
      destruct (discarded_columns _ _) as [|c cs] eqn:E; [contradiction|].
      exists c.
      assert (Hc : In c (discarded_columns (Dict.keys (csv_columns df)) (Dict.keys s)))
        by (rewrite E; now left).
      unfold discarded_columns in Hc. apply filter_In in Hc.
      destruct Hc as [Hc1 Hc2]. apply negb_true_iff, mem_false_iff in Hc2. tauto.
    + exfalso. apply in_app_or in Hin. destruct Hin as [Hin|Hin].
      * apply in_flat_map in Hin. destruct Hin as [c [_ Hc]].
        unfold derive_entry in Hc.
        destruct (PyStr.endswith "_Parsed" c); [|contradiction].
        destruct (Dict.get (source_col_of c) (csv_columns df)); [|contradiction].
        destruct Hc as [Hc|[]]. discriminate.
      * apply in_flat_map in Hin. destruct Hin as [[c dt] [_ Hc]].
        unfold coerce_warning in Hc.
        destruct (Dict.get (fst (c, dt)) _); [|contradiction].
        destruct (snd (coerce_column L _ _ _)); [|contradiction].
        destruct Hc as [Hc|[]]. discriminate.
  - intros [col [Hin Hout]].
    exists WARNING,
      (discarded_columns (Dict.keys (csv_columns df)) (Dict.keys s)).
    apply in_or_app. left. unfold discard_log.
    destruct (discarded_columns _ _) as [|c cs] eqn:E; [|now left].
    assert (Hc : In col (discarded_columns (Dict.keys (csv_columns df)) (Dict.keys s))).
    { unfold discarded_columns. apply filter_In. split; [assumption|].
      now apply negb_true_iff, mem_false_iff. }
    rewrite E in Hc. contradiction.
Qed.

Lemma filter_all {A : Type} (l : list A) : filter (fun _ => true) l = l.
Proof.
  induction l as [|a l IH]; [reflexivity|]. cbn [filter]. now rewrite IH.
Qed.

Lemma derive_fold_keys (df : csv) (cols : list string) (acc : frame * list entry) :
  NoDup cols ->
  Dict.keys (data (fst (fold_left (derive_step L df) cols acc)))
  = (Dict.keys (data (fst acc))
     ++ filter (fun c => match derived_from df [c] c with
                         | Some _ => negb (PyStr.mem c (Dict.keys (data (fst acc))))
                         | None => false
                         end) cols)%list.
Proof.
  revert acc. induction cols as [|c cols IH]; intros acc Hnd; cbn [fold_left filter].
  - now rewrite app_nil_r.
  - inversion Hnd as [|? ? Hnotin Hnd']; subst.
    rewrite IH by assumption.
    assert (Hstep : Dict.keys (data (fst (derive_step L df acc c)))
                    = (Dict.keys (data (fst acc))
                       ++ match derived_from df [c] c with
                          | Some _ =>
                              if PyStr.mem c (Dict.keys (data (fst acc)))
                              then [] else [c]
                          | None => []
                          end)%list).
    { unfold derive_step, derived_from, PyStr.mem at 1. cbn [existsb].
      rewrite String.eqb_refl. cbn [orb andb].
      destruct (PyStr.endswith "_Parsed" c); [|now rewrite app_nil_r].
      destruct (Dict.get (source_col_of c) (csv_columns df)) as [raw|];
        [|now rewrite app_nil_r].
      cbn [fst]. unfold set_column. cbn [data].
      destruct (PyStr.mem c (Dict.keys (data (fst acc)))) eqn:Em.
      - apply mem_In in Em. rewrite keys_set_present by assumption.
        now rewrite app_nil_r.
      - apply mem_false_iff in Em. now apply keys_set_absent. }
    rewrite Hstep, <- app_assoc. f_equal.
    assert (Hrest : filter (fun c0 => match derived_from df [c0] c0 with
                            | Some _ => negb (PyStr.mem c0
                                   (Dict.keys (data (fst acc))
                                    ++ match derived_from df [c] c with
                                       | Some _ =>
                                           if PyStr.mem c (Dict.keys (data (fst acc)))
                                           then [] else [c]
                                       | None => []
                                       end))
                            | None => false
                            end) cols
                    = filter (fun c0 => match derived_from df [c0] c0 with
                            | Some _ => negb (PyStr.mem c0 (Dict.keys (data (fst acc))))
                            | None => false
                            end) cols).
    { apply filter_ext_in. intros c0 Hc0.
      destruct (derived_from df [c0] c0); [|reflexivity]. f_equal.
      unfold PyStr.mem. rewrite existsb_app.
      assert (Hne : existsb (String.eqb c0)
                      match derived_from df [c] c with
                      | Some _ => if existsb (String.eqb c)
                                       (Dict.keys (data (fst acc)))
                                  then [] else [c]
                      | None => []
                      end = false).
      { destruct (derived_from df [c] c); [|reflexivity].
        destruct (existsb (String.eqb c) _); [reflexivity|].
        cbn [existsb]. rewrite orb_false_r. apply String.eqb_neq.
        intros ->. contradiction. }
      now rewrite Hne, orb_false_r. }
    rewrite Hrest.
    destruct (derived_from df [c] c) as [raw|]; [|reflexivity].
    destruct (PyStr.mem c (Dict.keys (data (fst acc)))); reflexivity.
Qed.

(** X20.  The columns of the table handed to the upload come in this
    order: first the columns of the file that the schema names, in the
    order of the file; then the derived columns that the file does not
    hold itself, in the order of the schema.  A derived column that the
    file holds keeps the place of the file's column. *)
Theorem prepared_table_order (db_schema table_name : string) (s : Dict.t string)
  (df : csv) :
  NoDup (Dict.keys s) ->
  let kept := final_columns (Dict.keys (csv_columns df)) (Dict.keys s) in
  Dict.keys (columns (fst (prepare L db_schema table_name s df)))
  = (kept
     ++ filter (fun c => PyStr.endswith "_Parsed" c
                         && Dict.has_key (source_col_of c) (csv_columns df)
                         && negb (PyStr.mem c kept))
               (Dict.keys s))%list.
Proof.
  intros Hnd kept.
  rewrite columns_keys, prepare_fst, coerce_types_keys. unfold derive_columns.
  rewrite derive_fold_keys by assumption. cbn [fst].
  assert (Hkept : Dict.keys (data (@reconciled float s df)) = kept).
  { unfold reconciled. rewrite frame_of_csv_keys, normalize_blanks_keys.
    rewrite select_keys_filter. unfold kept, final_columns.
    rewrite (filter_ext_in _ (fun _ => true)); [apply filter_all|].
    intros c Hc. apply filter_In in Hc. destruct Hc as [Hc _].
    apply has_key_get. now apply In_get_Some. }
  rewrite Hkept. f_equal. apply filter_ext. intros c.
  unfold derived_from, PyStr.mem at 1. cbn [existsb].
  rewrite String.eqb_refl. cbn [orb andb].
  destruct (PyStr.endswith "_Parsed" c); [|reflexivity]. cbn [andb].
  destruct (Dict.get (source_col_of c) (csv_columns df)) as [raw|] eqn:E.
  - assert (Hk : Dict.has_key (source_col_of c) (csv_columns df) = true)
      by (apply has_key_get; eauto).
    now rewrite Hk.
  - assert (Hk : Dict.has_key (source_col_of c) (csv_columns df) = false).
    { destruct (Dict.has_key _ _) eqn:Ek; [|reflexivity].
      apply has_key_get in Ek. destruct Ek as [v Hv]. congruence. }
    now rewrite Hk.
Qed.
End LogAndOrder.

(** The columns of the sample table, in order. *)
Lemma prepared_table_order_witness :
  Dict.keys (columns (fst (prepare Sample.pandas "tcn" "recordDump"
                             Sample.schema_rows Sample.file)))
  = ["ID"; "Amount"; "EventDateTZ"; "EventDateTZ_Parsed"].
Proof.
  rewrite (prepared_table_order float Sample.pandas "tcn" "recordDump"
             Sample.schema_rows Sample.file sample_schema_distinct).
  reflexivity.
Defined.

(** The sample file has a column the schema does not name. *)
Lemma discard_logged_iff_witness :
  exists lvl d,
    In (lvl, MsgDiscarding "tcn" "recordDump" d)
       (snd (prepare Sample.pandas "tcn" "recordDump" Sample.schema_rows Sample.file)).
Proof.
  apply (proj2 (discard_logged_iff float Sample.pandas "tcn" "recordDump"
                  Sample.schema_rows Sample.file sample_schema_distinct)).
  exists "Junk". split; [cbn; tauto | cbn; intuition discriminate].
Defined.
